(** * Green_ship: the FuelEU compliance accounting engine

    A shallow embedding of the backend's accounting core
    (backend/src/core/domain/entities and backend/src/core/application/use-cases)
    and the properties its specification states about it.

    Conventions of the embedding.
    - A TypeScript [number] that carries a quantity (grams, tonnes, gCO2e/MJ,
      EUR) is an exact rational [Q]; the rounding of IEEE doubles, NaN and the
      infinities are outside the model.  Equality of quantities is [==].
    - A [number] that carries a calendar year is an integer [Z]; the year
      columns of the store are integer columns.
    - A [Date] is the integer number of milliseconds it wraps.
    - A method that throws returns [Throw e]; [e] names the message of the
      [Error] (the template parameters of a message are the constructor's
      arguments).  A method that mutates [this] returns the object as it is
      when the method exits, also when it exits by throwing.
    - Console output is not modelled. *)

From Stdlib Require Import ZArith QArith Qabs Qround List String Ascii Bool Lia Lqa.
From Stdlib Require Import Sorted.
Import ListNotations.

Open Scope Q_scope.

(* ================================================================== *)
(** ** JavaScript primitives used by the sources *)

Module Js.

(** [x < y] and [x >= y], [x === y] on numbers. *)
Definition ltb (x y : Q) : bool := negb (Qle_bool y x).
Definition geb (x y : Q) : bool := Qle_bool y x.
Definition gtb (x y : Q) : bool := ltb y x.
Definition leb (x y : Q) : bool := Qle_bool x y.
Definition eqb (x y : Q) : bool := Qeq_bool x y.

(** Truthiness of a number: [!x] holds exactly for [0] (NaN is outside
    the model). *)
Definition truthy (x : Q) : bool := negb (Qeq_bool x 0).
Definition truthyZ (x : Z) : bool := negb (x =? 0)%Z.

(** [Math.abs], [Math.max]. *)
Definition abs (x : Q) : Q := Qabs x.
Definition max (x y : Q) : Q := if Qle_bool x y then y else x.

(** White space removed by [String.prototype.trim], restricted to the
    one-byte characters: TAB, LF, VT, FF, CR and SPACE. *)
Definition is_space (c : ascii) : bool :=
  let n := nat_of_ascii c in
  (((9 <=? n) && (n <=? 13)) || (n =? 32))%nat.

Fixpoint dropSpaces (l : list ascii) : list ascii :=
  match l with
  | c :: l' => if is_space c then dropSpaces l' else l
  | [] => []
  end.

Definition trim (s : string) : string :=
  string_of_list_ascii
    (rev (dropSpaces (rev (dropSpaces (list_ascii_of_string s))))).

(** [!s || s.trim() === ''] for a string [s]. *)
Definition blank (s : string) : bool :=
  (s =? "")%string || (trim s =? "")%string.

(** [parseFloat(x.toFixed(2))]: the nearest multiple of 1/100, a tie going
    away from zero. *)
Definition toFixed2 (x : Q) : Q :=
  let n := Qfloor (Qabs x * 100 + 0.5) in
  if ltb x 0 then inject_Z (- n) / 100 else inject_Z n / 100.

(** [Array.prototype.findIndex]; [None] stands for [-1]. *)
Fixpoint findIndex {A : Type} (f : A -> bool) (l : list A) : option nat :=
  match l with
  | [] => None
  | x :: l' =>
      if f x then Some O
      else match findIndex f l' with
           | Some i => Some (S i)
           | None => None
           end
  end.

(** [l.splice(index, 1)] seen as the array it leaves behind. *)
Definition splice1 {A : Type} (index : nat) (l : list A) : list A :=
  firstn index l ++ skipn (S index) l.

(** [new Set(l).size] for an array of strings. *)
Definition setSize (l : list string) : nat :=
  List.length (nodup string_dec l).

End Js.

(* ================================================================== *)
(** ** Errors and results *)

(** The messages thrown by the engine, one constructor per message. *)
Inductive Error : Type :=
  | ShipIdRequired                 (* 'Ship ID is required' *)
  | YearOutOfRange                 (* 'Year must be between 2025 and 2030' *)
  | AmountNotPositive              (* 'Amount must be positive' *)
  | RemainingBalanceNegative       (* 'Remaining balance cannot be negative' *)
  | SourceYearRequired             (* 'Source year is required for BORROW transactions' *)
  | SourceYearOutOfRange           (* 'Source year must be between 2025 and 2030' *)
  | SourceYearNotBefore            (* 'Source year must be before the year of use' *)
  | CannotBorrow (amount available : Q)
                                   (* `Cannot borrow ${amount} gCO2e. Available balance: ...` *)
  | InsufficientBankedBalance (available requested : Q)
                                   (* `Insufficient banked balance. Available: ..., Requested: ...` *)
  | PoolNameRequired               (* 'Pool name is required' *)
  | PoolTooSmall                   (* 'Pool must have at least 2 members' *)
  | PoolDuplicateMembers           (* 'Pool cannot have duplicate members' *)
  | ShipAlreadyInPool (shipId : string)
                                   (* `Ship ${shipId} is already in the pool` *)
  | ShipNotInPool (shipId : string)
                                   (* `Ship ${shipId} is not in the pool` *)
  | PoolTooFewShips                (* 'Pool must have at least 2 ships' *)
  | PoolDuplicateShips            (* 'Cannot include the same ship multiple times in a pool' *)
  | PoolNameExists (poolName : string)
                                   (* `Pool with name "${poolName}" already exists` *)
  | NoBaselineRoute                (* 'No baseline route found. Please set a baseline first.' *)
  | NoBaselineRouteSet             (* 'No baseline route found. Please set a baseline route first.' *)
  | RouteNotFound (routeId : string)
                                   (* `Route ${routeId} not found` *)
  | RouteNotFoundForShip (routeId shipId : string).
                                   (* `Route ${routeId} not found for ship ${shipId}` *)

Inductive result (A : Type) : Type :=
  | Ok (a : A)
  | Throw (e : Error).
Arguments Ok {A} a.
Arguments Throw {A} e.

Definition bind {A B : Type} (r : result A) (k : A -> result B) : result B :=
  match r with
  | Ok a => k a
  | Throw e => Throw e
  end.

Notation "x <- r ;; k" := (bind r (fun x => k))
  (at level 61, r at next level, right associativity).

(** [if (c) throw new Error(e)]. *)
Definition throwIf (c : bool) (e : Error) : result unit :=
  if c then Throw e else Ok tt.

(** The 2025-2030 window every validator tests:
    [year < 2025 || year > 2030]. *)
Definition outside2025_2030 (year : Z) : bool :=
  ((year <? 2025) || (year >? 2030))%Z.

(* ================================================================== *)
(** ** Pool.entity.ts: class Pool *)

Module Pool.

Record PoolMember : Type := {
  shipId : string;
  complianceBalance : Q;
  contribution : Q;
  contributionTonnes : Q
}.

(** [IPoolProps], which is also the shape of the object's private state. *)
Record IPoolProps : Type := {
  id : option string;
  poolName : string;
  year : Z;
  members : list PoolMember;
  totalCB : Q;
  isCompliant : bool;
  createdBy : option string;
  createdAt : option Z;
  description : option string
}.

Record t : Type := {
  this_id : option string;
  this_poolName : string;
  this_year : Z;
  this_members : list PoolMember;
  this_totalCB : Q;
  this_isCompliant : bool;
  this_createdBy : option string;
  this_createdAt : Z;
  this_description : option string
}.

(** The exit of a mutating method: the object as the method leaves it,
    and the error when it left by [throw]. *)
Inductive outcome : Type :=
  | Returned (p : t)
  | Thrown (e : Error) (p : t).

Definition validate (props : IPoolProps) : result unit :=
  _ <- throwIf (Js.blank (poolName props)) PoolNameRequired ;;
  _ <- throwIf (outside2025_2030 (year props)) YearOutOfRange ;;
  _ <- throwIf (List.length (members props) <? 2)%nat PoolTooSmall ;;
  let shipIds := map shipId (members props) in
  _ <- throwIf (negb (List.length shipIds =? Js.setSize shipIds)%nat)
               PoolDuplicateMembers ;;
  Ok tt.

(** [new Pool(props)]; [now] is what [new Date()] returns. *)
Definition new (now : Z) (props : IPoolProps) : result t :=
  _ <- validate props ;;
  Ok {| this_id := id props;
        this_poolName := poolName props;
        this_year := year props;
        this_members := members props;
        this_totalCB := totalCB props;
        this_isCompliant := isCompliant props;
        this_createdBy := createdBy props;
        this_createdAt := match createdAt props with
                          | Some d => d
                          | None => now
                          end;
        this_description := description props |}.

(** [members.reduce((sum, member) => sum + member.complianceBalance, 0)] *)
Definition sumCB (ms : list PoolMember) : Q :=
  fold_left (fun sum member => sum + complianceBalance member) ms 0.

Definition createPool (now : Z) (poolName : string) (year : Z)
    (members : list PoolMember) (createdBy description : option string)
    : result t :=
  let totalCB := sumCB members in
  let isCompliant := Js.geb totalCB 0 in
  new now {| id := None;
             poolName := poolName;
             year := year;
             members := members;
             totalCB := totalCB;
             isCompliant := isCompliant;
             createdBy := createdBy;
             createdAt := None;
             description := description |}.

Definition set_members (p : t) (ms : list PoolMember) : t :=
  {| this_id := this_id p;
     this_poolName := this_poolName p;
     this_year := this_year p;
     this_members := ms;
     this_totalCB := this_totalCB p;
     this_isCompliant := this_isCompliant p;
     this_createdBy := this_createdBy p;
     this_createdAt := this_createdAt p;
     this_description := this_description p |}.

Definition recalculateTotalCB (p : t) : t :=
  let totalCB := sumCB (this_members p) in
  {| this_id := this_id p;
     this_poolName := this_poolName p;
     this_year := this_year p;
     this_members := this_members p;
     this_totalCB := totalCB;
     this_isCompliant := Js.geb totalCB 0;
     this_createdBy := this_createdBy p;
     this_createdAt := this_createdAt p;
     this_description := this_description p |}.

Definition addMember (member : PoolMember) (p : t) : outcome :=
  let exists_ :=
    existsb (fun m => (shipId m =? shipId member)%string) (this_members p) in
  if exists_ then Thrown (ShipAlreadyInPool (shipId member)) p
  else
    let p1 := set_members p (this_members p ++ [member]) in
    Returned (recalculateTotalCB p1).

Definition removeMember (shipId_ : string) (p : t) : outcome :=
  match Js.findIndex (fun m => (shipId m =? shipId_)%string) (this_members p) with
  | None => Thrown (ShipNotInPool shipId_) p
  | Some index =>
      let p1 := set_members p (Js.splice1 index (this_members p)) in
      if (List.length (this_members p1) <? 2)%nat then Thrown PoolTooSmall p1
      else Returned (recalculateTotalCB p1)
  end.

Definition getSurplusMembers (p : t) : list PoolMember :=
  filter (fun m => Js.gtb (complianceBalance m) 0) (this_members p).

Definition getDeficitMembers (p : t) : list PoolMember :=
  filter (fun m => Js.ltb (complianceBalance m) 0) (this_members p).

Definition getTotalSurplus (p : t) : Q :=
  fold_left (fun sum m => sum + complianceBalance m) (getSurplusMembers p) 0.

Definition getTotalDeficit (p : t) : Q :=
  Js.abs
    (fold_left (fun sum m => sum + complianceBalance m) (getDeficitMembers p) 0).

Definition getMember (shipId_ : string) (p : t) : option PoolMember :=
  find (fun m => (shipId m =? shipId_)%string) (this_members p).

Definition getTotalCBInTonnes (p : t) : Q := this_totalCB p / 1000000.

Definition calculatePenalty (p : t) : Q :=
  if this_isCompliant p then 0
  else
    let deficitTonnes := Js.abs (this_totalCB p) / 1000000 in
    deficitTonnes * 2400.

Definition getPenaltyPerMember (p : t) : Q :=
  let totalPenalty := calculatePenalty p in
  if Js.eqb totalPenalty 0 then 0
  else totalPenalty / inject_Z (Z.of_nat (List.length (this_members p))).

Definition getMemberCount (p : t) : nat := List.length (this_members p).

End Pool.

(* ================================================================== *)
(** ** BankingRecord.entity.ts: class BankingRecord *)

Module BankingRecord.

Inductive BankingTransactionType : Type := BANK | BORROW.

Definition isBORROW (k : BankingTransactionType) : bool :=
  match k with BORROW => true | BANK => false end.

(** A description is the caller's text or one of the two template
    strings of the factories; the tonnes are [(amount / 1000000)] printed
    with two decimals. *)
Inductive Description : Type :=
  | Text (s : string)
  | BankedFrom (tonnes : Q) (year : Z)
      (* `Banked ${(amount / 1000000).toFixed(2)} tonnes CO2e from ${year}` *)
  | BorrowedFor (tonnes : Q) (year : Z).
      (* `Borrowed ${(amount / 1000000).toFixed(2)} tonnes CO2e for ${year}` *)

Record IBankingRecordProps : Type := {
  id : option string;
  shipId : string;
  transactionType : BankingTransactionType;
  year : Z;
  amount : Q;
  sourceYear : option Z;
  remainingBalance : Q;
  transactionDate : option Z;
  description : option Description
}.

Record t : Type := {
  this_id : option string;
  this_shipId : string;
  this_transactionType : BankingTransactionType;
  this_year : Z;
  this_amount : Q;
  this_sourceYear : option Z;
  this_remainingBalance : Q;
  this_transactionDate : Z;
  this_description : option Description
}.

(** [!props.sourceYear]: the field is absent, or it is [0]. *)
Definition sourceYearMissing (sy : option Z) : bool :=
  match sy with
  | Some y => negb (Js.truthyZ y)
  | None => true
  end.

Definition validate (props : IBankingRecordProps) : result unit :=
  _ <- throwIf (Js.blank (shipId props)) ShipIdRequired ;;
  _ <- throwIf (outside2025_2030 (year props)) YearOutOfRange ;;
  _ <- throwIf (Js.leb (amount props) 0) AmountNotPositive ;;
  _ <- throwIf (Js.ltb (remainingBalance props) 0) RemainingBalanceNegative ;;
  _ <- throwIf (isBORROW (transactionType props)
                && sourceYearMissing (sourceYear props))
               SourceYearRequired ;;
  Ok tt.

(** [new BankingRecord(props)]; [now] is what [new Date()] returns. *)
Definition new (now : Z) (props : IBankingRecordProps) : result t :=
  _ <- validate props ;;
  Ok {| this_id := id props;
        this_shipId := shipId props;
        this_transactionType := transactionType props;
        this_year := year props;
        this_amount := amount props;
        this_sourceYear := sourceYear props;
        this_remainingBalance := remainingBalance props;
        this_transactionDate := match transactionDate props with
                                | Some d => d
                                | None => now
                                end;
        this_description := description props |}.

(** [description || template]: an absent or empty text gives the
    template. *)
Definition descriptionOr (description : option string)
    (template : Description) : Description :=
  match description with
  | Some s => if (s =? "")%string then template else Text s
  | None => template
  end.

Definition createBankTransaction (now : Z) (shipId : string) (year : Z)
    (amount currentBalance : Q) (description : option string) : result t :=
  new now {| id := None;
             shipId := shipId;
             transactionType := BANK;
             year := year;
             amount := amount;
             sourceYear := None;
             remainingBalance := currentBalance + amount;
             transactionDate := None;
             description :=
               Some (descriptionOr description
                       (BankedFrom (Js.toFixed2 (amount / 1000000)) year)) |}.

Definition createBorrowTransaction (now : Z) (shipId : string) (year : Z)
    (amount : Q) (sourceYear : Z) (currentBalance : Q)
    (description : option string) : result t :=
  _ <- throwIf (Js.gtb amount currentBalance)
               (CannotBorrow amount currentBalance) ;;
  new now {| id := None;
             shipId := shipId;
             transactionType := BORROW;
             year := year;
             amount := amount;
             sourceYear := Some sourceYear;
             remainingBalance := currentBalance - amount;
             transactionDate := None;
             description :=
               Some (descriptionOr description
                       (BorrowedFor (Js.toFixed2 (amount / 1000000)) year)) |}.

Definition isBankTransaction (r : t) : bool :=
  negb (isBORROW (this_transactionType r)).
Definition isBorrowTransaction (r : t) : bool :=
  isBORROW (this_transactionType r).
Definition getAmountInTonnes (r : t) : Q := this_amount r / 1000000.
Definition getRemainingBalanceInTonnes (r : t) : Q :=
  this_remainingBalance r / 1000000.

End BankingRecord.

(* ================================================================== *)
(** ** BankingRepository.ts over the banking_records table *)

Module BankingRepository.

(** A row of [banking_records] ([BankingRecordModel]); the two audit
    columns [created_at] and [updated_at] are left out. *)
Record BankingRecordModel : Type := {
  id : option string;
  ship_id : string;
  transaction_type : BankingRecord.BankingTransactionType;
  year : Z;
  amount : Q;
  source_year : option Z;
  remaining_balance : Q;
  transaction_date : option Z;
  description : option BankingRecord.Description
}.

(** The table, in the order the rows were inserted. *)
Definition table : Type := list BankingRecordModel.

Definition toDomain (now : Z) (model : BankingRecordModel)
    : result BankingRecord.t :=
  BankingRecord.new now
    {| BankingRecord.id := id model;
       BankingRecord.shipId := ship_id model;
       BankingRecord.transactionType := transaction_type model;
       BankingRecord.year := year model;
       BankingRecord.amount := amount model;
       BankingRecord.sourceYear := source_year model;
       BankingRecord.remainingBalance := remaining_balance model;
       BankingRecord.transactionDate := transaction_date model;
       BankingRecord.description := description model |}.

Definition toModel (record : BankingRecord.t) : BankingRecordModel :=
  {| id := None;
     ship_id := BankingRecord.this_shipId record;
     transaction_type := BankingRecord.this_transactionType record;
     year := BankingRecord.this_year record;
     amount := BankingRecord.this_amount record;
     source_year := BankingRecord.this_sourceYear record;
     remaining_balance := BankingRecord.this_remainingBalance record;
     transaction_date := Some (BankingRecord.this_transactionDate record);
     description := BankingRecord.this_description record |}.

Definition with_id (uuid : string) (m : BankingRecordModel)
    : BankingRecordModel :=
  {| id := Some uuid;
     ship_id := ship_id m;
     transaction_type := transaction_type m;
     year := year m;
     amount := amount m;
     source_year := source_year m;
     remaining_balance := remaining_balance m;
     transaction_date := transaction_date m;
     description := description m |}.

(** [save]: the row is inserted under the identifier [uuid] the store
    generates, and the saved row is read back as an entity. *)
Definition save (now : Z) (uuid : string) (record : BankingRecord.t)
    (db : table) : table * result BankingRecord.t :=
  let savedModel := with_id uuid (toModel record) in
  (db ++ [savedModel], toDomain now savedModel).

(** [ORDER BY transaction_date DESC]: is date [a] sorted strictly before
    date [b]?  A NULL date sorts first in a descending order. *)
Definition sortsBefore (a b : option Z) : bool :=
  match a, b with
  | None, Some _ => true
  | Some x, Some y => (y <? x)%Z
  | _, None => false
  end.

(** [findOne({ where: { ship_id }, order: { transaction_date: 'DESC' } })];
    among rows of one date the one inserted first is taken. *)
Definition findLatest (shipId : string) (db : table)
    : option BankingRecordModel :=
  fold_left
    (fun best row =>
       if (ship_id row =? shipId)%string then
         match best with
         | None => Some row
         | Some b =>
             if sortsBefore (transaction_date row) (transaction_date b)
             then Some row else Some b
         end
       else best)
    db None.

Definition getCurrentBalance (shipId : string) (db : table) : Q :=
  match findLatest shipId db with
  | None => 0
  | Some latestRecord => remaining_balance latestRecord
  end.

Definition findByShipId (shipId : string) (db : table)
    : list BankingRecordModel :=
  filter (fun row => (ship_id row =? shipId)%string) db.

End BankingRepository.

(* ================================================================== *)
(** ** BankSurplus.usecase.ts and ApplyBanking.usecase.ts *)

(** What a use case reads from its surroundings: the clock and the
    identifier the store generates for the next row. *)
Record Env : Type := { now : Z; uuid : string }.

Module BankSurplus.

Record BankSurplusInput : Type := {
  shipId : string;
  year : Z;
  amount : Q;
  description : option string
}.

(** The output DTO: [transaction] is [savedRecord], whose getters fill the
    DTO's identifier, ship, kind, year, amount, date and description; the
    [message] text is left out. *)
Record BankSurplusOutput : Type := {
  transaction : BankingRecord.t;
  amountTonnes : Q;
  previousBalance : Q;
  newBalance : Q;
  previousBalanceTonnes : Q;
  newBalanceTonnes : Q
}.

Definition validateInput (input : BankSurplusInput) : result unit :=
  _ <- throwIf (Js.blank (shipId input)) ShipIdRequired ;;
  _ <- throwIf (negb (Js.truthyZ (year input))
                || outside2025_2030 (year input)) YearOutOfRange ;;
  _ <- throwIf (negb (Js.truthy (amount input))
                || Js.leb (amount input) 0) AmountNotPositive ;;
  Ok tt.

Definition execute (env : Env) (input : BankSurplusInput)
    (db : BankingRepository.table)
    : BankingRepository.table * result BankSurplusOutput :=
  match validateInput input with
  | Throw e => (db, Throw e)
  | Ok _ =>
      let currentBalance :=
        BankingRepository.getCurrentBalance (shipId input) db in
      match BankingRecord.createBankTransaction (now env) (shipId input)
              (year input) (amount input) currentBalance (description input)
      with
      | Throw e => (db, Throw e)
      | Ok bankingRecord =>
          match BankingRepository.save (now env) (uuid env) bankingRecord db
          with
          | (db', Throw e) => (db', Throw e)
          | (db', Ok savedRecord) =>
              let newBalance :=
                BankingRecord.this_remainingBalance savedRecord in
              (db', Ok {| transaction := savedRecord;
                          amountTonnes := amount input / 1000000;
                          previousBalance := currentBalance;
                          newBalance := newBalance;
                          previousBalanceTonnes := currentBalance / 1000000;
                          newBalanceTonnes := newBalance / 1000000 |})
          end
      end
  end.

End BankSurplus.

Module ApplyBanking.

Record ApplyBankingInput : Type := {
  shipId : string;
  year : Z;
  amount : Q;
  sourceYear : Z;
  description : option string
}.

(** The output DTO: [transaction] is [savedRecord], whose getters fill the
    DTO's identifier, ship, kind, year, amount, source year, date and
    description; the [message] text is left out. *)
Record ApplyBankingOutput : Type := {
  transaction : BankingRecord.t;
  amountTonnes : Q;
  previousBalance : Q;
  newBalance : Q;
  previousBalanceTonnes : Q;
  newBalanceTonnes : Q
}.

Definition validateInput (input : ApplyBankingInput) : result unit :=
  _ <- throwIf (Js.blank (shipId input)) ShipIdRequired ;;
  _ <- throwIf (negb (Js.truthyZ (year input))
                || outside2025_2030 (year input)) YearOutOfRange ;;
  _ <- throwIf (negb (Js.truthy (amount input))
                || Js.leb (amount input) 0) AmountNotPositive ;;
  _ <- throwIf (negb (Js.truthyZ (sourceYear input))
                || outside2025_2030 (sourceYear input))
               SourceYearOutOfRange ;;
  _ <- throwIf (sourceYear input >=? year input)%Z SourceYearNotBefore ;;
  Ok tt.

Definition execute (env : Env) (input : ApplyBankingInput)
    (db : BankingRepository.table)
    : BankingRepository.table * result ApplyBankingOutput :=
  match validateInput input with
  | Throw e => (db, Throw e)
  | Ok _ =>
      let currentBalance :=
        BankingRepository.getCurrentBalance (shipId input) db in
      if Js.ltb currentBalance (amount input) then
        (db, Throw (InsufficientBankedBalance
                      (Js.toFixed2 (currentBalance / 1000000))
                      (Js.toFixed2 (amount input / 1000000))))
      else
        match BankingRecord.createBorrowTransaction (now env) (shipId input)
                (year input) (amount input) (sourceYear input)
                currentBalance (description input)
        with
        | Throw e => (db, Throw e)
        | Ok bankingRecord =>
            match BankingRepository.save (now env) (uuid env)
                    bankingRecord db
            with
            | (db', Throw e) => (db', Throw e)
            | (db', Ok savedRecord) =>
                let newBalance :=
                  BankingRecord.this_remainingBalance savedRecord in
                (db', Ok {| transaction := savedRecord;
                            amountTonnes := amount input / 1000000;
                            previousBalance := currentBalance;
                            newBalance := newBalance;
                            previousBalanceTonnes :=
                              currentBalance / 1000000;
                            newBalanceTonnes := newBalance / 1000000 |})
            end
        end
  end.

End ApplyBanking.

(* ================================================================== *)
(** ** Routes and the outbound ports *)

(** The part of a [Route] entity the use cases read through its getters. *)
Record Route : Type := {
  getRouteId : string;
  getVesselType : string;
  getFuelType : string;
  getYear : Z;
  getGHGIntensity : Q;
  getFuelConsumption : Q
}.

(** [IRouteRepository], as the answers the store gives during one request. *)
Record IRouteRepository : Type := {
  findAll : list Route;
  findByRouteId : string -> option Route;
  findBaseline : option Route
}.

(* ================================================================== *)
(** ** CompareRoutes.usecase.ts *)

Module CompareRoutes.

(** The object literal [FUELEU_TARGETS]: its six properties. *)
Record Targets : Type := {
  y2025 : Q; y2026 : Q; y2027 : Q; y2028 : Q; y2029 : Q; y2030 : Q
}.

Definition FUELEU_TARGETS : Targets :=
  {| y2025 := 89.3368;
     y2026 := 87.7528;
     y2027 := 86.1688;
     y2028 := 84.5848;
     y2029 := 83.0008;
     y2030 := 81.4168 |}.

(** [FUELEU_TARGETS[year]]; [None] is [undefined]. *)
Definition get (o : Targets) (year : Z) : option Q :=
  if (year =? 2025)%Z then Some (y2025 o)
  else if (year =? 2026)%Z then Some (y2026 o)
  else if (year =? 2027)%Z then Some (y2027 o)
  else if (year =? 2028)%Z then Some (y2028 o)
  else if (year =? 2029)%Z then Some (y2029 o)
  else if (year =? 2030)%Z then Some (y2030 o)
  else None.

(** [FUELEU_TARGETS[year] || FUELEU_TARGETS[2025]] *)
Definition targetOf (year : Z) : Q :=
  match get FUELEU_TARGETS year with
  | Some t => if Js.truthy t then t else y2025 FUELEU_TARGETS
  | None => y2025 FUELEU_TARGETS
  end.

Record RouteComparison : Type := {
  routeId : string;
  vesselType : string;
  fuelType : string;
  year : Z;
  ghgIntensity : Q;
  percentDiffFromBaseline : Q;
  compliant : bool;
  surplus : Q;
  deficit : Q
}.

Record ComparisonResponse : Type := {
  baseline : Route;
  target : Q;
  response_year : Z;
  comparisons : list RouteComparison
}.

(** The four lines that turn a route into a signed difference in grams. *)
Definition difference (target : Q) (route : Route) : Q :=
  let ghgIntensity := getGHGIntensity route in
  let energyInScope := getFuelConsumption route * 41000 in
  let actualEmissions := ghgIntensity * energyInScope in
  let targetEmissions := target * energyInScope in
  targetEmissions - actualEmissions.

(** The body of the [map] callback. *)
Definition compare (target : Q) (baselineRoute route : Route)
    : RouteComparison :=
  let ghgIntensity := getGHGIntensity route in
  let baselineIntensity := getGHGIntensity baselineRoute in
  let percentDiff :=
    ((ghgIntensity - baselineIntensity) / baselineIntensity) * 100 in
  let compliant := Js.leb ghgIntensity target in
  let difference := difference target route in
  {| routeId := getRouteId route;
     vesselType := getVesselType route;
     fuelType := getFuelType route;
     year := getYear route;
     ghgIntensity := ghgIntensity;
     percentDiffFromBaseline := Js.toFixed2 percentDiff;
     compliant := compliant;
     surplus := if compliant then Js.toFixed2 (difference / 1000000) else 0;
     deficit := if negb compliant
                then Js.toFixed2 (Js.abs difference / 1000000) else 0 |}.

(** [execute(year = 2025)]: [None] is the omitted argument. *)
Definition execute (year_arg : option Z) (routeRepository : IRouteRepository)
    : result ComparisonResponse :=
  let year := match year_arg with Some y => y | None => 2025%Z end in
  match findBaseline routeRepository with
  | None => Throw NoBaselineRoute
  | Some baselineRoute =>
      let target := targetOf year in
      let allRoutes := findAll routeRepository in
      let comparisons :=
        map (compare target baselineRoute)
            (filter (fun route =>
                       negb (getRouteId route =? getRouteId baselineRoute)%string)
                    allRoutes) in
      Ok {| baseline := baselineRoute;
            target := target;
            response_year := year;
            comparisons := comparisons |}
  end.

End CompareRoutes.

(* ================================================================== *)
(** ** ComplianceBalance *)

(** Modelled from the spec: ComplianceBalance.entity.ts, with
    [createFromRoute] and the getters the use cases call on its result,
    is not among the sources.  The definitions follow section 4.1 of the
    specification: energy-in-scope is fuel tonnes times 41000; the target
    comes from the fixed 2025-2030 table and a year outside it is a
    validation error; an empty or missing ship identifier is an error. *)
Module ComplianceBalance.

Record t : Type := {
  shipId : string;
  year : Z;
  energyInScope : Q;
  ghgTarget : Q;
  ghgActual : Q;
  complianceBalance : Q
}.

Definition targetTable (year : Z) : option Q :=
  match year with
  | 2025%Z => Some 89.3368
  | 2026%Z => Some 87.7528
  | 2027%Z => Some 86.1688
  | 2028%Z => Some 84.5848
  | 2029%Z => Some 83.0008
  | 2030%Z => Some 81.4168
  | _ => None
  end.

Definition createFromRoute (shipId_ : string) (year_ : Z)
    (fuelConsumptionTonnes ghgActual_ multiplier : Q) : result t :=
  _ <- throwIf (Js.blank shipId_) ShipIdRequired ;;
  match targetTable year_ with
  | None => Throw YearOutOfRange
  | Some target =>
      let energy := fuelConsumptionTonnes * 41000 in
      Ok {| shipId := shipId_;
            year := year_;
            energyInScope := energy;
            ghgTarget := target;
            ghgActual := ghgActual_;
            complianceBalance := (target - ghgActual_) * energy * multiplier |}
  end.

Definition isCompliant (cb : t) : bool := Js.geb (complianceBalance cb) 0.
Definition getSurplusAmount (cb : t) : Q := Js.max (complianceBalance cb) 0.
Definition getDeficitAmount (cb : t) : Q := Js.max (- complianceBalance cb) 0.
Definition calculatePenalty (cb : t) : Q :=
  (getDeficitAmount cb / 1000000) * 2400.

End ComplianceBalance.

(* ================================================================== *)
(** ** CalculateCB.usecase.ts *)

Module CalculateCB.

Record CalculateCBInput : Type := {
  shipId : string;
  year : Z;
  routeId : option string
}.

(** The output DTO without its two texts ([status] and [message]), which
    are printed from [isCompliant], [surplus], [deficit] and [penalty]. *)
Record CalculateCBOutput : Type := {
  out_shipId : string;
  out_year : Z;
  out_routeId : string;
  energyInScope : Q;
  fuelConsumption : Q;
  ghgTarget : Q;
  ghgActual : Q;
  complianceBalance : Q;
  complianceBalanceTonnes : Q;
  isCompliant : bool;
  surplus : Q;
  deficit : Q;
  surplusTonnes : Q;
  deficitTonnes : Q;
  penalty : Q
}.

Definition validateInput (input : CalculateCBInput) : result unit :=
  _ <- throwIf (Js.blank (shipId input)) ShipIdRequired ;;
  _ <- throwIf (negb (Js.truthyZ (year input))
                || outside2025_2030 (year input)) YearOutOfRange ;;
  Ok tt.

(** [if (input.routeId) ... else ...]: an absent or empty route id is
    falsy and selects the baseline route; [notFound] is the error of the
    first branch. *)
Definition resolveRoute (routeId : option string) (notFound : string -> Error)
    (routeRepository : IRouteRepository) : result Route :=
  let useBaseline :=
    match findBaseline routeRepository with
    | None => Throw NoBaselineRouteSet
    | Some route => Ok route
    end in
  match routeId with
  | Some rid =>
      if (rid =? "")%string then useBaseline
      else
        match findByRouteId routeRepository rid with
        | None => Throw (notFound rid)
        | Some route => Ok route
        end
  | None => useBaseline
  end.

Definition execute (input : CalculateCBInput)
    (routeRepository : IRouteRepository) : result CalculateCBOutput :=
  _ <- validateInput input ;;
  route <- resolveRoute (routeId input) RouteNotFound routeRepository ;;
  let fuelConsumption := getFuelConsumption route in
  let ghgActual := getGHGIntensity route in
  cb <- ComplianceBalance.createFromRoute (shipId input) (year input)
          fuelConsumption ghgActual 1.0 ;;
  let complianceBalanceGrams := ComplianceBalance.complianceBalance cb in
  let complianceBalanceTonnes := complianceBalanceGrams / 1000000 in
  let surplus := ComplianceBalance.getSurplusAmount cb in
  let deficit := ComplianceBalance.getDeficitAmount cb in
  let penalty := ComplianceBalance.calculatePenalty cb in
  Ok {| out_shipId := shipId input;
        out_year := year input;
        out_routeId := getRouteId route;
        energyInScope := ComplianceBalance.energyInScope cb;
        fuelConsumption := fuelConsumption;
        ghgTarget := ComplianceBalance.ghgTarget cb;
        ghgActual := ComplianceBalance.ghgActual cb;
        complianceBalance := complianceBalanceGrams;
        complianceBalanceTonnes := Js.toFixed2 complianceBalanceTonnes;
        isCompliant := ComplianceBalance.isCompliant cb;
        surplus := surplus;
        deficit := deficit;
        surplusTonnes := Js.toFixed2 (surplus / 1000000);
        deficitTonnes := Js.toFixed2 (deficit / 1000000);
        penalty := Js.toFixed2 penalty |}.

End CalculateCB.

(* ================================================================== *)
(** ** CreatePool.usecase.ts *)

Module CreatePool.

Record ShipInput : Type := {
  shipId : string;
  routeId : option string
}.

Record CreatePoolInput : Type := {
  poolName : string;
  year : Z;
  ships : list ShipInput;
  createdBy : option string;
  description : option string
}.

Definition validateInput (input : CreatePoolInput) : result unit :=
  _ <- throwIf (Js.blank (poolName input)) PoolNameRequired ;;
  _ <- throwIf (negb (Js.truthyZ (year input))
                || outside2025_2030 (year input)) YearOutOfRange ;;
  _ <- throwIf (List.length (ships input) <? 2)%nat PoolTooFewShips ;;
  let shipIds := map shipId (ships input) in
  _ <- throwIf (negb (List.length shipIds =? Js.setSize shipIds)%nat)
               PoolDuplicateShips ;;
  Ok tt.

(** One turn of the [for (const shipInput of input.ships)] loop. *)
Definition memberOf (year : Z) (routeRepository : IRouteRepository)
    (shipInput : ShipInput) : result Pool.PoolMember :=
  route <- CalculateCB.resolveRoute (routeId shipInput)
             (fun rid => RouteNotFoundForShip rid (shipId shipInput))
             routeRepository ;;
  cb <- ComplianceBalance.createFromRoute (shipId shipInput) year
          (getFuelConsumption route) (getGHGIntensity route) 1.0 ;;
  let complianceBalance := ComplianceBalance.complianceBalance cb in
  let contributionTonnes := complianceBalance / 1000000 in
  Ok {| Pool.shipId := shipId shipInput;
        Pool.complianceBalance := complianceBalance;
        Pool.contribution := complianceBalance;
        Pool.contributionTonnes := Js.toFixed2 contributionTonnes |}.

Fixpoint membersOf (year : Z) (routeRepository : IRouteRepository)
    (ships : list ShipInput) : result (list Pool.PoolMember) :=
  match ships with
  | [] => Ok []
  | shipInput :: rest =>
      m <- memberOf year routeRepository shipInput ;;
      ms <- membersOf year routeRepository rest ;;
      Ok (m :: ms)
  end.

(** [execute] up to the entity it hands to [poolRepository.save];
    [nameTaken] is whether [poolRepository.findByName] found a pool. *)
Definition execute (now : Z) (input : CreatePoolInput) (nameTaken : bool)
    (routeRepository : IRouteRepository) : result Pool.t :=
  _ <- validateInput input ;;
  _ <- throwIf nameTaken (PoolNameExists (poolName input)) ;;
  poolMembers <- membersOf (year input) routeRepository (ships input) ;;
  Pool.createPool now (poolName input) (year input) poolMembers
    (createdBy input) (description input).

End CreatePool.

(* ================================================================== *)
(** ** Rejections of the query and store operations *)

(** What an [async] operation rejects with: an error of the engine above,
    or one of the messages only the operations below throw. *)
Inductive Failure : Type :=
  | Known (e : Error)
  | EitherPoolIdOrName          (* 'Either poolId or poolName must be provided' *)
  | PoolNotFound                (* 'Pool not found' *)
  | RouteIdRequired.            (* 'Route ID is required' *)

Inductive answer (A : Type) : Type :=
  | Resolved (a : A)
  | Rejected (f : Failure).
Arguments Resolved {A} a.
Arguments Rejected {A} f.

(** A [result] of the engine as the answer of the operation awaiting it. *)
Definition await {A : Type} (r : result A) : answer A :=
  match r with
  | Ok a => Resolved a
  | Throw e => Rejected (Known e)
  end.

(** Truthiness of an optional string and of an optional year: absent, empty
    and 0 are falsy. *)
Definition truthyString (s : option string) : bool :=
  match s with
  | Some s' => negb (s' =? "")%string
  | None => false
  end.

Definition truthyYear (y : option Z) : bool :=
  match y with
  | Some y' => Js.truthyZ y'
  | None => false
  end.

(** The argument of a truthy optional value. *)
Definition the {A : Type} (d : A) (o : option A) : A :=
  match o with
  | Some a => a
  | None => d
  end.

(** [IPoolRepository], read side, as the answers the store gives during
    one request. *)
Module IPoolRepository.

Record t : Type := {
  findById : string -> option Pool.t;
  findByName : string -> option Pool.t;
  findByYear : Z -> list Pool.t;
  findByShipId : string -> list Pool.t;
  findAll : list Pool.t
}.

End IPoolRepository.

(* ================================================================== *)
(** ** GetPoolDetails.usecase.ts *)

Module GetPoolDetails.

Record GetPoolDetailsInput : Type := {
  poolId : option string;
  poolName : option string
}.

(** The two labels ['surplus' | 'deficit'] and ['compliant' |
    'non-compliant']. *)
Inductive Contribution : Type := surplus | deficit.
Inductive Status : Type := compliant | non_compliant.

Record MemberDTO : Type := {
  shipId : string;
  complianceBalance : Q;
  complianceBalanceTonnes : Q;
  contribution : Contribution
}.

Record PoolDTO : Type := {
  id : option string;
  out_poolName : string;
  year : Z;
  memberCount : nat;
  members : list MemberDTO;
  totalCB : Q;
  totalCBTonnes : Q;
  totalSurplus : Q;
  totalDeficit : Q;
  totalSurplusTonnes : Q;
  totalDeficitTonnes : Q;
  surplusMembers : nat;
  deficitMembers : nat;
  isCompliant : bool;
  status : Status;
  penalty : Q;
  penaltyPerMember : Q;
  createdBy : option string;
  createdAt : Z;
  description : option string
}.

(** The callback of [pool.getMembers().map(...)]. *)
Definition memberDTO (m : Pool.PoolMember) : MemberDTO :=
  {| shipId := Pool.shipId m;
     complianceBalance := Pool.complianceBalance m;
     complianceBalanceTonnes := Pool.contributionTonnes m;
     contribution :=
       if Js.geb (Pool.complianceBalance m) 0 then surplus else deficit |}.

(** The formatting of a found pool. *)
Definition format (pool : Pool.t) : PoolDTO :=
  let totalCB := Pool.this_totalCB pool in
  let totalCBTonnes := Pool.getTotalCBInTonnes pool in
  let isCompliant := Pool.this_isCompliant pool in
  let totalSurplus := Pool.getTotalSurplus pool in
  let totalDeficit := Pool.getTotalDeficit pool in
  let surplusMembers := Pool.getSurplusMembers pool in
  let deficitMembers := Pool.getDeficitMembers pool in
  let penalty := Pool.calculatePenalty pool in
  let penaltyPerMember := Pool.getPenaltyPerMember pool in
  {| id := Pool.this_id pool;
     out_poolName := Pool.this_poolName pool;
     year := Pool.this_year pool;
     memberCount := Pool.getMemberCount pool;
     members := map memberDTO (Pool.this_members pool);
     totalCB := totalCB;
     totalCBTonnes := Js.toFixed2 totalCBTonnes;
     totalSurplus := totalSurplus;
     totalDeficit := totalDeficit;
     totalSurplusTonnes := Js.toFixed2 (totalSurplus / 1000000);
     totalDeficitTonnes := Js.toFixed2 (totalDeficit / 1000000);
     surplusMembers := List.length surplusMembers;
     deficitMembers := List.length deficitMembers;
     isCompliant := isCompliant;
     status := if isCompliant then compliant else non_compliant;
     penalty := Js.toFixed2 penalty;
     penaltyPerMember := Js.toFixed2 penaltyPerMember;
     createdBy := Pool.this_createdBy pool;
     createdAt := Pool.this_createdAt pool;
     description := Pool.this_description pool |}.

Definition execute (input : GetPoolDetailsInput)
    (poolRepository : IPoolRepository.t) : answer PoolDTO :=
  if negb (truthyString (poolId input)) && negb (truthyString (poolName input))
  then Rejected EitherPoolIdOrName
  else
    let pool :=
      if truthyString (poolId input) then
        IPoolRepository.findById poolRepository (the ""%string (poolId input))
      else if truthyString (poolName input) then
        IPoolRepository.findByName poolRepository
          (the ""%string (poolName input))
      else None in
    match pool with
    | None => Rejected PoolNotFound
    | Some pool => Resolved (format pool)
    end.

End GetPoolDetails.

(* ================================================================== *)
(** ** GetAllPools.usecase.ts *)

Module GetAllPools.

Record GetAllPoolsInput : Type := {
  year : option Z;
  shipId : option string
}.

Record PoolSummary : Type := {
  id : option string;
  poolName : string;
  out_year : Z;
  memberCount : nat;
  totalCBTonnes : Q;
  isCompliant : bool;
  status : GetPoolDetails.Status;
  createdAt : Z
}.

Record GetAllPoolsOutput : Type := {
  totalPools : nat;
  compliantPools : nat;
  nonCompliantPools : nat;
  pools : list PoolSummary
}.

(** The filter the input selects. *)
Definition select (input : GetAllPoolsInput)
    (poolRepository : IPoolRepository.t) : list Pool.t :=
  if truthyYear (year input) then
    IPoolRepository.findByYear poolRepository (the 0%Z (year input))
  else if truthyString (shipId input) then
    IPoolRepository.findByShipId poolRepository (the ""%string (shipId input))
  else IPoolRepository.findAll poolRepository.

Definition summary (pool : Pool.t) : PoolSummary :=
  {| id := Pool.this_id pool;
     poolName := Pool.this_poolName pool;
     out_year := Pool.this_year pool;
     memberCount := Pool.getMemberCount pool;
     totalCBTonnes := Js.toFixed2 (Pool.getTotalCBInTonnes pool);
     isCompliant := Pool.this_isCompliant pool;
     status := if Pool.this_isCompliant pool
               then GetPoolDetails.compliant else GetPoolDetails.non_compliant;
     createdAt := Pool.this_createdAt pool |}.

Definition execute (input : GetAllPoolsInput)
    (poolRepository : IPoolRepository.t) : GetAllPoolsOutput :=
  let pools := select input poolRepository in
  let compliantPools := List.length (filter Pool.this_isCompliant pools) in
  let nonCompliantPools := (List.length pools - compliantPools)%nat in
  {| totalPools := List.length pools;
     compliantPools := compliantPools;
     nonCompliantPools := nonCompliantPools;
     pools := map summary pools |}.

End GetAllPools.

(* ================================================================== *)
(** ** PoolRepository.ts over the pools table *)

Module PoolRepository.

(** A row of [pools] ([PoolModel]); [members] is the JSONB array already
    parsed, and the audit column [updated_at] is left out. *)
Record PoolModel : Type := {
  id : option string;
  pool_name : string;
  year : Z;
  members : list Pool.PoolMember;
  total_cb : Q;
  is_compliant : bool;
  created_by : option string;
  description : option string;
  created_at : option Z
}.

Definition table : Type := list PoolModel.

Definition toDomain (now : Z) (model : PoolModel) : result Pool.t :=
  Pool.new now
    {| Pool.id := id model;
       Pool.poolName := pool_name model;
       Pool.year := year model;
       Pool.members := members model;
       Pool.totalCB := total_cb model;
       Pool.isCompliant := is_compliant model;
       Pool.createdBy := created_by model;
       Pool.createdAt := created_at model;
       Pool.description := description model |}.

Definition toModel (pool : Pool.t) : PoolModel :=
  {| id := None;
     pool_name := Pool.this_poolName pool;
     year := Pool.this_year pool;
     members := Pool.this_members pool;
     total_cb := Pool.this_totalCB pool;
     is_compliant := Pool.this_isCompliant pool;
     created_by := Pool.this_createdBy pool;
     description := Pool.this_description pool;
     created_at := None |}.

(** The row as the store holds it after the insert: the generated
    identifier and the creation date are filled in. *)
Definition inserted (env : Env) (m : PoolModel) : PoolModel :=
  {| id := Some (uuid env);
     pool_name := pool_name m;
     year := year m;
     members := members m;
     total_cb := total_cb m;
     is_compliant := is_compliant m;
     created_by := created_by m;
     description := description m;
     created_at := Some (now env) |}.

Definition save (env : Env) (pool : Pool.t) (db : table)
    : table * result Pool.t :=
  let savedModel := inserted env (toModel pool) in
  (db ++ [savedModel], toDomain (now env) savedModel).

Definition hasId (id_ : string) (m : PoolModel) : bool :=
  match id m with
  | Some i => (i =? id_)%string
  | None => false
  end.

(** [findOne({ where: { id } })], then [toDomain]. *)
Definition findById (now : Z) (id_ : string) (db : table)
    : result (option Pool.t) :=
  match find (hasId id_) db with
  | None => Ok None
  | Some model => pool <- toDomain now model ;; Ok (Some pool)
  end.

(** [findOne({ where: { pool_name } })], then [toDomain]. *)
Definition findByName (now : Z) (poolName : string) (db : table)
    : result (option Pool.t) :=
  match find (fun m => (pool_name m =? poolName)%string) db with
  | None => Ok None
  | Some model => pool <- toDomain now model ;; Ok (Some pool)
  end.


End PoolRepository.

(* ================================================================== *)
(** ** RouteRepository.ts over the routes table, SetBaseline.usecase.ts *)

Module RouteRepository.

(** A row of [routes] ([RouteModel]) without its two audit columns. *)
Record RouteModel : Type := {
  id : string;
  route_id : string;
  vessel_type : string;
  fuel_type : string;
  year : Z;
  ghg_intensity : Q;
  fuel_consumption : Q;
  distance : Q;
  is_baseline : bool
}.

Definition table : Type := list RouteModel.

(** The constructor of the [Route] entity, whose class is not among the
    sources: [toDomain] hands it the row's columns and it returns the entity
    or throws. *)
Definition RouteConstructor : Type := RouteModel -> result Route.

Definition toDomain (newRoute : RouteConstructor) (model : RouteModel)
    : result Route :=
  newRoute model.

Definition set_is_baseline (flag : bool) (m : RouteModel) : RouteModel :=
  {| id := id m;
     route_id := route_id m;
     vessel_type := vessel_type m;
     fuel_type := fuel_type m;
     year := year m;
     ghg_intensity := ghg_intensity m;
     fuel_consumption := fuel_consumption m;
     distance := distance m;
     is_baseline := flag |}.

(** [repository.update(where, set)] for the two updates of [setBaseline]. *)
Definition update (where_ : RouteModel -> bool) (flag : bool) (db : table)
    : table :=
  map (fun m => if where_ m then set_is_baseline flag m else m) db.

Definition findByRouteId (newRoute : RouteConstructor) (routeId : string)
    (db : table) : result (option Route) :=
  match find (fun m => (route_id m =? routeId)%string) db with
  | None => Ok None
  | Some routeModel =>
      route <- toDomain newRoute routeModel ;; Ok (Some route)
  end.

Definition findBaseline (newRoute : RouteConstructor) (db : table)
    : result (option Route) :=
  match find is_baseline db with
  | None => Ok None
  | Some routeModel =>
      route <- toDomain newRoute routeModel ;; Ok (Some route)
  end.

Definition setBaseline (newRoute : RouteConstructor) (routeId : string)
    (db : table) : table * result Route :=
  let db1 := update is_baseline false db in
  let db2 := update (fun m => (route_id m =? routeId)%string) true db1 in
  match findByRouteId newRoute routeId db2 with
  | Throw e => (db2, Throw e)
  | Ok None => (db2, Throw (RouteNotFound routeId))
  | Ok (Some updatedRoute) => (db2, Ok updatedRoute)
  end.

End RouteRepository.

Module SetBaseline.

Definition execute (newRoute : RouteRepository.RouteConstructor)
    (routeId : string) (db : RouteRepository.table)
    : RouteRepository.table * answer Route :=
  if Js.blank routeId then (db, Rejected RouteIdRequired)
  else
    match RouteRepository.findByRouteId newRoute routeId db with
    | Throw e => (db, Rejected (Known e))
    | Ok None => (db, Rejected (Known (RouteNotFound routeId)))
    | Ok (Some _) =>
        let (db', updatedRoute) :=
          RouteRepository.setBaseline newRoute routeId db in
        (db', await updatedRoute)
    end.

End SetBaseline.

(* ================================================================== *)
(** ** GetBankingHistory.usecase.ts and the repository's listings *)

Module GetBankingHistory.

(** [ORDER BY transaction_date ASC]: is date [a] at most date [b]?  A NULL
    date sorts last in an ascending order. *)
Definition dateLeb (a b : option Z) : bool :=
  match a, b with
  | Some x, Some y => (x <=? y)%Z
  | _, None => true
  | None, Some _ => false
  end.

(** The ascending order, rows of one date keeping their order of
    insertion. *)
Fixpoint insertByDate (r : BankingRepository.BankingRecordModel)
    (l : list BankingRepository.BankingRecordModel)
    : list BankingRepository.BankingRecordModel :=
  match l with
  | [] => [r]
  | x :: l' =>
      if dateLeb (BankingRepository.transaction_date r)
                 (BankingRepository.transaction_date x)
      then r :: l
      else x :: insertByDate r l'
  end.

Definition orderAsc (l : list BankingRepository.BankingRecordModel)
    : list BankingRepository.BankingRecordModel :=
  fold_right insertByDate [] l.

(** [models.map(model => this.toDomain(model))]: the first row the
    constructor refuses makes the whole listing throw. *)
Fixpoint toDomainAll (now : Z) (models : list BankingRepository.BankingRecordModel)
    : result (list BankingRecord.t) :=
  match models with
  | [] => Ok []
  | model :: rest =>
      record <- BankingRepository.toDomain now model ;;
      records <- toDomainAll now rest ;;
      Ok (record :: records)
  end.

Definition findByShipId (now : Z) (shipId : string)
    (db : BankingRepository.table) : result (list BankingRecord.t) :=
  toDomainAll now
    (orderAsc
       (filter (fun row => (BankingRepository.ship_id row =? shipId)%string)
          db)).

Definition findByShipIdAndYear (now : Z) (shipId : string) (year : Z)
    (db : BankingRepository.table) : result (list BankingRecord.t) :=
  toDomainAll now
    (orderAsc
       (filter (fun row =>
                  (BankingRepository.ship_id row =? shipId)%string
                  && (BankingRepository.year row =? year)%Z)
          db)).

Record GetBankingHistoryInput : Type := {
  shipId : string;
  year : option Z
}.

Record BankingTransactionDTO : Type := {
  id : option string;
  transactionType : BankingRecord.BankingTransactionType;
  dto_year : Z;
  amount : Q;
  amountTonnes : Q;
  sourceYear : option Z;
  remainingBalance : Q;
  remainingBalanceTonnes : Q;
  transactionDate : Z;
  description : option BankingRecord.Description
}.

Record GetBankingHistoryOutput : Type := {
  out_shipId : string;
  currentBalance : Q;
  currentBalanceTonnes : Q;
  totalTransactions : nat;
  transactions : list BankingTransactionDTO
}.

(** The callback of [records.map(...)]. *)
Definition transactionDTO (record : BankingRecord.t) : BankingTransactionDTO :=
  {| id := BankingRecord.this_id record;
     transactionType := BankingRecord.this_transactionType record;
     dto_year := BankingRecord.this_year record;
     amount := BankingRecord.this_amount record;
     amountTonnes := BankingRecord.getAmountInTonnes record;
     sourceYear := BankingRecord.this_sourceYear record;
     remainingBalance := BankingRecord.this_remainingBalance record;
     remainingBalanceTonnes := BankingRecord.getRemainingBalanceInTonnes record;
     transactionDate := BankingRecord.this_transactionDate record;
     description := BankingRecord.this_description record |}.

Definition execute (now : Z) (input : GetBankingHistoryInput)
    (db : BankingRepository.table) : result GetBankingHistoryOutput :=
  _ <- throwIf (Js.blank (shipId input)) ShipIdRequired ;;
  records <-
    (if truthyYear (year input)
     then findByShipIdAndYear now (shipId input) (the 0%Z (year input)) db
     else findByShipId now (shipId input) db) ;;
  let currentBalance :=
    BankingRepository.getCurrentBalance (shipId input) db in
  let currentBalanceTonnes := currentBalance / 1000000 in
  let transactions := map transactionDTO records in
  Ok {| out_shipId := shipId input;
        currentBalance := currentBalance;
        currentBalanceTonnes := Js.toFixed2 currentBalanceTonnes;
        totalTransactions := List.length transactions;
        transactions := transactions |}.

End GetBankingHistory.

(* ================================================================== *)
(** ** BankingController.ts: the two POST handlers *)

Module BankingController.

(** The fields the handlers read from [req.body]. *)
Record Body : Type := {
  shipId : option string;
  year : option Z;
  amount : option Q;
  amountTonnes : option Q;
  sourceYear : option Z;
  description : option string
}.

(** The messages of the 400 answers. *)
Inductive BadRequest : Type :=
  | MissingShipId          (* 'Missing required field: shipId' *)
  | MissingYear            (* 'Missing required field: year' *)
  | MissingFields          (* 'Missing required fields: shipId, year, sourceYear' *)
  | MissingAmount          (* 'Missing required field: amount or amountTonnes' *)
  | Failed (e : Error).    (* [error.message] of the use case *)

Inductive Response (A : Type) : Type :=
  | Created (result : A)           (* [res.status(201).json(result)] *)
  | Bad (error : BadRequest).      (* [res.status(400).json({ success: false, error })] *)
Arguments Created {A} result.
Arguments Bad {A} error.

Definition truthyAmount (a : option Q) : bool :=
  match a with
  | Some x => Js.truthy x
  | None => false
  end.

(** "Accept either amount (grams) or amountTonnes (tonnes)"; [None] is the
    branch that answers 400. *)
Definition amountInGrams (body : Body) : option Q :=
  if truthyAmount (amountTonnes body)
  then Some (the 0 (amountTonnes body) * 1000000)
  else if truthyAmount (amount body)
  then Some (the 0 (amount body))
  else None.

Definition bankSurplus (env : Env) (body : Body)
    (db : BankingRepository.table)
    : BankingRepository.table * Response BankSurplus.BankSurplusOutput :=
  if negb (truthyString (shipId body)) then (db, Bad MissingShipId)
  else if negb (truthyYear (year body)) then (db, Bad MissingYear)
  else
    match amountInGrams body with
    | None => (db, Bad MissingAmount)
    | Some grams =>
        match BankSurplus.execute env
                {| BankSurplus.shipId := the ""%string (shipId body);
                   BankSurplus.year := the 0%Z (year body);
                   BankSurplus.amount := grams;
                   BankSurplus.description := description body |} db
        with
        | (db', Ok result) => (db', Created result)
        | (db', Throw e) => (db', Bad (Failed e))
        end
    end.

Definition applyBanking (env : Env) (body : Body)
    (db : BankingRepository.table)
    : BankingRepository.table * Response ApplyBanking.ApplyBankingOutput :=
  if negb (truthyString (shipId body)) || negb (truthyYear (year body))
     || negb (truthyYear (sourceYear body))
  then (db, Bad MissingFields)
  else
    match amountInGrams body with
    | None => (db, Bad MissingAmount)
    | Some grams =>
        match ApplyBanking.execute env
                {| ApplyBanking.shipId := the ""%string (shipId body);
                   ApplyBanking.year := the 0%Z (year body);
                   ApplyBanking.amount := grams;
                   ApplyBanking.sourceYear := the 0%Z (sourceYear body);
                   ApplyBanking.description := description body |} db
        with
        | (db', Ok result) => (db', Created result)
        | (db', Throw e) => (db', Bad (Failed e))
        end
    end.

End BankingController.

(* ================================================================== *)
(** ** Specification-side notions and scenarios *)

(** The sum of the members' individual balances, written as the
    specification does: the balances added up one by one. *)
Fixpoint sum_of_balances (ms : list Pool.PoolMember) : Q :=
  match ms with
  | [] => 0
  | m :: ms' => Pool.complianceBalance m + sum_of_balances ms'
  end.

(** The invariant of the specification's data model. *)
Definition total_matches_members (p : Pool.t) : Prop :=
  Pool.this_totalCB p = Pool.sumCB (Pool.this_members p) /\
  Pool.this_totalCB p == sum_of_balances (Pool.this_members p) /\
  (Pool.this_isCompliant p = true <-> 0 <= Pool.this_totalCB p).

(** A pool member with the given ship identifier and balance in grams. *)
Definition ship (name : string) (balance : Q) : Pool.PoolMember :=
  {| Pool.shipId := name;
     Pool.complianceBalance := balance;
     Pool.contribution := balance;
     Pool.contributionTonnes := Js.toFixed2 (balance / 1000000) |}.

(** The pool [createPool] builds from ship A with 5 g and ship B with -3 g. *)
Definition pool_AB : Pool.t :=
  {| Pool.this_id := None;
     Pool.this_poolName := "P";
     Pool.this_year := 2025;
     Pool.this_members := [ship "A" 5; ship "B" (-3)];
     Pool.this_totalCB := Pool.sumCB [ship "A" 5; ship "B" (-3)];
     Pool.this_isCompliant := Js.geb (Pool.sumCB [ship "A" 5; ship "B" (-3)]) 0;
     Pool.this_createdBy := None;
     Pool.this_createdAt := 0;
     Pool.this_description := None |}.

(** The ledger scenario of the specification: ship SHIP001 banks 100 tonnes
    on an empty table at time 1, then asks to borrow at time 2. *)
Definition bank_100_tonnes : BankSurplus.BankSurplusInput :=
  {| BankSurplus.shipId := "SHIP001";
     BankSurplus.year := 2025;
     BankSurplus.amount := 100000000;
     BankSurplus.description := None |}.

Definition ledger_after_bank : BankingRepository.table :=
  fst (BankSurplus.execute {| now := 1; uuid := "r1" |} bank_100_tonnes []).

Definition borrow_request (grams : Q) : ApplyBanking.ApplyBankingInput :=
  {| ApplyBanking.shipId := "SHIP001";
     ApplyBanking.year := 2026;
     ApplyBanking.amount := grams;
     ApplyBanking.sourceYear := 2025;
     ApplyBanking.description := None |}.

Definition at_time_2 : Env := {| now := 2; uuid := "r2" |}.

(** The calculator scenario of the specification: a route that burns
    5000 tonnes of fuel at 91.0 gCO2e/MJ, flagged as the baseline of a store
    that holds nothing else. *)
Definition route_5000t : Route :=
  {| getRouteId := "R001";
     getVesselType := "Container";
     getFuelType := "HFO";
     getYear := 2025;
     getGHGIntensity := 91.0;
     getFuelConsumption := 5000 |}.

Definition store_5000t : IRouteRepository :=
  {| findAll := [route_5000t];
     findByRouteId :=
       fun rid => if (rid =? "R001")%string then Some route_5000t else None;
     findBaseline := Some route_5000t |}.

(** An operation rejects the year: it throws, and when the identifier it
    checks first is not blank the error is 'Year must be between 2025 and
    2030'. *)
Definition rejects_year {A : Type} (r : result A) (idBlank : bool) : Prop :=
  exists e, r = Throw e /\ (idBlank = false -> e = YearOutOfRange).

(** What the constructor of a pool checks, said of a pool object. *)
Definition well_formed (p : Pool.t) : Prop :=
  Js.blank (Pool.this_poolName p) = false /\
  (2025 <= Pool.this_year p <= 2030)%Z /\
  (2 <= List.length (Pool.this_members p))%nat /\
  NoDup (map Pool.shipId (Pool.this_members p)).

(** The members whose own balance is exactly 0. *)
Definition balancedMembers (p : Pool.t) : list Pool.PoolMember :=
  filter (fun m => Js.eqb (Pool.complianceBalance m) 0) (Pool.this_members p).

(** What every row written by the banking use cases satisfies. *)
Definition row_ok (r : BankingRepository.BankingRecordModel) : Prop :=
  Js.blank (BankingRepository.ship_id r) = false /\
  (2025 <= BankingRepository.year r <= 2030)%Z /\
  0 < BankingRepository.amount r /\
  0 <= BankingRepository.remaining_balance r /\
  (BankingRepository.transaction_type r = BankingRecord.BORROW ->
   exists sy, BankingRepository.source_year r = Some sy /\
              (2025 <= sy < BankingRepository.year r)%Z) /\
  (exists d, BankingRepository.transaction_date r = Some d).



(** A row for the given ship, dated [date], with remaining balance 7. *)
Definition row_dated (shipId : string) (date : Z)
    : BankingRepository.BankingRecordModel :=
  {| BankingRepository.id := Some "x"%string;
     BankingRepository.ship_id := shipId;
     BankingRepository.transaction_type := BankingRecord.BANK;
     BankingRepository.year := 2025;
     BankingRepository.amount := 7;
     BankingRepository.source_year := None;
     BankingRepository.remaining_balance := 7;
     BankingRepository.transaction_date := Some date;
     BankingRepository.description := None |}.

(** How many of the member entries of a pool's details carry a label. *)
Definition sameLabel (a b : GetPoolDetails.Contribution) : bool :=
  match a, b with
  | GetPoolDetails.surplus, GetPoolDetails.surplus => true
  | GetPoolDetails.deficit, GetPoolDetails.deficit => true
  | _, _ => false
  end.

Definition labelled (l : GetPoolDetails.Contribution)
    (out : GetPoolDetails.PoolDTO) : nat :=
  List.length
    (filter (fun m => sameLabel (GetPoolDetails.contribution m) l)
       (GetPoolDetails.members out)).

(* ================================================================== *)
(** * Properties *)

(** ** Comparisons and [throwIf] *)

Lemma ltb_true_iff (x y : Q) : Js.ltb x y = true <-> x < y.
Proof.
  unfold Js.ltb. rewrite negb_true_iff.
  split; intro H.
  - apply Qnot_le_lt. intro Hle. apply Qle_bool_iff in Hle. congruence.
  - destruct (Qle_bool y x) eqn:E; [|reflexivity].
    apply Qle_bool_iff in E. exfalso. apply (Qlt_not_le _ _ H E).
Qed.

Lemma ltb_false_iff (x y : Q) : Js.ltb x y = false <-> y <= x.
Proof.
  unfold Js.ltb. rewrite negb_false_iff. apply Qle_bool_iff.
Qed.

Lemma gtb_true_iff (x y : Q) : Js.gtb x y = true <-> y < x.
Proof. unfold Js.gtb. apply ltb_true_iff. Qed.

Lemma gtb_false_iff (x y : Q) : Js.gtb x y = false <-> x <= y.
Proof. unfold Js.gtb. apply ltb_false_iff. Qed.

Lemma geb_true_iff (x y : Q) : Js.geb x y = true <-> y <= x.
Proof. unfold Js.geb. apply Qle_bool_iff. Qed.

Lemma leb_true_iff (x y : Q) : Js.leb x y = true <-> x <= y.
Proof. unfold Js.leb. apply Qle_bool_iff. Qed.

Lemma leb_false_iff (x y : Q) : Js.leb x y = false <-> y < x.
Proof.
  unfold Js.leb. split; intro H.
  - apply Qnot_le_lt. intro Hle. apply Qle_bool_iff in Hle. congruence.
  - destruct (Qle_bool x y) eqn:E; [|reflexivity].
    apply Qle_bool_iff in E. exfalso. apply (Qlt_not_le _ _ H E).
Qed.

Lemma truthy_of_pos (x : Q) : 0 < x -> Js.truthy x = true.
Proof.
  intro H. unfold Js.truthy. rewrite negb_true_iff.
  destruct (Qeq_bool x 0) eqn:E; [|reflexivity].
  apply Qeq_bool_eq in E. rewrite E in H. exfalso. apply (Qlt_irrefl 0 H).
Qed.

Lemma throwIf_Ok (c : bool) (e : Error) (u : unit) :
  throwIf c e = Ok u -> c = false.
Proof. destruct c; simpl; [discriminate | reflexivity]. Qed.

Lemma bind_Ok {A B : Type} (r : result A) (k : A -> result B) (b : B) :
  bind r k = Ok b -> exists a, r = Ok a /\ k a = Ok b.
Proof. destruct r as [a|e]; simpl; [eauto | discriminate]. Qed.

(** Peel one [throwIf] guard off a successful run. *)
Ltac peel_guard H c :=
  let a := fresh "u" in
  let Hg := fresh "Hg" in
  apply bind_Ok in H; destruct H as [a [Hg H]];
  apply throwIf_Ok in Hg; rename Hg into c.

Lemma outside2025_2030_false (year : Z) :
  outside2025_2030 year = false <-> (2025 <= year <= 2030)%Z.
Proof. unfold outside2025_2030. rewrite orb_false_iff. lia. Qed.

Lemma outside2025_2030_true (year : Z) :
  outside2025_2030 year = true <-> (year < 2025 \/ 2030 < year)%Z.
Proof. unfold outside2025_2030. rewrite orb_true_iff. lia. Qed.

(** ** Sums of member balances *)


Lemma fold_left_balances (ms : list Pool.PoolMember) (acc : Q) :
  fold_left (fun sum member => sum + Pool.complianceBalance member) ms acc
  == acc + sum_of_balances ms.
Proof.
  revert acc. induction ms as [|m ms IH]; intro acc; simpl.
  - ring.
  - rewrite IH. ring.
Qed.

Lemma sumCB_is_sum (ms : list Pool.PoolMember) :
  Pool.sumCB ms == sum_of_balances ms.
Proof. unfold Pool.sumCB. rewrite fold_left_balances. ring. Qed.

Lemma recalculated_invariant (p : Pool.t) :
  let p' := Pool.recalculateTotalCB p in
  Pool.this_members p' = Pool.this_members p /\
  Pool.this_totalCB p' = Pool.sumCB (Pool.this_members p') /\
  Pool.this_totalCB p' == sum_of_balances (Pool.this_members p') /\
  (Pool.this_isCompliant p' = true <-> 0 <= Pool.this_totalCB p').
Proof.
  simpl. repeat split.
  - apply sumCB_is_sum.
  - apply geb_true_iff.
  - apply geb_true_iff.
Qed.


Lemma createPool_Ok (now : Z) (name : string) (year : Z)
    (ms : list Pool.PoolMember) (by_ descr : option string) (p : Pool.t) :
  Pool.createPool now name year ms by_ descr = Ok p ->
  Pool.this_members p = ms /\ total_matches_members p.
Proof.
  unfold Pool.createPool, Pool.new. intro H.
  apply bind_Ok in H. destruct H as [u [_ H]].
  injection H as <-. unfold total_matches_members; simpl.
  repeat split; try apply geb_true_iff; auto.
  apply sumCB_is_sum.
Qed.

Lemma addMember_Returned (m : Pool.PoolMember) (p p' : Pool.t) :
  Pool.addMember m p = Pool.Returned p' ->
  Pool.this_members p' = Pool.this_members p ++ [m] /\
  total_matches_members p'.
Proof.
  unfold Pool.addMember. destruct (existsb _ _); [discriminate|].
  intro H. injection H as <-.
  pose proof (recalculated_invariant
                (Pool.set_members p (Pool.this_members p ++ [m]))) as R.
  simpl in R. unfold total_matches_members. simpl. tauto.
Qed.

Lemma removeMember_Returned (s : string) (p p' : Pool.t) :
  Pool.removeMember s p = Pool.Returned p' ->
  (exists index,
      Js.findIndex (fun m => (Pool.shipId m =? s)%string) (Pool.this_members p)
      = Some index /\
      Pool.this_members p' = Js.splice1 index (Pool.this_members p)) /\
  (2 <= List.length (Pool.this_members p'))%nat /\
  total_matches_members p'.
Proof.
  unfold Pool.removeMember.
  destruct (Js.findIndex _ _) as [index|]; [|discriminate].
  destruct (_ <? 2)%nat eqn:E; [discriminate|].
  intro H. injection H as <-.
  apply Nat.ltb_ge in E. simpl in E.
  pose proof (recalculated_invariant
                (Pool.set_members p (Js.splice1 index (Pool.this_members p))))
    as R.
  simpl in R. unfold total_matches_members. simpl.
  split; [exists index; split; reflexivity|]. split; [exact E|]. tauto.
Qed.

Lemma addMember_ignores_stale_total (m : Pool.PoolMember) (p q p' q' : Pool.t) :
  Pool.this_members p = Pool.this_members q ->
  Pool.addMember m p = Pool.Returned p' ->
  Pool.addMember m q = Pool.Returned q' ->
  Pool.this_totalCB p' = Pool.this_totalCB q' /\
  Pool.this_isCompliant p' = Pool.this_isCompliant q'.
Proof.
  intros E Hp Hq. unfold Pool.addMember in Hp, Hq. rewrite E in Hp.
  destruct (existsb _ _); [discriminate|].
  injection Hp as <-. injection Hq as <-.
  simpl. split; reflexivity.
Qed.

(** ** Pool membership *)



(** C2 (what the code does): on a pool of exactly two members,
    [removeMember] of either member throws 'Pool must have at least 2
    members' and [totalCB] and [isCompliant] keep their values, but the
    member has already been spliced out: the object is left with the other
    member alone, so the member list is not what it was before the call. *)
Theorem C2_removeMember_splices_before_the_size_check :
  forall (p : Pool.t) (a b : Pool.PoolMember) (s : string),
    Pool.this_members p = [a; b] ->
    s = Pool.shipId a \/ s = Pool.shipId b ->
    exists p',
      Pool.removeMember s p = Pool.Thrown PoolTooSmall p' /\
      Pool.this_totalCB p' = Pool.this_totalCB p /\
      Pool.this_isCompliant p' = Pool.this_isCompliant p /\
      List.length (Pool.this_members p') = 1%nat /\
      Pool.this_members p' <> Pool.this_members p /\
      Pool.this_members p' =
        (if (Pool.shipId a =? s)%string then [b] else [a]).
Proof.
  intros p a b s Hm Hs. unfold Pool.removeMember. rewrite Hm. simpl.
  destruct (Pool.shipId a =? s)%string eqn:Ea.
  - simpl. eexists. split; [reflexivity|]. cbn.
    repeat split; try reflexivity. discriminate.
  - assert (Eb : (Pool.shipId b =? s)%string = true).
    { destruct Hs as [Hs|Hs]; subst s.
      - rewrite String.eqb_refl in Ea. discriminate.
      - apply String.eqb_refl. }
    rewrite Eb. simpl. eexists. split; [reflexivity|]. cbn.
    repeat split; try reflexivity. discriminate.
Qed.

Lemma C2_removeMember_witness :
  exists p p',
    Pool.createPool 0 "P" 2025 [ship "A" 5; ship "B" (-3)] None None = Ok p /\
    Pool.removeMember "A" p = Pool.Thrown PoolTooSmall p' /\
    Pool.this_members p' = [ship "B" (-3)] /\
    Pool.this_totalCB p' = Pool.this_totalCB p.
Proof.
  exists pool_AB.
  destruct (C2_removeMember_splices_before_the_size_check
              pool_AB (ship "A" 5) (ship "B" (-3)) "A"
              eq_refl (or_introl eq_refl))
    as [p' [H1 [H2 [_ [_ [_ H3]]]]]].
  exists p'. split; [reflexivity|]. split; [exact H1|].
  split; [exact H3 | exact H2].
Defined.

(** C5: after [createPool] and after every [addMember] or [removeMember]
    that returns, [totalCB] is the sum of the members' [complianceBalance]
    and [isCompliant] is [totalCB >= 0]; the pool the method started from is
    arbitrary, so nothing of its previous total survives the recomputation. *)
Theorem C5_total_is_recomputed_from_members :
  forall p' : Pool.t,
    (exists now name year ms by_ descr,
        Pool.createPool now name year ms by_ descr = Ok p') \/
    (exists m p, Pool.addMember m p = Pool.Returned p') \/
    (exists s p, Pool.removeMember s p = Pool.Returned p') ->
    Pool.this_totalCB p' = Pool.sumCB (Pool.this_members p') /\
    Pool.this_totalCB p' == sum_of_balances (Pool.this_members p') /\
    (Pool.this_isCompliant p' = true <-> 0 <= Pool.this_totalCB p').
Proof.
  intros p' [H | [H | H]].
  - destruct H as (now & name & year & ms & by_ & descr & H).
    apply createPool_Ok in H. apply H.
  - destruct H as (m & p & H). apply addMember_Returned in H. apply H.
  - destruct H as (s & p & H). apply removeMember_Returned in H. apply H.
Qed.

Lemma C5_total_is_recomputed_witness :
  exists p p',
    Pool.createPool 0 "P" 2025 [ship "A" 5; ship "B" (-3)] None None = Ok p /\
    Pool.addMember (ship "C" 7) p = Pool.Returned p' /\
    Pool.this_totalCB p' == 9 /\
    (Pool.this_isCompliant p' = true <-> 0 <= Pool.this_totalCB p').
Proof.
  exists pool_AB.
  exists (Pool.recalculateTotalCB
            (Pool.set_members pool_AB (Pool.this_members pool_AB ++ [ship "C" 7]))).
  split; [reflexivity|]. split; [reflexivity|].
  destruct (C5_total_is_recomputed_from_members
              (Pool.recalculateTotalCB
                 (Pool.set_members pool_AB
                    (Pool.this_members pool_AB ++ [ship "C" 7]))))
    as [_ [H2 H3]].
  - right. left. exists (ship "C" 7), pool_AB. reflexivity.
  - split; [|exact H3]. rewrite H2. vm_compute. reflexivity.
Defined.

(** ** Pool penalty *)

Lemma calculatePenalty_compat (p q : Pool.t) :
  Pool.this_totalCB q == Pool.this_totalCB p ->
  Pool.this_isCompliant q = Pool.this_isCompliant p ->
  Pool.calculatePenalty q == Pool.calculatePenalty p.
Proof.
  intros Ht Hc. unfold Pool.calculatePenalty, Js.abs. rewrite Hc.
  destruct (Pool.this_isCompliant p); [reflexivity|].
  rewrite Ht. reflexivity.
Qed.

Lemma getPenaltyPerMember_is_even_share (p : Pool.t) :
  Pool.getPenaltyPerMember p ==
  Pool.calculatePenalty p
  / inject_Z (Z.of_nat (List.length (Pool.this_members p))).
Proof.
  unfold Pool.getPenaltyPerMember, Js.eqb.
  destruct (Qeq_bool (Pool.calculatePenalty p) 0) eqn:E; [|reflexivity].
  apply Qeq_bool_eq in E. rewrite E. unfold Qdiv. ring.
Qed.

(** C7: the pool's penalty is [(|totalCB| / 1000000) * 2400] when the pool
    is not compliant and 0 when it is; the share of a member is the penalty
    divided by the number of members, and depends on nothing but the pool's
    total, its flag and that number; the pool of two ships with -10,000,000 g
    and -5,000,000 g has penalty 36,000 and 18,000 per member. *)
Theorem C7_penalty_split_evenly :
  forall p : Pool.t,
    (0 < List.length (Pool.this_members p))%nat ->
    Pool.calculatePenalty p ==
      (if Pool.this_isCompliant p then 0
       else (Qabs (Pool.this_totalCB p) / 1000000) * 2400) /\
    Pool.getPenaltyPerMember p ==
      Pool.calculatePenalty p
      / inject_Z (Z.of_nat (List.length (Pool.this_members p))) /\
    (forall q : Pool.t,
        Pool.this_totalCB q == Pool.this_totalCB p ->
        Pool.this_isCompliant q = Pool.this_isCompliant p ->
        List.length (Pool.this_members q) = List.length (Pool.this_members p) ->
        Pool.getPenaltyPerMember q == Pool.getPenaltyPerMember p) /\
    (exists q : Pool.t,
        Pool.createPool 0 "P" 2025
          [ship "A" (-10000000); ship "B" (-5000000)] None None = Ok q /\
        Pool.this_totalCB q == -15000000 /\
        Pool.this_isCompliant q = false /\
        Pool.calculatePenalty q == 36000 /\
        Pool.getPenaltyPerMember q == 18000).
Proof.
  intros p Hn. split; [|split; [|split]].
  - unfold Pool.calculatePenalty, Js.abs.
    destruct (Pool.this_isCompliant p); reflexivity.
  - apply getPenaltyPerMember_is_even_share.
  - intros q Ht Hc Hl.
    rewrite (getPenaltyPerMember_is_even_share q),
            (getPenaltyPerMember_is_even_share p), Hl.
    rewrite (calculatePenalty_compat p q Ht Hc). reflexivity.
  - eexists. split; [reflexivity|].
    repeat split; vm_compute; reflexivity.
Qed.

Lemma C7_penalty_split_evenly_witness :
  Pool.calculatePenalty pool_AB == 0 /\
  Pool.getPenaltyPerMember pool_AB == Pool.calculatePenalty pool_AB / 2.
Proof.
  destruct (C7_penalty_split_evenly pool_AB) as [H1 [H2 _]].
  - simpl. lia.
  - split; [exact H1 | exact H2].
Defined.

(** ** Surplus and deficit members *)

Lemma filter_without_rejected {A : Type} (f : A -> bool) (x : A)
    (before after : list A) :
  f x = false ->
  filter f (before ++ x :: after) = filter f (before ++ after).
Proof.
  intro H. rewrite !filter_app. simpl. rewrite H. reflexivity.
Qed.

(** C10: [getSurplusMembers] holds exactly the members whose own balance is
    above 0 and [getDeficitMembers] exactly those whose own balance is below
    0; a member with balance 0 is in neither list, and taking that member out
    of the pool changes neither list nor [getTotalSurplus] nor
    [getTotalDeficit]; the two totals are the sums over the two lists. *)
Theorem C10_members_partitioned_by_own_sign :
  forall (p : Pool.t) (m : Pool.PoolMember),
    (In m (Pool.getSurplusMembers p) <->
       In m (Pool.this_members p) /\ 0 < Pool.complianceBalance m) /\
    (In m (Pool.getDeficitMembers p) <->
       In m (Pool.this_members p) /\ Pool.complianceBalance m < 0) /\
    Pool.getTotalSurplus p == sum_of_balances (Pool.getSurplusMembers p) /\
    Pool.getTotalDeficit p == Qabs (sum_of_balances (Pool.getDeficitMembers p)) /\
    (Pool.complianceBalance m == 0 ->
       ~ In m (Pool.getSurplusMembers p) /\
       ~ In m (Pool.getDeficitMembers p) /\
       forall before after,
         Pool.this_members p = before ++ m :: after ->
         let p0 := Pool.set_members p (before ++ after) in
         Pool.getSurplusMembers p = Pool.getSurplusMembers p0 /\
         Pool.getDeficitMembers p = Pool.getDeficitMembers p0 /\
         Pool.getTotalSurplus p = Pool.getTotalSurplus p0 /\
         Pool.getTotalDeficit p = Pool.getTotalDeficit p0).
Proof.
  intros p m.
  assert (HS : In m (Pool.getSurplusMembers p) <->
               In m (Pool.this_members p) /\ 0 < Pool.complianceBalance m).
  { unfold Pool.getSurplusMembers. rewrite filter_In, gtb_true_iff. tauto. }
  assert (HD : In m (Pool.getDeficitMembers p) <->
               In m (Pool.this_members p) /\ Pool.complianceBalance m < 0).
  { unfold Pool.getDeficitMembers. rewrite filter_In, ltb_true_iff. tauto. }
  split; [exact HS|]. split; [exact HD|].
  split; [|split].
  - unfold Pool.getTotalSurplus. rewrite fold_left_balances. ring.
  - unfold Pool.getTotalDeficit, Js.abs. rewrite fold_left_balances.
    apply Qabs_wd. ring.
  - intro Hz. split; [|split].
    + intro Hin. apply HS in Hin. destruct Hin as [_ Hpos].
      rewrite Hz in Hpos. apply (Qlt_irrefl 0 Hpos).
    + intro Hin. apply HD in Hin. destruct Hin as [_ Hneg].
      rewrite Hz in Hneg. apply (Qlt_irrefl 0 Hneg).
    + intros before after Hm p0.
      assert (Es : Pool.getSurplusMembers p = Pool.getSurplusMembers p0).
      { unfold Pool.getSurplusMembers, p0. simpl. rewrite Hm.
        apply filter_without_rejected. apply gtb_false_iff.
        rewrite Hz. apply Qle_refl. }
      assert (Ed : Pool.getDeficitMembers p = Pool.getDeficitMembers p0).
      { unfold Pool.getDeficitMembers, p0. simpl. rewrite Hm.
        apply filter_without_rejected. apply ltb_false_iff.
        rewrite Hz. apply Qle_refl. }
      unfold Pool.getTotalSurplus, Pool.getTotalDeficit.
      rewrite Es, Ed. repeat split; reflexivity.
Qed.

Lemma C10_members_partitioned_witness :
  let p := Pool.set_members pool_AB [ship "A" 5; ship "Z" 0; ship "B" (-3)] in
  ~ In (ship "Z" 0) (Pool.getSurplusMembers p) /\
  ~ In (ship "Z" 0) (Pool.getDeficitMembers p) /\
  Pool.getTotalSurplus p = Pool.getTotalSurplus pool_AB /\
  Pool.getTotalDeficit p = Pool.getTotalDeficit pool_AB.
Proof.
  intro p.
  destruct (C10_members_partitioned_by_own_sign p (ship "Z" 0))
    as [_ [_ [_ [_ H]]]].
  destruct H as [H1 [H2 H3]]; [reflexivity|].
  destruct (H3 [ship "A" 5] [ship "B" (-3)] eq_refl) as [_ [_ [H4 H5]]].
  repeat split; assumption.
Defined.

(** ** The ledger: borrowing *)

Lemma ApplyBanking_valid (input : ApplyBanking.ApplyBankingInput) :
  ApplyBanking.validateInput input = Ok tt ->
  Js.blank (ApplyBanking.shipId input) = false /\
  (2025 <= ApplyBanking.year input <= 2030)%Z /\
  0 < ApplyBanking.amount input /\
  (2025 <= ApplyBanking.sourceYear input <= 2030)%Z /\
  (ApplyBanking.sourceYear input < ApplyBanking.year input)%Z.
Proof.
  unfold ApplyBanking.validateInput. intro H.
  peel_guard H Hship. peel_guard H Hyear. peel_guard H Hamount.
  peel_guard H Hsy. peel_guard H Hbefore.
  apply orb_false_iff in Hyear. destruct Hyear as [_ Hyear].
  apply orb_false_iff in Hamount. destruct Hamount as [_ Hamount].
  apply orb_false_iff in Hsy. destruct Hsy as [_ Hsy].
  apply outside2025_2030_false in Hyear, Hsy.
  apply leb_false_iff in Hamount.
  repeat split; try assumption; lia.
Qed.

Lemma BankingRecord_new_Ok (now : Z)
    (props : BankingRecord.IBankingRecordProps) (r : BankingRecord.t) :
  BankingRecord.new now props = Ok r ->
  Js.blank (BankingRecord.shipId props) = false /\
  (2025 <= BankingRecord.year props <= 2030)%Z /\
  0 < BankingRecord.amount props /\
  0 <= BankingRecord.remainingBalance props /\
  (BankingRecord.transactionType props = BankingRecord.BORROW ->
   BankingRecord.sourceYearMissing (BankingRecord.sourceYear props) = false) /\
  BankingRecord.this_shipId r = BankingRecord.shipId props /\
  BankingRecord.this_transactionType r = BankingRecord.transactionType props /\
  BankingRecord.this_year r = BankingRecord.year props /\
  BankingRecord.this_amount r = BankingRecord.amount props /\
  BankingRecord.this_sourceYear r = BankingRecord.sourceYear props /\
  BankingRecord.this_remainingBalance r = BankingRecord.remainingBalance props.
Proof.
  unfold BankingRecord.new. intro H.
  apply bind_Ok in H. destruct H as [u [Hv H]]. injection H as <-. simpl.
  unfold BankingRecord.validate in Hv.
  peel_guard Hv Hship. peel_guard Hv Hyear. peel_guard Hv Hamount.
  peel_guard Hv Hrem. peel_guard Hv Hsy.
  apply outside2025_2030_false in Hyear.
  apply leb_false_iff in Hamount. apply ltb_false_iff in Hrem.
  repeat split; try assumption; try lia.
  intro Hb. rewrite Hb in Hsy. exact Hsy.
Qed.

Lemma BankingRecord_validate_passes (props : BankingRecord.IBankingRecordProps) :
  Js.blank (BankingRecord.shipId props) = false ->
  (2025 <= BankingRecord.year props <= 2030)%Z ->
  0 < BankingRecord.amount props ->
  0 <= BankingRecord.remainingBalance props ->
  BankingRecord.isBORROW (BankingRecord.transactionType props)
  && BankingRecord.sourceYearMissing (BankingRecord.sourceYear props) = false ->
  BankingRecord.validate props = Ok tt.
Proof.
  intros Hship Hyear Hamount Hrem Hsy. unfold BankingRecord.validate.
  apply outside2025_2030_false in Hyear.
  apply leb_false_iff in Hamount. apply ltb_false_iff in Hrem.
  rewrite Hship, Hyear, Hamount, Hrem, Hsy. reflexivity.
Qed.

Lemma ApplyBanking_execute_writes (env : Env)
    (input : ApplyBanking.ApplyBankingInput) (db : BankingRepository.table) :
  let currentBalance :=
    BankingRepository.getCurrentBalance (ApplyBanking.shipId input) db in
  ApplyBanking.validateInput input = Ok tt ->
  ApplyBanking.amount input <= currentBalance ->
  exists row out,
    ApplyBanking.execute env input db = (db ++ [row], Ok out) /\
    BankingRepository.ship_id row = ApplyBanking.shipId input /\
    BankingRepository.transaction_type row = BankingRecord.BORROW /\
    BankingRepository.year row = ApplyBanking.year input /\
    BankingRepository.amount row = ApplyBanking.amount input /\
    BankingRepository.source_year row = Some (ApplyBanking.sourceYear input) /\
    BankingRepository.remaining_balance row
    = currentBalance - ApplyBanking.amount input /\
    BankingRepository.transaction_date row = Some (now env) /\
    ApplyBanking.previousBalance out = currentBalance /\
    ApplyBanking.newBalance out = currentBalance - ApplyBanking.amount input /\
    BankingRecord.this_transactionType (ApplyBanking.transaction out)
    = BankingRecord.BORROW /\
    BankingRecord.this_year (ApplyBanking.transaction out)
    = ApplyBanking.year input /\
    BankingRecord.this_sourceYear (ApplyBanking.transaction out)
    = Some (ApplyBanking.sourceYear input) /\
    BankingRecord.this_amount (ApplyBanking.transaction out)
    = ApplyBanking.amount input /\
    BankingRecord.this_remainingBalance (ApplyBanking.transaction out)
    = currentBalance - ApplyBanking.amount input.
Proof.
  intros cur Hv Hle.
  destruct (ApplyBanking_valid input Hv) as (Hship & Hyear & Hamount & Hsy & Hlt).
  assert (Hnolt : Js.ltb cur (ApplyBanking.amount input) = false)
    by (apply ltb_false_iff; exact Hle).
  assert (Hnogt : Js.gtb (ApplyBanking.amount input) cur = false)
    by (apply gtb_false_iff; exact Hle).
  assert (Hrem : 0 <= cur - ApplyBanking.amount input).
  { apply (Qplus_le_l _ _ (ApplyBanking.amount input)).
    ring_simplify. exact Hle. }
  assert (Hsome : BankingRecord.sourceYearMissing
                    (Some (ApplyBanking.sourceYear input)) = false).
  { simpl. unfold Js.truthyZ. rewrite negb_involutive. apply Z.eqb_neq. lia. }
  unfold ApplyBanking.execute. rewrite Hv. fold cur. rewrite Hnolt.
  unfold BankingRecord.createBorrowTransaction. rewrite Hnogt. simpl.
  unfold BankingRecord.new at 1.
  rewrite BankingRecord_validate_passes; simpl; try assumption.
  unfold BankingRepository.toDomain, BankingRecord.new.
  rewrite BankingRecord_validate_passes; simpl; try assumption.
  eexists. eexists. split; [reflexivity|]. simpl.
  repeat split; reflexivity.
Qed.

(** C4: a borrow of more than the ship's current balance fails and the
    table of banking records is what it was; when the request passes input
    validation the failure is the insufficient-balance error (and the
    entity's own factory refuses the same amounts); a valid request of at
    most the current balance appends one BORROW row whose remaining balance
    is [currentBalance - amount]. *)
Theorem C4_borrow_never_exceeds_balance :
  forall (env : Env) (input : ApplyBanking.ApplyBankingInput)
         (db : BankingRepository.table),
    let currentBalance :=
      BankingRepository.getCurrentBalance (ApplyBanking.shipId input) db in
    (currentBalance < ApplyBanking.amount input ->
       (exists e, ApplyBanking.execute env input db = (db, Throw e)) /\
       (ApplyBanking.validateInput input = Ok tt ->
          ApplyBanking.execute env input db
          = (db, Throw (InsufficientBankedBalance
                          (Js.toFixed2 (currentBalance / 1000000))
                          (Js.toFixed2 (ApplyBanking.amount input / 1000000))))) /\
       BankingRecord.createBorrowTransaction (now env)
         (ApplyBanking.shipId input) (ApplyBanking.year input)
         (ApplyBanking.amount input) (ApplyBanking.sourceYear input)
         currentBalance (ApplyBanking.description input)
       = Throw (CannotBorrow (ApplyBanking.amount input) currentBalance)) /\
    (ApplyBanking.validateInput input = Ok tt ->
     ApplyBanking.amount input <= currentBalance ->
       exists row out,
         ApplyBanking.execute env input db = (db ++ [row], Ok out) /\
         BankingRepository.ship_id row = ApplyBanking.shipId input /\
         BankingRepository.transaction_type row = BankingRecord.BORROW /\
         BankingRepository.amount row = ApplyBanking.amount input /\
         BankingRepository.remaining_balance row
         = currentBalance - ApplyBanking.amount input /\
         ApplyBanking.newBalance out
         = currentBalance - ApplyBanking.amount input).
Proof.
  intros env input db cur. split.
  - intro Hlt.
    assert (Hb : Js.ltb cur (ApplyBanking.amount input) = true)
      by (apply ltb_true_iff; exact Hlt).
    assert (Hst : forall e,
               ApplyBanking.validateInput input = Ok e ->
               ApplyBanking.execute env input db
               = (db, Throw (InsufficientBankedBalance
                               (Js.toFixed2 (cur / 1000000))
                               (Js.toFixed2 (ApplyBanking.amount input / 1000000))))).
    { intros e He. unfold ApplyBanking.execute. rewrite He. fold cur.
      rewrite Hb. reflexivity. }
    split; [|split].
    + destruct (ApplyBanking.validateInput input) as [u|e] eqn:Hv.
      * eexists. apply (Hst u). reflexivity.
      * exists e. unfold ApplyBanking.execute. rewrite Hv. reflexivity.
    + apply Hst.
    + unfold BankingRecord.createBorrowTransaction.
      assert (Hg : Js.gtb (ApplyBanking.amount input) cur = true)
        by (apply gtb_true_iff; exact Hlt).
      rewrite Hg. reflexivity.
  - intros Hv Hle.
    destruct (ApplyBanking_execute_writes env input db Hv Hle)
      as (row & out & H & H1 & H2 & _ & H4 & _ & H6 & _ & _ & H9 & _).
    exists row, out. repeat split; assumption.
Qed.

Lemma C4_borrow_never_exceeds_balance_witness :
  (exists row out,
      ApplyBanking.execute at_time_2 (borrow_request 50000000) ledger_after_bank
      = (ledger_after_bank ++ [row], Ok out) /\
      BankingRepository.remaining_balance row == 50000000) /\
  (exists e,
      ApplyBanking.execute at_time_2 (borrow_request 150000000) ledger_after_bank
      = (ledger_after_bank, Throw e)).
Proof.
  split.
  - destruct (C4_borrow_never_exceeds_balance
                at_time_2 (borrow_request 50000000) ledger_after_bank)
      as [_ H].
    destruct H as (row & out & H & _ & _ & _ & Hrem & _).
    + reflexivity.
    + apply Qle_bool_iff. reflexivity.
    + exists row, out. split; [exact H|]. rewrite Hrem.
      vm_compute. reflexivity.
  - destruct (C4_borrow_never_exceeds_balance
                at_time_2 (borrow_request 150000000) ledger_after_bank)
      as [H _].
    destruct H as [H _].
    + reflexivity.
    + exact H.
Defined.

Example ledger_after_bank_balance :
  BankingRepository.getCurrentBalance "SHIP001" ledger_after_bank == 100000000
  /\ List.length ledger_after_bank = 1%nat.
Proof. split; vm_compute; reflexivity. Qed.

(** ** The ledger: bank, then borrow *)

(** C6: for a ship with balance [b >= 0] and an amount [a > 0], the bank
    record has remaining balance [b + a], and borrowing the same [a] against
    that balance, with a source year before the year of use, succeeds and
    leaves the remaining balance [b]. *)
Theorem C6_bank_then_borrow_restores_balance :
  forall (now1 now2 : Z) (shipId : string) (bankYear year sourceYear : Z)
         (b a : Q) (d1 d2 : option string),
    Js.blank shipId = false ->
    (2025 <= bankYear <= 2030)%Z ->
    (2025 <= year <= 2030)%Z ->
    sourceYear <> 0%Z ->
    (sourceYear < year)%Z ->
    0 <= b ->
    0 < a ->
    exists banked borrowed : BankingRecord.t,
      BankingRecord.createBankTransaction now1 shipId bankYear a b d1
      = Ok banked /\
      BankingRecord.this_remainingBalance banked = b + a /\
      BankingRecord.createBorrowTransaction now2 shipId year a sourceYear
        (BankingRecord.this_remainingBalance banked) d2
      = Ok borrowed /\
      BankingRecord.this_transactionType borrowed = BankingRecord.BORROW /\
      BankingRecord.this_remainingBalance borrowed == b.
Proof.
  intros now1 now2 shipId bankYear year sourceYear b a d1 d2
         Hship Hbank Hyear Hsy Hlt Hb Ha.
  assert (Hsum : 0 <= b + a).
  { apply Qle_trans with (y := b); [exact Hb|].
    rewrite <- (Qplus_0_r b) at 1. apply Qplus_le_r. apply Qlt_le_weak, Ha. }
  assert (Hnogt : Js.gtb a (b + a) = false).
  { apply gtb_false_iff. rewrite <- (Qplus_0_l a) at 1.
    apply Qplus_le_l. exact Hb. }
  assert (Hback : b + a - a == b) by ring.
  unfold BankingRecord.createBankTransaction, BankingRecord.new.
  rewrite BankingRecord_validate_passes; simpl; try assumption; try reflexivity.
  eexists. eexists. split; [reflexivity|]. simpl. split; [reflexivity|].
  unfold BankingRecord.createBorrowTransaction, BankingRecord.new.
  rewrite Hnogt. simpl.
  rewrite BankingRecord_validate_passes; simpl; try assumption.
  - split; [reflexivity|]. simpl. split; [reflexivity | exact Hback].
  - rewrite Hback. exact Hb.
  - unfold Js.truthyZ. rewrite negb_involutive. apply Z.eqb_neq. exact Hsy.
Qed.

Lemma C6_bank_then_borrow_witness :
  exists banked borrowed : BankingRecord.t,
    BankingRecord.createBankTransaction 1 "SHIP001" 2025 50000000 100000000 None
    = Ok banked /\
    BankingRecord.createBorrowTransaction 2 "SHIP001" 2026 50000000 2025
      (BankingRecord.this_remainingBalance banked) None
    = Ok borrowed /\
    BankingRecord.this_remainingBalance borrowed == 100000000.
Proof.
  destruct (C6_bank_then_borrow_restores_balance
              1 2 "SHIP001" 2025 2026 2025 100000000 50000000 None None)
    as (banked & borrowed & H1 & _ & H3 & _ & H5);
    try reflexivity; try lia; try discriminate.
  exists banked, borrowed. repeat split; assumption.
Defined.

(** ** What a banking record guarantees *)

(** C8 as stated fails: the constructor accepts a BORROW record whose source
    year is later than its year. *)
Lemma C8_constructor_accepts_late_source_year :
  exists r : BankingRecord.t,
    BankingRecord.new 0
      {| BankingRecord.id := None;
         BankingRecord.shipId := "SHIP001";
         BankingRecord.transactionType := BankingRecord.BORROW;
         BankingRecord.year := 2025;
         BankingRecord.amount := 1;
         BankingRecord.sourceYear := Some 2026%Z;
         BankingRecord.remainingBalance := 0;
         BankingRecord.transactionDate := None;
         BankingRecord.description := None |} = Ok r /\
    BankingRecord.this_transactionType r = BankingRecord.BORROW /\
    BankingRecord.this_sourceYear r = Some 2026%Z /\
    BankingRecord.this_year r = 2025%Z /\
    ~ (exists sy, BankingRecord.this_sourceYear r = Some sy
                  /\ (sy < BankingRecord.this_year r)%Z).
Proof.
  eexists. split; [reflexivity|]. simpl.
  repeat split. intros [sy [H1 H2]]. injection H1 as <-. lia.
Qed.

Lemma ApplyBanking_execute_Ok (env : Env)
    (input : ApplyBanking.ApplyBankingInput)
    (db db' : BankingRepository.table) (out : ApplyBanking.ApplyBankingOutput) :
  ApplyBanking.execute env input db = (db', Ok out) ->
  ApplyBanking.validateInput input = Ok tt /\
  ApplyBanking.amount input
  <= BankingRepository.getCurrentBalance (ApplyBanking.shipId input) db.
Proof.
  unfold ApplyBanking.execute.
  destruct (ApplyBanking.validateInput input) as [[]|e]; [|discriminate].
  destruct (Js.ltb _ _) eqn:E; [discriminate|].
  intros _. split; [reflexivity|]. apply ltb_false_iff. exact E.
Qed.

(** C8 (amended): a constructed [BankingRecord] has a positive amount and a
    remaining balance that is not negative, and a BORROW record carries a
    source year that is present and not 0; a record breaking one of these is
    refused by the constructor.  That the source year lies before the year
    is checked by the borrow use case, not by the entity: every record the
    use case writes has [2025 <= sourceYear < year]. *)
Theorem C8_record_invariants :
  (forall (now : Z) (props : BankingRecord.IBankingRecordProps)
          (r : BankingRecord.t),
      BankingRecord.new now props = Ok r ->
      0 < BankingRecord.this_amount r /\
      0 <= BankingRecord.this_remainingBalance r /\
      (BankingRecord.this_transactionType r = BankingRecord.BORROW ->
       exists sy, BankingRecord.this_sourceYear r = Some sy /\ sy <> 0%Z)) /\
  (forall (now : Z) (props : BankingRecord.IBankingRecordProps),
      BankingRecord.amount props <= 0 \/
      BankingRecord.remainingBalance props < 0 \/
      (BankingRecord.transactionType props = BankingRecord.BORROW /\
       (BankingRecord.sourceYear props = None \/
        BankingRecord.sourceYear props = Some 0%Z)) ->
      exists e, BankingRecord.new now props = Throw e) /\
  (forall (env : Env) (input : ApplyBanking.ApplyBankingInput)
          (db db' : BankingRepository.table)
          (out : ApplyBanking.ApplyBankingOutput),
      ApplyBanking.execute env input db = (db', Ok out) ->
      let r := ApplyBanking.transaction out in
      BankingRecord.this_transactionType r = BankingRecord.BORROW /\
      0 < BankingRecord.this_amount r /\
      0 <= BankingRecord.this_remainingBalance r /\
      exists sy, BankingRecord.this_sourceYear r = Some sy /\
                 (2025 <= sy < BankingRecord.this_year r)%Z).
Proof.
  split; [|split].
  - intros now props r H.
    destruct (BankingRecord_new_Ok now props r H)
      as (_ & _ & Ha & Hr & Hs & _ & Et & _ & Ea & Es & Er).
    rewrite Ea, Er, Et, Es. repeat split; try assumption.
    intro Hb. specialize (Hs Hb).
    destruct (BankingRecord.sourceYear props) as [sy|]; [|discriminate].
    exists sy. split; [reflexivity|].
    simpl in Hs. unfold Js.truthyZ in Hs. rewrite negb_involutive in Hs.
    apply Z.eqb_neq. exact Hs.
  - intros now props H.
    destruct (BankingRecord.new now props) as [r|e] eqn:E; [|eauto].
    exfalso.
    destruct (BankingRecord_new_Ok now props r E)
      as (_ & _ & Ha & Hr & Hs & _).
    destruct H as [H | [H | [Hb H]]].
    + apply (Qlt_not_le _ _ Ha H).
    + apply (Qlt_not_le _ _ H Hr).
    + specialize (Hs Hb). destruct H as [H|H]; rewrite H in Hs; discriminate.
  - intros env input db db' out H r.
    destruct (ApplyBanking_execute_Ok env input db db' out H) as [Hv Hle].
    destruct (ApplyBanking_valid input Hv) as (_ & Hyear & Hamount & Hsy & Hlt).
    destruct (ApplyBanking_execute_writes env input db Hv Hle)
      as (row & out' & H' & _ & _ & _ & _ & _ & _ & _ & _ & _
          & Et & Ey & Es & Ea & Er).
    rewrite H in H'. injection H' as _ <-.
    unfold r. rewrite Et, Ey, Es, Ea, Er.
    split; [reflexivity|]. split; [exact Hamount|]. split.
    + apply (Qplus_le_l _ _ (ApplyBanking.amount input)).
      ring_simplify. exact Hle.
    + exists (ApplyBanking.sourceYear input). split; [reflexivity | lia].
Qed.

Lemma C8_record_invariants_witness :
  exists db' out,
    ApplyBanking.execute at_time_2 (borrow_request 50000000) ledger_after_bank
    = (db', Ok out) /\
    exists sy,
      BankingRecord.this_sourceYear (ApplyBanking.transaction out) = Some sy /\
      (2025 <= sy < BankingRecord.this_year (ApplyBanking.transaction out))%Z.
Proof.
  destruct C8_record_invariants as [_ [_ H]].
  pose proof (H at_time_2 (borrow_request 50000000) ledger_after_bank) as H'.
  destruct (ApplyBanking.execute at_time_2 (borrow_request 50000000)
              ledger_after_bank) as [db' [out|e]] eqn:E;
    [|vm_compute in E; discriminate].
  exists db', out. split; [reflexivity|].
  apply (H' db' out eq_refl).
Defined.

(** ** The compliance balance *)

Lemma targets_agree (year : Z) :
  ComplianceBalance.targetTable year
  = CompareRoutes.get CompareRoutes.FUELEU_TARGETS year.
Proof.
  unfold CompareRoutes.get.
  destruct (year =? 2025)%Z eqn:E5;
    [apply Z.eqb_eq in E5; subst; reflexivity|].
  destruct (year =? 2026)%Z eqn:E6;
    [apply Z.eqb_eq in E6; subst; reflexivity|].
  destruct (year =? 2027)%Z eqn:E7;
    [apply Z.eqb_eq in E7; subst; reflexivity|].
  destruct (year =? 2028)%Z eqn:E8;
    [apply Z.eqb_eq in E8; subst; reflexivity|].
  destruct (year =? 2029)%Z eqn:E9;
    [apply Z.eqb_eq in E9; subst; reflexivity|].
  destruct (year =? 2030)%Z eqn:E0;
    [apply Z.eqb_eq in E0; subst; reflexivity|].
  apply Z.eqb_neq in E5, E6, E7, E8, E9, E0.
  unfold ComplianceBalance.targetTable.
  destruct year as [|y|y]; try reflexivity.
  repeat (destruct y as [y|y|]; try reflexivity); exfalso; lia.
Qed.

Lemma target_in_window (year : Z) :
  (2025 <= year <= 2030)%Z ->
  exists target, ComplianceBalance.targetTable year = Some target /\
                 CompareRoutes.targetOf year = target.
Proof.
  intro H.
  assert (Hy : year = 2025%Z \/ year = 2026%Z \/ year = 2027%Z \/
               year = 2028%Z \/ year = 2029%Z \/ year = 2030%Z) by lia.
  destruct Hy as [-> | [-> | [-> | [-> | [-> | ->]]]]];
    eexists; split; reflexivity.
Qed.

Lemma target_outside_window (year : Z) :
  (year < 2025 \/ 2030 < year)%Z ->
  ComplianceBalance.targetTable year = None /\
  CompareRoutes.get CompareRoutes.FUELEU_TARGETS year = None /\
  CompareRoutes.targetOf year = CompareRoutes.y2025 CompareRoutes.FUELEU_TARGETS.
Proof.
  intro H.
  assert (E : CompareRoutes.get CompareRoutes.FUELEU_TARGETS year = None).
  { unfold CompareRoutes.get.
    repeat match goal with
           | |- context [(year =? ?k)%Z] =>
               destruct (Z.eqb_spec year k); [exfalso; lia|]
           end.
    reflexivity. }
  split; [rewrite targets_agree; exact E|]. split; [exact E|].
  unfold CompareRoutes.targetOf. rewrite E. reflexivity.
Qed.

Lemma max_0_of_pos (x : Q) : 0 < x -> Js.max x 0 = x /\ Js.max (- x) 0 = 0.
Proof.
  intro H. unfold Js.max. split.
  - destruct (Qle_bool x 0) eqn:E; [|reflexivity].
    apply Qle_bool_iff in E. exfalso. apply (Qlt_not_le _ _ H E).
  - destruct (Qle_bool (- x) 0) eqn:E; [reflexivity|].
    assert (Hle : - x <= 0).
    { apply (Qplus_le_l _ _ x). ring_simplify. apply Qlt_le_weak, H. }
    apply Qle_bool_iff in Hle. congruence.
Qed.

Lemma max_0_of_neg (x : Q) : x < 0 -> Js.max x 0 = 0 /\ Js.max (- x) 0 = - x.
Proof.
  intro H. unfold Js.max. split.
  - destruct (Qle_bool x 0) eqn:E; [reflexivity|].
    assert (Hle : x <= 0) by (apply Qlt_le_weak, H).
    apply Qle_bool_iff in Hle. congruence.
  - destruct (Qle_bool (- x) 0) eqn:E; [|reflexivity].
    apply Qle_bool_iff in E. exfalso.
    assert (Hge : 0 <= x).
    { apply (Qplus_le_l _ _ (- x)). ring_simplify. exact E. }
    apply (Qlt_not_le _ _ H Hge).
Qed.

(** C1: for a ship identifier that is not blank and a year in 2025-2030,
    the balance in grams is [(target - ghgActual) * (fuel * 41000) *
    multiplier], the target being the entry of the fixed table (89.3368,
    87.7528, 86.1688, 84.5848, 83.0008, 81.4168 for 2025 to 2030); a positive
    balance is a surplus and a negative one a deficit.  The route comparison,
    which has no multiplier, computes the same balance at multiplier 1 from
    the same table. *)
Theorem C1_balance_formula :
  forall (shipId : string) (year : Z) (fuel ghgActual multiplier : Q),
    Js.blank shipId = false ->
    (2025 <= year <= 2030)%Z ->
    (CompareRoutes.get CompareRoutes.FUELEU_TARGETS 2025 = Some 89.3368 /\
     CompareRoutes.get CompareRoutes.FUELEU_TARGETS 2026 = Some 87.7528 /\
     CompareRoutes.get CompareRoutes.FUELEU_TARGETS 2027 = Some 86.1688 /\
     CompareRoutes.get CompareRoutes.FUELEU_TARGETS 2028 = Some 84.5848 /\
     CompareRoutes.get CompareRoutes.FUELEU_TARGETS 2029 = Some 83.0008 /\
     CompareRoutes.get CompareRoutes.FUELEU_TARGETS 2030 = Some 81.4168) /\
    exists (target : Q) (cb : ComplianceBalance.t),
      CompareRoutes.get CompareRoutes.FUELEU_TARGETS year = Some target /\
      ComplianceBalance.createFromRoute shipId year fuel ghgActual multiplier
      = Ok cb /\
      ComplianceBalance.ghgTarget cb = target /\
      ComplianceBalance.energyInScope cb = fuel * 41000 /\
      ComplianceBalance.complianceBalance cb
      == (target - ghgActual) * (fuel * 41000) * multiplier /\
      (0 < ComplianceBalance.complianceBalance cb ->
         ComplianceBalance.getSurplusAmount cb
         = ComplianceBalance.complianceBalance cb /\
         ComplianceBalance.getDeficitAmount cb = 0 /\
         ComplianceBalance.isCompliant cb = true) /\
      (ComplianceBalance.complianceBalance cb < 0 ->
         ComplianceBalance.getDeficitAmount cb
         = - ComplianceBalance.complianceBalance cb /\
         ComplianceBalance.getSurplusAmount cb = 0 /\
         ComplianceBalance.isCompliant cb = false) /\
      (forall route : Route,
          getFuelConsumption route = fuel ->
          getGHGIntensity route = ghgActual ->
          CompareRoutes.difference (CompareRoutes.targetOf year) route
          == (target - ghgActual) * (fuel * 41000) * 1) /\
      (forall baselineRoute route : Route,
          getFuelConsumption route = fuel ->
          getGHGIntensity route = ghgActual ->
          0 <= fuel ->
          let d := CompareRoutes.difference (CompareRoutes.targetOf year) route in
          let c := CompareRoutes.compare (CompareRoutes.targetOf year)
                     baselineRoute route in
          (0 < d -> CompareRoutes.compliant c = true /\
                    CompareRoutes.surplus c = Js.toFixed2 (d / 1000000) /\
                    CompareRoutes.deficit c = 0) /\
          (d < 0 -> CompareRoutes.compliant c = false /\
                    CompareRoutes.surplus c = 0 /\
                    CompareRoutes.deficit c
                    = Js.toFixed2 (Qabs d / 1000000))).
Proof.
  intros shipId year fuel ghgActual multiplier Hship Hyear.
  split; [repeat split|].
  destruct (target_in_window year Hyear) as [target [Ht Hof]].
  exists target.
  unfold ComplianceBalance.createFromRoute. rewrite Hship, Ht.
  cbn [throwIf bind]. eexists. split; [rewrite <- targets_agree; exact Ht|].
  split; [reflexivity|].
  split; [reflexivity|]. split; [reflexivity|]. split; [reflexivity|].
  split; [|split; [|split]].
  - unfold ComplianceBalance.getSurplusAmount,
      ComplianceBalance.getDeficitAmount, ComplianceBalance.isCompliant.
    simpl. intro Hpos. destruct (max_0_of_pos _ Hpos) as [E1 E2].
    rewrite E1, E2. repeat split.
    apply geb_true_iff. apply Qlt_le_weak, Hpos.
  - unfold ComplianceBalance.getSurplusAmount,
      ComplianceBalance.getDeficitAmount, ComplianceBalance.isCompliant.
    simpl. intro Hneg. destruct (max_0_of_neg _ Hneg) as [E1 E2].
    rewrite E1, E2. repeat split.
    unfold Js.geb. destruct (Qle_bool 0 _) eqn:E; [|reflexivity].
    apply Qle_bool_iff in E. exfalso. apply (Qlt_not_le _ _ Hneg E).
  - intros route Hf Hg. unfold CompareRoutes.difference.
    rewrite Hof, Hf, Hg. ring.
  - intros baselineRoute route Hf Hg Hfuel. rewrite Hof.
    assert (Ed : CompareRoutes.difference target route
                 == (target - ghgActual) * (fuel * 41000)).
    { unfold CompareRoutes.difference. rewrite Hf, Hg. ring. }
    unfold CompareRoutes.compare.
    cbn [CompareRoutes.compliant CompareRoutes.surplus CompareRoutes.deficit].
    rewrite Hg.
    split; intro Hd; rewrite Ed in Hd.
    + assert (Hc : Js.leb ghgActual target = true).
      { apply leb_true_iff. nra. }
      rewrite Hc. simpl. repeat split.
    + assert (Hc : Js.leb ghgActual target = false).
      { apply leb_false_iff. nra. }
      rewrite Hc. simpl. repeat split.
Qed.

Lemma C1_balance_formula_witness :
  exists cb : ComplianceBalance.t,
    ComplianceBalance.createFromRoute "SHIP001" 2026 1000 80 1 = Ok cb /\
    ComplianceBalance.complianceBalance cb
    == (87.7528 - 80) * (1000 * 41000) * 1.
Proof.
  destruct (C1_balance_formula "SHIP001" 2026 1000 80 1)
    as [_ (target & cb & Ht & Hc & _ & _ & Hb & _)];
    [reflexivity | lia |].
  exists cb. split; [exact Hc|].
  injection Ht as <-. exact Hb.
Defined.

(** C9 as stated fails: at 5000 tonnes, 91.0 gCO2e/MJ and year 2025 the
    balance is not -341,106,560,000 g, neither in the calculator nor in the
    route comparison. *)
Lemma C9_balance_is_not_the_stated_number :
  exists cb : ComplianceBalance.t,
    ComplianceBalance.createFromRoute "SHIP001" 2025 5000 91.0 1.0 = Ok cb /\
    ~ ComplianceBalance.complianceBalance cb == -341106560000 /\
    ~ (89.3368 - 91.0) * 205000000 * 1.0 == -341106560000 /\
    ~ CompareRoutes.difference (CompareRoutes.targetOf 2025) route_5000t
      == -341106560000.
Proof.
  eexists. split; [reflexivity|].
  repeat split; intro H; vm_compute in H; discriminate.
Qed.

(** C9 (amended): for 5000 tonnes at 91.0 gCO2e/MJ in 2025 with multiplier
    1.0 the energy in scope is 205,000,000 MJ and the balance is
    [(89.3368 - 91.0) * 205,000,000 * 1.0 = -340,956,000] g; the deficit is
    positive, the ship is not compliant and the penalty is the deficit in
    tonnes times 2400, that is 818,294.4.  The use case and the route
    comparison report the same balance. *)
Theorem C9_scenario_5000_tonnes :
  exists cb : ComplianceBalance.t,
    ComplianceBalance.createFromRoute "SHIP001" 2025 5000 91.0 1.0 = Ok cb /\
    ComplianceBalance.ghgTarget cb = 89.3368 /\
    ComplianceBalance.energyInScope cb == 205000000 /\
    ComplianceBalance.complianceBalance cb
    == (89.3368 - 91.0) * 205000000 * 1.0 /\
    ComplianceBalance.complianceBalance cb == -340956000 /\
    0 < ComplianceBalance.getDeficitAmount cb /\
    ComplianceBalance.getDeficitAmount cb == 340956000 /\
    ComplianceBalance.isCompliant cb = false /\
    ComplianceBalance.calculatePenalty cb
    == (ComplianceBalance.getDeficitAmount cb / 1000000) * 2400 /\
    ComplianceBalance.calculatePenalty cb == 818294.4 /\
    CompareRoutes.difference (CompareRoutes.targetOf 2025) route_5000t
    == -340956000 /\
    exists out : CalculateCB.CalculateCBOutput,
      CalculateCB.execute
        {| CalculateCB.shipId := "SHIP001";
           CalculateCB.year := 2025;
           CalculateCB.routeId := None |} store_5000t = Ok out /\
      CalculateCB.energyInScope out == 205000000 /\
      CalculateCB.complianceBalance out == -340956000 /\
      CalculateCB.isCompliant out = false /\
      CalculateCB.deficit out == 340956000 /\
      CalculateCB.penalty out == 818294.4.
Proof.
  eexists. split; [reflexivity|].
  repeat split; try (vm_compute; reflexivity).
  eexists. split; [reflexivity|].
  repeat split; vm_compute; reflexivity.
Qed.

(** ** Years outside the target table *)

(** C3 as stated fails: the route comparison accepts the year 2031 and
    answers with the 2025 target. *)
Lemma C3_compare_routes_falls_back_to_2025 :
  CompareRoutes.get CompareRoutes.FUELEU_TARGETS 2031 = None /\
  exists resp : CompareRoutes.ComparisonResponse,
    CompareRoutes.execute (Some 2031%Z) store_5000t = Ok resp /\
    CompareRoutes.response_year resp = 2031%Z /\
    CompareRoutes.target resp = 89.3368.
Proof.
  split; [reflexivity|]. eexists. split; [reflexivity|].
  split; reflexivity.
Qed.

Lemma rejects_year_bind {A : Type} (idBlank : bool) (yearBad : bool)
    (e1 : Error) (k : result A) :
  yearBad = true ->
  rejects_year
    (_ <- throwIf idBlank e1 ;; _ <- throwIf yearBad YearOutOfRange ;; k)
    idBlank.
Proof.
  intros ->. destruct idBlank; simpl.
  - exists e1. split; [reflexivity | discriminate].
  - exists YearOutOfRange. split; reflexivity.
Qed.

Lemma rejects_year_map {A B : Type} (r : result A) (k : A -> result B)
    (idBlank : bool) :
  rejects_year r idBlank -> rejects_year (bind r k) idBlank.
Proof.
  intros [e [-> He]]. exists e. split; [reflexivity | exact He].
Qed.

(** C3 (amended): the balance calculation, banking, borrowing and pool
    creation, and the constructors of a pool and of a banking record, reject
    a year outside 2025-2030: they throw before anything is written, with
    'Year must be between 2025 and 2030' once the identifier they check first
    is not blank.  The route comparison does not validate its year: it
    answers for every year, with the table's entry for a year in 2025-2030
    and with the 2025 target for any other year. *)
Theorem C3_year_outside_table :
  forall year : Z,
    (year < 2025 \/ 2030 < year)%Z ->
    (forall shipId routeId repo,
        rejects_year
          (CalculateCB.execute
             {| CalculateCB.shipId := shipId;
                CalculateCB.year := year;
                CalculateCB.routeId := routeId |} repo)
          (Js.blank shipId)) /\
    (forall env shipId amount description db,
        let r := BankSurplus.execute env
                   {| BankSurplus.shipId := shipId;
                      BankSurplus.year := year;
                      BankSurplus.amount := amount;
                      BankSurplus.description := description |} db in
        fst r = db /\ rejects_year (snd r) (Js.blank shipId)) /\
    (forall env shipId amount sourceYear description db,
        let r := ApplyBanking.execute env
                   {| ApplyBanking.shipId := shipId;
                      ApplyBanking.year := year;
                      ApplyBanking.amount := amount;
                      ApplyBanking.sourceYear := sourceYear;
                      ApplyBanking.description := description |} db in
        fst r = db /\ rejects_year (snd r) (Js.blank shipId)) /\
    (forall now poolName ships createdBy description nameTaken repo,
        rejects_year
          (CreatePool.execute now
             {| CreatePool.poolName := poolName;
                CreatePool.year := year;
                CreatePool.ships := ships;
                CreatePool.createdBy := createdBy;
                CreatePool.description := description |} nameTaken repo)
          (Js.blank poolName)) /\
    (forall now poolName members createdBy description,
        rejects_year
          (Pool.createPool now poolName year members createdBy description)
          (Js.blank poolName)) /\
    (forall now props,
        BankingRecord.year props = year ->
        rejects_year (BankingRecord.new now props)
          (Js.blank (BankingRecord.shipId props))) /\
    (forall repo baselineRoute,
        findBaseline repo = Some baselineRoute ->
        exists resp,
          CompareRoutes.execute (Some year) repo = Ok resp /\
          CompareRoutes.target resp
          = CompareRoutes.y2025 CompareRoutes.FUELEU_TARGETS).
Proof.
  intros year Hout.
  assert (Hbad : outside2025_2030 year = true)
    by (apply outside2025_2030_true; exact Hout).
  assert (Hbad' : negb (Js.truthyZ year) || outside2025_2030 year = true)
    by (rewrite Hbad; apply orb_true_r).
  destruct (target_outside_window year Hout) as (Hspec & _ & Hof).
  repeat split.
  - intros shipId routeId repo. unfold CalculateCB.execute.
    apply rejects_year_map. unfold CalculateCB.validateInput. simpl.
    apply rejects_year_bind. exact Hbad'.
  - unfold BankSurplus.execute.
    destruct (BankSurplus.validateInput _) eqn:E; [|reflexivity].
    exfalso. unfold BankSurplus.validateInput in E. simpl in E.
    rewrite Hbad' in E. destruct (Js.blank shipId); discriminate.
  - unfold BankSurplus.execute.
    pose proof (rejects_year_bind (A := unit) (Js.blank shipId) _
                  ShipIdRequired
                  (_ <- throwIf (negb (Js.truthy amount) || Js.leb amount 0)
                          AmountNotPositive ;; Ok tt) Hbad') as [e [He Hy]].
    unfold BankSurplus.validateInput. simpl. rewrite He. simpl.
    exists e. split; [reflexivity | exact Hy].
  - unfold ApplyBanking.execute.
    destruct (ApplyBanking.validateInput _) eqn:E; [|reflexivity].
    exfalso. unfold ApplyBanking.validateInput in E. simpl in E.
    rewrite Hbad' in E. destruct (Js.blank shipId); discriminate.
  - unfold ApplyBanking.execute.
    pose proof (rejects_year_bind (A := unit) (Js.blank shipId) _
                  ShipIdRequired
                  (_ <- throwIf (negb (Js.truthy amount) || Js.leb amount 0)
                          AmountNotPositive ;;
                   _ <- throwIf (negb (Js.truthyZ sourceYear)
                                 || outside2025_2030 sourceYear)
                          SourceYearOutOfRange ;;
                   _ <- throwIf (sourceYear >=? year)%Z SourceYearNotBefore ;;
                   Ok tt) Hbad') as [e [He Hy]].
    unfold ApplyBanking.validateInput. simpl. rewrite He. simpl.
    exists e. split; [reflexivity | exact Hy].
  - intros now poolName ships createdBy description nameTaken repo.
    unfold CreatePool.execute. apply rejects_year_map.
    unfold CreatePool.validateInput. simpl.
    apply rejects_year_bind. exact Hbad'.
  - intros now poolName members createdBy description.
    unfold Pool.createPool, Pool.new. apply rejects_year_map.
    unfold Pool.validate. simpl. apply rejects_year_bind. exact Hbad.
  - intros now props Hy. unfold BankingRecord.new. apply rejects_year_map.
    unfold BankingRecord.validate. apply rejects_year_bind.
    rewrite Hy. exact Hbad.
  - intros repo baselineRoute Hb. unfold CompareRoutes.execute.
    rewrite Hb. eexists. split; [reflexivity|]. simpl. exact Hof.
Qed.

Lemma C3_year_outside_table_witness :
  rejects_year
    (CalculateCB.execute
       {| CalculateCB.shipId := "SHIP001";
          CalculateCB.year := 2031;
          CalculateCB.routeId := None |} store_5000t)
    false /\
  exists resp,
    CompareRoutes.execute (Some 2031%Z) store_5000t = Ok resp /\
    CompareRoutes.target resp
    = CompareRoutes.y2025 CompareRoutes.FUELEU_TARGETS.
Proof.
  destruct (C3_year_outside_table 2031) as [H1 [_ [_ [_ [_ [_ H8]]]]]];
    [lia|].
  split.
  - apply (H1 "SHIP001"%string None store_5000t).
  - apply (H8 store_5000t route_5000t eq_refl).
Defined.

(** ** Bank, then borrow, through the ledger store *)

Lemma findLatest_fold (shipId : string) (db : BankingRepository.table)
    (acc : option BankingRepository.BankingRecordModel)
    (b : BankingRepository.BankingRecordModel) :
  fold_left
    (fun best row =>
       if (BankingRepository.ship_id row =? shipId)%string then
         match best with
         | None => Some row
         | Some b0 =>
             if BankingRepository.sortsBefore
                  (BankingRepository.transaction_date row)
                  (BankingRepository.transaction_date b0)
             then Some row else Some b0
         end
       else best)
    db acc = Some b ->
  acc = Some b \/ (In b db /\ BankingRepository.ship_id b = shipId).
Proof.
  revert acc. induction db as [|r db IH]; intros acc H; simpl in H.
  - left. exact H.
  - apply IH in H. destruct H as [H | [H1 H2]].
    + destruct (BankingRepository.ship_id r =? shipId)%string eqn:E.
      * apply String.eqb_eq in E.
        destruct acc as [b0|].
        -- destruct (BankingRepository.sortsBefore _ _).
           ++ injection H as <-. right. split; [left; reflexivity | exact E].
           ++ left. exact H.
        -- injection H as <-. right. split; [left; reflexivity | exact E].
      * left. exact H.
    + right. split; [right; exact H1 | exact H2].
Qed.

Lemma findLatest_newest_row (shipId : string) (db : BankingRepository.table)
    (row : BankingRepository.BankingRecordModel) :
  BankingRepository.ship_id row = shipId ->
  (forall r, In r db -> BankingRepository.ship_id r = shipId ->
             BankingRepository.sortsBefore
               (BankingRepository.transaction_date row)
               (BankingRepository.transaction_date r) = true) ->
  BankingRepository.findLatest shipId (db ++ [row]) = Some row.
Proof.
  intros Hs Hnew. unfold BankingRepository.findLatest.
  rewrite fold_left_app. simpl.
  rewrite (proj2 (String.eqb_eq _ _) Hs).
  match goal with
  | |- match ?best with _ => _ end = _ => destruct best as [b|] eqn:E
  end; [|reflexivity].
  apply findLatest_fold in E. destruct E as [E | [E1 E2]]; [discriminate|].
  rewrite (Hnew b E1 E2). reflexivity.
Qed.

Lemma BankSurplus_execute_writes (env : Env)
    (input : BankSurplus.BankSurplusInput) (db : BankingRepository.table) :
  let currentBalance :=
    BankingRepository.getCurrentBalance (BankSurplus.shipId input) db in
  BankSurplus.validateInput input = Ok tt ->
  0 <= currentBalance ->
  exists row out,
    BankSurplus.execute env input db = (db ++ [row], Ok out) /\
    BankingRepository.ship_id row = BankSurplus.shipId input /\
    BankingRepository.transaction_type row = BankingRecord.BANK /\
    BankingRepository.remaining_balance row
    = currentBalance + BankSurplus.amount input /\
    BankingRepository.transaction_date row = Some (now env) /\
    BankSurplus.previousBalance out = currentBalance /\
    BankSurplus.newBalance out = currentBalance + BankSurplus.amount input.
Proof.
  intros cur Hv Hcur.
  assert (Hv' := Hv). unfold BankSurplus.validateInput in Hv'.
  peel_guard Hv' Hship. peel_guard Hv' Hyear. peel_guard Hv' Hamount.
  apply orb_false_iff in Hyear. destruct Hyear as [_ Hyear].
  apply orb_false_iff in Hamount. destruct Hamount as [_ Hamount].
  apply outside2025_2030_false in Hyear. apply leb_false_iff in Hamount.
  assert (Hsum : 0 <= cur + BankSurplus.amount input).
  { apply Qle_trans with (y := cur); [exact Hcur|].
    rewrite <- (Qplus_0_r cur) at 1. apply Qplus_le_r.
    apply Qlt_le_weak, Hamount. }
  unfold BankSurplus.execute. rewrite Hv. fold cur.
  unfold BankingRecord.createBankTransaction, BankingRecord.new.
  rewrite BankingRecord_validate_passes; simpl; try assumption;
    try reflexivity.
  unfold BankingRepository.toDomain, BankingRecord.new.
  rewrite BankingRecord_validate_passes; simpl; try assumption;
    try reflexivity.
  eexists. eexists. split; [reflexivity|]. simpl.
  repeat split; reflexivity.
Qed.

(** The round trip of C6 through the two use cases and the store.  The
    store answers [getCurrentBalance] from the row with the latest
    transaction date, so the bank has to be stamped later than every row the
    ship already has; then the borrow reads [b + a] and writes [b] back. *)
Theorem bank_then_borrow_through_the_ledger :
  forall (env1 env2 : Env) (shipId : string) (bankYear year sourceYear : Z)
         (a : Q) (d1 d2 : option string) (db : BankingRepository.table),
    let b := BankingRepository.getCurrentBalance shipId db in
    let bank := {| BankSurplus.shipId := shipId;
                   BankSurplus.year := bankYear;
                   BankSurplus.amount := a;
                   BankSurplus.description := d1 |} in
    let borrow := {| ApplyBanking.shipId := shipId;
                     ApplyBanking.year := year;
                     ApplyBanking.amount := a;
                     ApplyBanking.sourceYear := sourceYear;
                     ApplyBanking.description := d2 |} in
    BankSurplus.validateInput bank = Ok tt ->
    ApplyBanking.validateInput borrow = Ok tt ->
    0 <= b ->
    (forall r, In r db -> BankingRepository.ship_id r = shipId ->
               exists d, BankingRepository.transaction_date r = Some d
                         /\ (d < now env1)%Z) ->
    exists db1 out1 row2 out2,
      BankSurplus.execute env1 bank db = (db1, Ok out1) /\
      BankSurplus.newBalance out1 = b + a /\
      BankingRepository.getCurrentBalance shipId db1 = b + a /\
      ApplyBanking.execute env2 borrow db1 = (db1 ++ [row2], Ok out2) /\
      BankingRepository.remaining_balance row2 == b /\
      ApplyBanking.newBalance out2 == b.
Proof.
  intros env1 env2 shipId bankYear year sourceYear a d1 d2 db b bank borrow
         Hbank Hborrow Hb Hclock.
  destruct (BankSurplus_execute_writes env1 bank db Hbank Hb)
    as (row1 & out1 & E1 & Hs1 & _ & Hr1 & Hd1 & _ & Hn1).
  simpl in Hs1, Hr1, Hn1. fold b in Hr1, Hn1.
  assert (Hcur : BankingRepository.getCurrentBalance shipId (db ++ [row1])
                 = b + a).
  { unfold BankingRepository.getCurrentBalance.
    rewrite (findLatest_newest_row shipId db row1 Hs1); [exact Hr1|].
    intros r Hin Hr. destruct (Hclock r Hin Hr) as [d [Hd Hlt]].
    rewrite Hd1, Hd. simpl. apply Z.ltb_lt. exact Hlt. }
  assert (Hle : ApplyBanking.amount borrow
                <= BankingRepository.getCurrentBalance
                     (ApplyBanking.shipId borrow) (db ++ [row1])).
  { simpl. rewrite Hcur. rewrite <- (Qplus_0_l a) at 1.
    apply Qplus_le_l. exact Hb. }
  destruct (ApplyBanking_execute_writes env2 borrow (db ++ [row1]) Hborrow Hle)
    as (row2 & out2 & E2 & _ & _ & _ & _ & _ & Hr2 & _ & _ & Hn2 & _).
  simpl in Hr2, Hn2. rewrite Hcur in Hr2, Hn2.
  exists (db ++ [row1]), out1, row2, out2.
  split; [exact E1|]. split; [exact Hn1|]. split; [exact Hcur|].
  split; [exact E2|]. rewrite Hr2, Hn2. split; ring.
Qed.

Example bank_then_borrow_on_an_empty_ledger :
  exists db1 out1 row2 out2,
    BankSurplus.execute {| now := 1; uuid := "r1" |} bank_100_tonnes []
    = (db1, Ok out1) /\
    BankSurplus.newBalance out1 == 100000000 /\
    ApplyBanking.execute at_time_2 (borrow_request 100000000) db1
    = (db1 ++ [row2], Ok out2) /\
    ApplyBanking.newBalance out2 == 0.
Proof.
  destruct (bank_then_borrow_through_the_ledger
              {| now := 1; uuid := "r1" |} at_time_2 "SHIP001" 2025 2026 2025
              100000000 None None [])
    as (db1 & out1 & row2 & out2 & E1 & H1 & _ & E2 & _ & H2).
  - reflexivity.
  - reflexivity.
  - apply Qle_refl.
  - intros r [].
  - exists db1, out1, row2, out2.
    split; [exact E1|]. split; [rewrite H1; reflexivity|].
    split; [exact E2 | exact H2].
Qed.

(* ================================================================== *)
(** * Further properties of the code *)

(** ** Creating a pool *)

Lemma nodup_length_le {A : Type} (dec : forall x y : A, {x = y} + {x <> y})
    (l : list A) :
  (List.length (nodup dec l) <= List.length l)%nat.
Proof.
  induction l as [|a l IH]; simpl; [lia|].
  destruct (in_dec dec a l); simpl; lia.
Qed.

Lemma nodup_length_iff {A : Type} (dec : forall x y : A, {x = y} + {x <> y})
    (l : list A) :
  List.length (nodup dec l) = List.length l <-> NoDup l.
Proof.
  split.
  - induction l as [|a l IH]; simpl; intro H; [constructor|].
    destruct (in_dec dec a l) as [Hin|Hnin].
    + pose proof (nodup_length_le dec l). lia.
    + simpl in H. constructor; [exact Hnin | apply IH; lia].
  - intro H. rewrite (nodup_fixed_point dec H). reflexivity.
Qed.

Lemma setSize_iff (l : list string) :
  negb (List.length l =? Js.setSize l)%nat = false <-> NoDup l.
Proof.
  unfold Js.setSize. rewrite negb_false_iff, Nat.eqb_eq.
  rewrite <- (nodup_length_iff string_dec l). split; intro H; lia.
Qed.

Lemma Pool_validate_Ok_iff (props : Pool.IPoolProps) :
  Pool.validate props = Ok tt <->
  Js.blank (Pool.poolName props) = false /\
  (2025 <= Pool.year props <= 2030)%Z /\
  (2 <= List.length (Pool.members props))%nat /\
  NoDup (map Pool.shipId (Pool.members props)).
Proof.
  unfold Pool.validate. split.
  - intro H. peel_guard H Hname. peel_guard H Hyear. peel_guard H Hlen.
    peel_guard H Hdup.
    apply outside2025_2030_false in Hyear. apply Nat.ltb_ge in Hlen.
    apply setSize_iff in Hdup. tauto.
  - intros (Hname & Hyear & Hlen & Hdup).
    apply outside2025_2030_false in Hyear. apply Nat.ltb_ge in Hlen.
    apply setSize_iff in Hdup.
    rewrite Hname, Hyear, Hlen. simpl. rewrite Hdup. reflexivity.
Qed.



(** ** Membership changes *)

Lemma existsb_shipId (s : string) (ms : list Pool.PoolMember) :
  existsb (fun m => (Pool.shipId m =? s)%string) ms = true
  <-> In s (map Pool.shipId ms).
Proof.
  rewrite existsb_exists, in_map_iff. split.
  - intros [m [Hin E]]. apply String.eqb_eq in E. exists m. tauto.
  - intros [m [E Hin]]. exists m. split; [exact Hin|].
    apply String.eqb_eq. exact E.
Qed.

Lemma findIndex_None {A : Type} (f : A -> bool) (l : list A) :
  Js.findIndex f l = None <-> forall x, In x l -> f x = false.
Proof.
  induction l as [|a l IH]; simpl.
  - split; [intros _ x [] | reflexivity].
  - destruct (f a) eqn:E.
    + split; [discriminate|]. intro H. specialize (H a (or_introl eq_refl)).
      congruence.
    + destruct (Js.findIndex f l) as [i|].
      * split; [discriminate|]. intro H.
        assert (N : Some i = None)
          by (apply IH; intros x Hx; apply H; right; exact Hx).
        discriminate.
      * split; [|reflexivity]. intros _ x [<-|Hx]; [exact E|].
        apply (proj1 IH eq_refl x Hx).
Qed.

Lemma findIndex_Some {A : Type} (f : A -> bool) (l : list A) (i : nat) :
  Js.findIndex f l = Some i ->
  exists l1 x l2,
    l = l1 ++ x :: l2 /\ List.length l1 = i /\ f x = true /\
    (forall y, In y l1 -> f y = false) /\
    Js.splice1 i l = l1 ++ l2.
Proof.
  revert i. induction l as [|a l IH]; simpl; intros i H; [discriminate|].
  destruct (f a) eqn:E.
  - injection H as <-. exists [], a, l. repeat split; auto.
    intros y [].
  - destruct (Js.findIndex f l) as [j|]; [|discriminate].
    injection H as <-.
    destruct (IH j eq_refl) as (l1 & x & l2 & -> & Hlen & Hx & Hl1 & Hs).
    exists (a :: l1), x, l2. simpl. repeat split; auto.
    + intros y [<-|Hy]; [exact E | apply Hl1, Hy].
    + unfold Js.splice1 in *. simpl. f_equal. exact Hs.
Qed.

Lemma NoDup_snoc {A : Type} (l : list A) (a : A) :
  NoDup l -> ~ In a l -> NoDup (l ++ [a]).
Proof.
  induction l as [|b l IH]; simpl; intros Hnd Hnin.
  - constructor; [intros [] | constructor].
  - inversion Hnd as [|b' l' Hb Hl]; subst. constructor.
    + rewrite in_app_iff. simpl. intros [H|[H|[]]]; [tauto|].
      apply Hnin. left. symmetry. exact H.
    + apply IH; [exact Hl | tauto].
Qed.

Lemma find_snoc {A : Type} (f : A -> bool) (l : list A) (a : A) :
  find f (l ++ [a])
  = match find f l with
    | Some x => Some x
    | None => if f a then Some a else None
    end.
Proof.
  induction l as [|b l IH]; simpl; [reflexivity|].
  destruct (f b); [reflexivity | exact IH].
Qed.

Lemma find_None_iff {A : Type} (f : A -> bool) (l : list A) :
  find f l = None <-> forall x, In x l -> f x = false.
Proof.
  split; [apply find_none|].
  induction l as [|a l IH]; simpl; intro H; [reflexivity|].
  rewrite (H a (or_introl eq_refl)). apply IH.
  intros x Hx. apply H. right. exact Hx.
Qed.

Lemma find_without_rejected {A : Type} (f : A -> bool) (x : A)
    (before after : list A) :
  f x = false ->
  find f (before ++ x :: after) = find f (before ++ after).
Proof.
  intro H. induction before as [|b before IH]; simpl.
  - rewrite H. reflexivity.
  - destruct (f b); [reflexivity | exact IH].
Qed.

(** X2: the conditions the constructor checks (name, year, at least two
    members, no repeated ship) hold of every pool [createPool] returns and
    are kept by every [addMember] and [removeMember] that returns. *)
Theorem well_formed_is_kept :
  (forall now name year ms by_ descr p,
      Pool.createPool now name year ms by_ descr = Ok p -> well_formed p) /\
  (forall m p p',
      well_formed p -> Pool.addMember m p = Pool.Returned p' ->
      well_formed p') /\
  (forall s p p',
      well_formed p -> Pool.removeMember s p = Pool.Returned p' ->
      well_formed p').
Proof.
  split; [|split].
  - intros now name year ms by_ descr p H.
    destruct (createPool_Ok now name year ms by_ descr p H) as [Hm _].
    unfold Pool.createPool, Pool.new in H.
    apply bind_Ok in H. destruct H as [u [Hv H]]. destruct u.
    apply Pool_validate_Ok_iff in Hv. simpl in Hv.
    injection H as <-. unfold well_formed. simpl. exact Hv.
  - intros m p p' (Hname & Hyear & Hlen & Hdup) H.
    unfold Pool.addMember in H.
    destruct (existsb _ _) eqn:E; [discriminate|].
    injection H as <-. unfold well_formed. simpl.
    split; [exact Hname|]. split; [exact Hyear|]. split.
    + rewrite length_app. simpl. lia.
    + rewrite map_app. simpl. apply NoDup_snoc; [exact Hdup|].
      intro Hin. apply existsb_shipId in Hin. congruence.
  - intros s p p' (Hname & Hyear & Hlen & Hdup) H.
    destruct (removeMember_Returned s p p' H)
      as [[index [Hi Hm]] [Hlen' _]].
    destruct (findIndex_Some _ _ _ Hi) as (l1 & x & l2 & El & _ & _ & _ & Es).
    unfold Pool.removeMember in H. rewrite Hi in H.
    destruct (_ <? 2)%nat; [discriminate|]. injection H as <-.
    unfold well_formed. simpl.
    split; [exact Hname|]. split; [exact Hyear|]. split; [exact Hlen'|].
    rewrite Es. rewrite El, map_app in Hdup. simpl in Hdup.
    rewrite map_app. apply (NoDup_remove_1 _ _ _ Hdup).
Qed.

Lemma well_formed_is_kept_witness :
  well_formed pool_AB /\
  exists p', Pool.addMember (ship "C" 7) pool_AB = Pool.Returned p'
             /\ well_formed p'.
Proof.
  destruct well_formed_is_kept as [H1 [H2 _]].
  assert (W : well_formed pool_AB).
  { apply (H1 0%Z "P"%string 2025%Z [ship "A" 5; ship "B" (-3)] None None).
    reflexivity. }
  split; [exact W|].
  eexists. split; [reflexivity|].
  apply (H2 (ship "C" 7) pool_AB); [exact W | reflexivity].
Defined.

(** X3: the two other error paths of the membership methods do not touch
    the pool: adding a ship whose identifier is already a member's throws
    `Ship ... is already in the pool`, removing a ship that is no member
    throws `Ship ... is not in the pool`, and in both cases the object is
    exactly what it was; a ship that is new is appended at the end. *)
Theorem membership_errors_leave_the_pool_untouched :
  forall (p : Pool.t) (m : Pool.PoolMember) (s : string),
    (In (Pool.shipId m) (map Pool.shipId (Pool.this_members p)) ->
     Pool.addMember m p = Pool.Thrown (ShipAlreadyInPool (Pool.shipId m)) p) /\
    (~ In (Pool.shipId m) (map Pool.shipId (Pool.this_members p)) ->
     exists p', Pool.addMember m p = Pool.Returned p' /\
                Pool.this_members p' = Pool.this_members p ++ [m]) /\
    (~ In s (map Pool.shipId (Pool.this_members p)) ->
     Pool.removeMember s p = Pool.Thrown (ShipNotInPool s) p).
Proof.
  intros p m s. split; [|split].
  - intro Hin. apply existsb_shipId in Hin.
    unfold Pool.addMember. rewrite Hin. reflexivity.
  - intro Hnin. unfold Pool.addMember.
    destruct (existsb _ _) eqn:E.
    + apply existsb_shipId in E. contradiction.
    + eexists. split; reflexivity.
  - intro Hnin. unfold Pool.removeMember.
    assert (E : Js.findIndex (fun m0 => (Pool.shipId m0 =? s)%string)
                  (Pool.this_members p) = None).
    { apply findIndex_None. intros x Hx.
      apply String.eqb_neq. intro E. apply Hnin.
      apply in_map_iff. exists x. tauto. }
    rewrite E. reflexivity.
Qed.

Lemma membership_errors_witness :
  Pool.addMember (ship "A" 9) pool_AB
  = Pool.Thrown (ShipAlreadyInPool "A") pool_AB /\
  Pool.removeMember "Z" pool_AB = Pool.Thrown (ShipNotInPool "Z") pool_AB.
Proof.
  destruct (membership_errors_leave_the_pool_untouched
              pool_AB (ship "A" 9) "Z") as [H1 [_ H3]].
  split.
  - apply H1. simpl. auto.
  - apply H3. simpl. intuition discriminate.
Defined.

Lemma findIndex_snoc_new {A : Type} (f : A -> bool) (l : list A) (a : A) :
  (forall x, In x l -> f x = false) -> f a = true ->
  Js.findIndex f (l ++ [a]) = Some (List.length l).
Proof.
  intros Hl Ha. induction l as [|b l IH]; simpl.
  - rewrite Ha. reflexivity.
  - rewrite (Hl b (or_introl eq_refl)).
    rewrite IH; [reflexivity|]. intros x Hx. apply Hl. right. exact Hx.
Qed.

Lemma splice1_snoc {A : Type} (l : list A) (a : A) :
  Js.splice1 (List.length l) (l ++ [a]) = l.
Proof.
  unfold Js.splice1. induction l as [|b l IH]; simpl; [reflexivity|].
  f_equal. exact IH.
Qed.

(** X4: on a pool of at least two members, adding a ship that is new and
    then removing it gives back the member list the pool had, with [totalCB]
    and [isCompliant] recomputed from that list and every other field
    untouched. *)
Theorem add_then_remove_restores_members :
  forall (p : Pool.t) (m : Pool.PoolMember),
    (2 <= List.length (Pool.this_members p))%nat ->
    ~ In (Pool.shipId m) (map Pool.shipId (Pool.this_members p)) ->
    exists p1 p2,
      Pool.addMember m p = Pool.Returned p1 /\
      Pool.removeMember (Pool.shipId m) p1 = Pool.Returned p2 /\
      Pool.this_members p2 = Pool.this_members p /\
      Pool.this_totalCB p2 = Pool.sumCB (Pool.this_members p) /\
      Pool.this_isCompliant p2 = Js.geb (Pool.sumCB (Pool.this_members p)) 0 /\
      Pool.this_poolName p2 = Pool.this_poolName p /\
      Pool.this_year p2 = Pool.this_year p /\
      Pool.this_id p2 = Pool.this_id p.
Proof.
  intros p m Hlen Hnew.
  unfold Pool.addMember.
  destruct (existsb _ _) eqn:E;
    [apply existsb_shipId in E; contradiction|].
  eexists. eexists. split; [reflexivity|].
  unfold Pool.removeMember. simpl.
  rewrite findIndex_snoc_new.
  - rewrite splice1_snoc.
    assert (L : (List.length (Pool.this_members p) <? 2)%nat = false)
      by (apply Nat.ltb_ge; exact Hlen).
    rewrite L. split; [reflexivity|]. simpl. repeat split.
  - intros x Hx. apply String.eqb_neq. intro Ex. apply Hnew.
    apply in_map_iff. exists x. tauto.
  - apply String.eqb_refl.
Qed.

Lemma add_then_remove_witness :
  exists p1 p2,
    Pool.addMember (ship "C" 7) pool_AB = Pool.Returned p1 /\
    Pool.removeMember "C" p1 = Pool.Returned p2 /\
    Pool.this_members p2 = Pool.this_members pool_AB.
Proof.
  destruct (add_then_remove_restores_members pool_AB (ship "C" 7))
    as (p1 & p2 & H1 & H2 & H3 & _).
  - simpl. lia.
  - simpl. intuition discriminate.
  - exists p1, p2. repeat split; assumption.
Defined.

(** X5: [getMember] after a membership change.  After an [addMember] that
    returns, the new ship is found and is the member that was added, and
    every other ship is found as before.  After a [removeMember] that
    returns on a pool without repeated ships, the removed ship is no longer
    found and every other ship is found as before. *)
Theorem getMember_after_membership_change :
  (forall m p p',
      Pool.addMember m p = Pool.Returned p' ->
      Pool.getMember (Pool.shipId m) p' = Some m /\
      forall s, s <> Pool.shipId m ->
                Pool.getMember s p' = Pool.getMember s p) /\
  (forall s p p',
      NoDup (map Pool.shipId (Pool.this_members p)) ->
      Pool.removeMember s p = Pool.Returned p' ->
      Pool.getMember s p' = None /\
      forall s', s' <> s -> Pool.getMember s' p' = Pool.getMember s' p).
Proof.
  split.
  - intros m p p' H. unfold Pool.addMember in H.
    destruct (existsb _ _) eqn:E; [discriminate|]. injection H as <-.
    unfold Pool.getMember. simpl. split.
    + rewrite find_snoc, String.eqb_refl.
      assert (N : find (fun m0 => (Pool.shipId m0 =? Pool.shipId m)%string)
                    (Pool.this_members p) = None).
      { apply find_None_iff. intros x Hx.
        destruct (Pool.shipId x =? Pool.shipId m)%string eqn:Ex;
          [|reflexivity].
        assert (T : existsb (fun m0 => (Pool.shipId m0 =? Pool.shipId m)%string)
                      (Pool.this_members p) = true)
          by (apply existsb_exists; exists x; tauto).
        congruence. }
      rewrite N. reflexivity.
    + intros s Hs. rewrite find_snoc.
      assert (F : (Pool.shipId m =? s)%string = false)
        by (apply String.eqb_neq; congruence).
      rewrite F. destruct (find _ _); reflexivity.
  - intros s p p' Hdup H.
    destruct (removeMember_Returned s p p' H) as [[index [Hi Hm]] _].
    destruct (findIndex_Some _ _ _ Hi) as (l1 & x & l2 & El & _ & Hx & _ & Es).
    apply String.eqb_eq in Hx.
    unfold Pool.getMember. rewrite Hm, Es, El. split.
    + apply find_None_iff. intros y Hy. apply String.eqb_neq. intro Ey.
      rewrite El, map_app in Hdup. simpl in Hdup.
      apply NoDup_remove_2 in Hdup. apply Hdup.
      rewrite <- map_app, Hx, <- Ey. apply in_map. exact Hy.
    + intros s' Hs'. symmetry. apply find_without_rejected.
      apply String.eqb_neq. congruence.
Qed.

Lemma getMember_after_membership_change_witness :
  exists p', Pool.addMember (ship "C" 7) pool_AB = Pool.Returned p' /\
             Pool.getMember "C" p' = Some (ship "C" 7) /\
             Pool.getMember "A" p' = Some (ship "A" 5).
Proof.
  destruct getMember_after_membership_change as [H _].
  eexists. split; [reflexivity|].
  match goal with
  | |- Pool.getMember _ ?q = _ /\ _ =>
      destruct (H (ship "C" 7) pool_AB q eq_refl) as [H1 H2]
  end.
  split; [exact H1|]. rewrite H2; [reflexivity | discriminate].
Defined.

(** ** Surplus, deficit and penalty of a pool *)

Lemma sum_by_sign (ms : list Pool.PoolMember) :
  sum_of_balances ms ==
  sum_of_balances (filter (fun m => Js.gtb (Pool.complianceBalance m) 0) ms)
  + sum_of_balances (filter (fun m => Js.ltb (Pool.complianceBalance m) 0) ms)
  /\ 0 <= sum_of_balances
            (filter (fun m => Js.gtb (Pool.complianceBalance m) 0) ms)
  /\ sum_of_balances
       (filter (fun m => Js.ltb (Pool.complianceBalance m) 0) ms) <= 0.
Proof.
  induction ms as [|m ms (IH1 & IH2 & IH3)]; simpl.
  - split; [ring|]. split; apply Qle_refl.
  - destruct (Js.gtb (Pool.complianceBalance m) 0) eqn:Eg;
      destruct (Js.ltb (Pool.complianceBalance m) 0) eqn:El; simpl.
    + apply gtb_true_iff in Eg. apply ltb_true_iff in El. lra.
    + apply gtb_true_iff in Eg. lra.
    + apply ltb_true_iff in El. lra.
    + apply gtb_false_iff in Eg. apply ltb_false_iff in El. lra.
Qed.

Lemma surplus_deficit_values (p : Pool.t) :
  Pool.getTotalSurplus p == sum_of_balances (Pool.getSurplusMembers p) /\
  Pool.getTotalDeficit p == - sum_of_balances (Pool.getDeficitMembers p) /\
  0 <= Pool.getTotalSurplus p /\
  0 <= Pool.getTotalDeficit p /\
  Pool.getTotalSurplus p - Pool.getTotalDeficit p
  == sum_of_balances (Pool.this_members p).
Proof.
  destruct (sum_by_sign (Pool.this_members p)) as (H1 & H2 & H3).
  assert (Es : Pool.getTotalSurplus p
               == sum_of_balances (Pool.getSurplusMembers p)).
  { unfold Pool.getTotalSurplus. rewrite fold_left_balances. ring. }
  assert (Ed : Pool.getTotalDeficit p
               == - sum_of_balances (Pool.getDeficitMembers p)).
  { unfold Pool.getTotalDeficit, Js.abs. rewrite fold_left_balances.
    rewrite Qplus_0_l. apply Qabs_neg. exact H3. }
  unfold Pool.getSurplusMembers, Pool.getDeficitMembers in *.
  repeat split; try assumption; lra.
Qed.

(** X6: the total surplus and the total deficit of a pool are both at least
    0, and their difference is the sum of all members' balances; so on every
    pool whose [totalCB] is that sum (every pool [createPool], [addMember]
    or [removeMember] returns) [getTotalSurplus - getTotalDeficit] is
    [totalCB]. *)
Theorem surplus_minus_deficit_is_total :
  forall p : Pool.t,
    0 <= Pool.getTotalSurplus p /\
    0 <= Pool.getTotalDeficit p /\
    Pool.getTotalSurplus p - Pool.getTotalDeficit p
    == Pool.sumCB (Pool.this_members p) /\
    (Pool.this_totalCB p = Pool.sumCB (Pool.this_members p) ->
     Pool.getTotalSurplus p - Pool.getTotalDeficit p == Pool.this_totalCB p).
Proof.
  intro p. destruct (surplus_deficit_values p) as (_ & _ & H3 & H4 & H5).
  split; [exact H3|]. split; [exact H4|].
  assert (E : Pool.getTotalSurplus p - Pool.getTotalDeficit p
              == Pool.sumCB (Pool.this_members p))
    by (rewrite sumCB_is_sum; exact H5).
  split; [exact E|]. intro Ht. rewrite Ht. exact E.
Qed.

Lemma surplus_minus_deficit_witness :
  Pool.getTotalSurplus pool_AB - Pool.getTotalDeficit pool_AB
  == Pool.this_totalCB pool_AB.
Proof.
  destruct (surplus_minus_deficit_is_total pool_AB) as (_ & _ & _ & H).
  apply H. reflexivity.
Defined.

Lemma penalty_rate (x : Q) : (x / 1000000) * 2400 == x * (3 # 1250).
Proof. field. Qed.

(** X7: the penalty of a pool is never negative.  On a pool whose [totalCB]
    and [isCompliant] match its members, the penalty is 0 exactly when
    [totalCB >= 0]; when the pool is in deficit it is the members' total
    deficit net of their total surplus, in tonnes, times 2400, so it never
    exceeds what the deficit members alone would owe. *)
Theorem pool_penalty_is_the_net_deficit :
  forall p : Pool.t,
    0 <= Pool.calculatePenalty p /\
    (Pool.this_totalCB p = Pool.sumCB (Pool.this_members p) ->
     Pool.this_isCompliant p = Js.geb (Pool.this_totalCB p) 0 ->
     (Pool.calculatePenalty p == 0 <-> 0 <= Pool.this_totalCB p) /\
     (Pool.this_totalCB p < 0 ->
      Pool.calculatePenalty p
      == ((Pool.getTotalDeficit p - Pool.getTotalSurplus p) / 1000000) * 2400) /\
     Pool.calculatePenalty p <= (Pool.getTotalDeficit p / 1000000) * 2400).
Proof.
  intro p.
  assert (Hpos : 0 <= Pool.calculatePenalty p).
  { unfold Pool.calculatePenalty, Js.abs.
    destruct (Pool.this_isCompliant p); [apply Qle_refl|].
    pose proof (Qabs_nonneg (Pool.this_totalCB p)) as Ha.
    rewrite penalty_rate. lra. }
  split; [exact Hpos|]. intros Ht Hc.
  destruct (surplus_deficit_values p) as (_ & _ & Hs & Hd & Hsum).
  rewrite <- sumCB_is_sum, <- Ht in Hsum.
  unfold Pool.calculatePenalty, Js.abs in *. rewrite Hc in *.
  destruct (Js.geb (Pool.this_totalCB p) 0) eqn:E.
  - apply geb_true_iff in E. rewrite !penalty_rate.
    split; [split; [intros _; exact E | intros _; reflexivity]|].
    split; [intro; lra | lra].
  - assert (Hneg : Pool.this_totalCB p < 0).
    { apply Qnot_le_lt. intro Hle. apply geb_true_iff in Hle. congruence. }
    assert (Ea : Qabs (Pool.this_totalCB p) == - Pool.this_totalCB p)
      by (apply Qabs_neg; lra).
    rewrite !penalty_rate, Ea. split; [|split].
    + split; intro H; lra.
    + intros _. lra.
    + lra.
Qed.

Lemma pool_penalty_is_the_net_deficit_witness :
  Pool.calculatePenalty pool_AB == 0 /\
  Pool.calculatePenalty pool_AB
  <= (Pool.getTotalDeficit pool_AB / 1000000) * 2400.
Proof.
  destruct (pool_penalty_is_the_net_deficit pool_AB) as [_ H].
  destruct H as [H1 [_ H3]]; [reflexivity | reflexivity |].
  split; [|exact H3]. apply H1. vm_compute. discriminate.
Defined.

(** ** Banking a surplus *)

Lemma BankSurplus_valid (input : BankSurplus.BankSurplusInput) :
  BankSurplus.validateInput input = Ok tt ->
  Js.blank (BankSurplus.shipId input) = false /\
  (2025 <= BankSurplus.year input <= 2030)%Z /\
  0 < BankSurplus.amount input.
Proof.
  unfold BankSurplus.validateInput. intro H.
  peel_guard H Hship. peel_guard H Hyear. peel_guard H Hamount.
  apply orb_false_iff in Hyear. destruct Hyear as [_ Hyear].
  apply orb_false_iff in Hamount. destruct Hamount as [_ Hamount].
  apply outside2025_2030_false in Hyear. apply leb_false_iff in Hamount.
  tauto.
Qed.

Lemma BankSurplus_execute_appends (env : Env)
    (input : BankSurplus.BankSurplusInput) (db : BankingRepository.table) :
  let currentBalance :=
    BankingRepository.getCurrentBalance (BankSurplus.shipId input) db in
  BankSurplus.validateInput input = Ok tt ->
  0 <= currentBalance + BankSurplus.amount input ->
  exists row out,
    BankSurplus.execute env input db = (db ++ [row], Ok out) /\
    BankingRepository.ship_id row = BankSurplus.shipId input /\
    BankingRepository.transaction_type row = BankingRecord.BANK /\
    BankingRepository.year row = BankSurplus.year input /\
    BankingRepository.amount row = BankSurplus.amount input /\
    BankingRepository.source_year row = None /\
    BankingRepository.remaining_balance row
    = currentBalance + BankSurplus.amount input /\
    BankingRepository.transaction_date row = Some (now env) /\
    BankingRepository.id row = Some (uuid env) /\
    BankSurplus.previousBalance out = currentBalance /\
    BankSurplus.newBalance out = currentBalance + BankSurplus.amount input.
Proof.
  intros cur Hv Hsum.
  destruct (BankSurplus_valid input Hv) as (Hship & Hyear & Hamount).
  unfold BankSurplus.execute. rewrite Hv. fold cur.
  unfold BankingRecord.createBankTransaction, BankingRecord.new.
  rewrite BankingRecord_validate_passes; simpl; try assumption;
    try reflexivity.
  unfold BankingRepository.toDomain, BankingRecord.new.
  rewrite BankingRecord_validate_passes; simpl; try assumption;
    try reflexivity.
  eexists. eexists. split; [reflexivity|]. simpl.
  repeat split; reflexivity.
Qed.

Lemma BankSurplus_execute_refuses (env : Env)
    (input : BankSurplus.BankSurplusInput) (db : BankingRepository.table) :
  let currentBalance :=
    BankingRepository.getCurrentBalance (BankSurplus.shipId input) db in
  BankSurplus.validateInput input = Ok tt ->
  currentBalance + BankSurplus.amount input < 0 ->
  BankSurplus.execute env input db = (db, Throw RemainingBalanceNegative).
Proof.
  intros cur Hv Hneg.
  destruct (BankSurplus_valid input Hv) as (Hship & Hyear & Hamount).
  apply outside2025_2030_false in Hyear. apply leb_false_iff in Hamount.
  apply ltb_true_iff in Hneg.
  unfold BankSurplus.execute. rewrite Hv. fold cur.
  unfold BankingRecord.createBankTransaction, BankingRecord.new,
    BankingRecord.validate. simpl.
  rewrite Hship, Hyear, Hamount. simpl. rewrite Hneg. reflexivity.
Qed.

(** X8: banking writes exactly when the input passes validation and
    [currentBalance + amount] is not negative: it then appends one BANK row
    for the ship, stamped with the clock, whose remaining balance is
    [currentBalance + amount], and reports that balance.  An invalid input is
    refused with its validation error, and a sum below 0 with 'Remaining
    balance cannot be negative'; in both cases the table is what it was.
    Nothing else is consulted: any positive amount can be banked. *)
Theorem BankSurplus_outcome :
  forall (env : Env) (input : BankSurplus.BankSurplusInput)
         (db : BankingRepository.table),
    let currentBalance :=
      BankingRepository.getCurrentBalance (BankSurplus.shipId input) db in
    ((exists db' out, BankSurplus.execute env input db = (db', Ok out)) <->
     BankSurplus.validateInput input = Ok tt /\
     0 <= currentBalance + BankSurplus.amount input) /\
    (BankSurplus.validateInput input = Ok tt ->
     0 <= currentBalance + BankSurplus.amount input ->
     exists row out,
       BankSurplus.execute env input db = (db ++ [row], Ok out) /\
       BankingRepository.ship_id row = BankSurplus.shipId input /\
       BankingRepository.transaction_type row = BankingRecord.BANK /\
       BankingRepository.amount row = BankSurplus.amount input /\
       BankingRepository.remaining_balance row
       = currentBalance + BankSurplus.amount input /\
       BankingRepository.transaction_date row = Some (now env) /\
       BankSurplus.previousBalance out = currentBalance /\
       BankSurplus.newBalance out
       = currentBalance + BankSurplus.amount input) /\
    (BankSurplus.validateInput input = Ok tt ->
     currentBalance + BankSurplus.amount input < 0 ->
     BankSurplus.execute env input db = (db, Throw RemainingBalanceNegative)) /\
    (forall e, BankSurplus.validateInput input = Throw e ->
               BankSurplus.execute env input db = (db, Throw e)).
Proof.
  intros env input db cur.
  assert (Hinv : forall e, BankSurplus.validateInput input = Throw e ->
                           BankSurplus.execute env input db = (db, Throw e)).
  { intros e He. unfold BankSurplus.execute. rewrite He. reflexivity. }
  split; [split|split; [|split]].
  - intros (db' & out & H).
    destruct (BankSurplus.validateInput input) as [[]|e] eqn:Hv.
    + split; [reflexivity|].
      destruct (Qlt_le_dec (cur + BankSurplus.amount input) 0) as [Hneg|Hge];
        [|exact Hge].
      rewrite (BankSurplus_execute_refuses env input db Hv Hneg) in H.
      discriminate.
    + rewrite (Hinv e eq_refl) in H. discriminate.
  - intros [Hv Hsum].
    destruct (BankSurplus_execute_appends env input db Hv Hsum)
      as (row & out & H & _).
    eexists. eexists. exact H.
  - intros Hv Hsum.
    destruct (BankSurplus_execute_appends env input db Hv Hsum)
      as (row & out & H & H1 & H2 & _ & H4 & _ & H6 & H7 & _ & H9 & H10).
    exists row, out. repeat split; assumption.
  - apply BankSurplus_execute_refuses.
  - exact Hinv.
Qed.

Lemma BankSurplus_outcome_witness :
  exists row out,
    BankSurplus.execute {| now := 1; uuid := "r1" |} bank_100_tonnes []
    = ([] ++ [row], Ok out) /\
    BankingRepository.remaining_balance row = 0 + 100000000.
Proof.
  destruct (BankSurplus_outcome {| now := 1; uuid := "r1" |} bank_100_tonnes [])
    as [_ [H _]].
  destruct H as (row & out & H & _ & _ & _ & Hr & _).
  - reflexivity.
  - vm_compute. discriminate.
  - exists row, out. split; [exact H | exact Hr].
Defined.

(** ** The ledger as the use cases build it *)

Lemma findLatest_In (shipId : string) (db : BankingRepository.table)
    (b : BankingRepository.BankingRecordModel) :
  BankingRepository.findLatest shipId db = Some b ->
  In b db /\ BankingRepository.ship_id b = shipId.
Proof.
  intro H. apply findLatest_fold in H.
  destruct H as [H|H]; [discriminate | exact H].
Qed.


Lemma ApplyBanking_execute_cases (env : Env)
    (input : ApplyBanking.ApplyBankingInput) (db : BankingRepository.table) :
  (exists e, ApplyBanking.execute env input db = (db, Throw e)) \/
  (exists row out,
      ApplyBanking.execute env input db = (db ++ [row], Ok out) /\
      row_ok row /\
      BankingRepository.ship_id row = ApplyBanking.shipId input).
Proof.
  destruct (ApplyBanking.validateInput input) as [[]|e] eqn:Hv.
  - destruct (Qlt_le_dec
                (BankingRepository.getCurrentBalance
                   (ApplyBanking.shipId input) db)
                (ApplyBanking.amount input)) as [Hlt|Hle].
    + left. eexists. unfold ApplyBanking.execute. rewrite Hv.
      apply ltb_true_iff in Hlt. rewrite Hlt. reflexivity.
    + right.
      destruct (ApplyBanking_valid input Hv) as (Hs & Hy & Ha & Hsy & Hlt).
      destruct (ApplyBanking_execute_writes env input db Hv Hle)
        as (row & out & H & E1 & E2 & E3 & E4 & E5 & E6 & E7 & _).
      exists row, out. split; [exact H|]. split; [|exact E1].
      unfold row_ok. rewrite E1, E3, E4, E5, E6, E7.
      repeat split; try assumption; try lia.
      * lra.
      * intros _. exists (ApplyBanking.sourceYear input).
        split; [reflexivity | lia].
      * eexists. reflexivity.
  - left. exists e. unfold ApplyBanking.execute. rewrite Hv. reflexivity.
Qed.

Lemma BankSurplus_execute_cases (env : Env)
    (input : BankSurplus.BankSurplusInput) (db : BankingRepository.table) :
  (exists e, BankSurplus.execute env input db = (db, Throw e)) \/
  (exists row out,
      BankSurplus.execute env input db = (db ++ [row], Ok out) /\
      row_ok row /\
      BankingRepository.ship_id row = BankSurplus.shipId input).
Proof.
  destruct (BankSurplus.validateInput input) as [[]|e] eqn:Hv.
  - destruct (Qlt_le_dec
                (BankingRepository.getCurrentBalance
                   (BankSurplus.shipId input) db + BankSurplus.amount input)
                0) as [Hneg|Hge].
    + left. eexists. apply (BankSurplus_execute_refuses env input db Hv Hneg).
    + right.
      destruct (BankSurplus_valid input Hv) as (Hs & Hy & Ha).
      destruct (BankSurplus_execute_appends env input db Hv Hge)
        as (row & out & H & E1 & E2 & E3 & E4 & E5 & E6 & E7 & _).
      exists row, out. split; [exact H|]. split; [|exact E1].
      unfold row_ok. rewrite E1, E2, E3, E4, E6, E7.
      repeat split; try assumption; try lia.
      * discriminate.
      * eexists. reflexivity.
  - left. exists e. unfold BankSurplus.execute. rewrite Hv. reflexivity.
Qed.



(** ** Which row the current balance is read from *)

Lemma sortsBefore_older (r a b : option Z) :
  BankingRepository.sortsBefore r a = true ->
  BankingRepository.sortsBefore r b = false ->
  BankingRepository.sortsBefore a b = false.
Proof.
  destruct r as [r|], a as [a|], b as [b|]; simpl; try discriminate;
    try reflexivity.
  rewrite Z.ltb_lt, !Z.ltb_ge. lia.
Qed.

Lemma sortsBefore_not_newer (r a b : option Z) :
  BankingRepository.sortsBefore r a = false ->
  BankingRepository.sortsBefore a b = false ->
  BankingRepository.sortsBefore r b = false.
Proof.
  destruct r as [r|], a as [a|], b as [b|]; simpl; try discriminate;
    try reflexivity.
  rewrite !Z.ltb_ge. lia.
Qed.

Lemma findLatest_fold_newest (shipId : string) (db : BankingRepository.table)
    (acc : option BankingRepository.BankingRecordModel)
    (b : BankingRepository.BankingRecordModel) :
  fold_left
    (fun best row =>
       if (BankingRepository.ship_id row =? shipId)%string then
         match best with
         | None => Some row
         | Some b0 =>
             if BankingRepository.sortsBefore
                  (BankingRepository.transaction_date row)
                  (BankingRepository.transaction_date b0)
             then Some row else Some b0
         end
       else best)
    db acc = Some b ->
  (forall a, acc = Some a ->
     BankingRepository.sortsBefore (BankingRepository.transaction_date a)
       (BankingRepository.transaction_date b) = false) /\
  (forall r, In r db -> BankingRepository.ship_id r = shipId ->
     BankingRepository.sortsBefore (BankingRepository.transaction_date r)
       (BankingRepository.transaction_date b) = false).
Proof.
  revert acc. induction db as [|r db IH]; intros acc H; simpl in H.
  - split; [|intros r []]. intros a Ha. rewrite Ha in H. injection H as <-.
    destruct (BankingRepository.transaction_date a) as [d|]; simpl;
      [apply Z.ltb_irrefl | reflexivity].
  - apply IH in H. destruct H as [Hacc Hdb].
    destruct (BankingRepository.ship_id r =? shipId)%string eqn:Es.
    + destruct acc as [a|].
      * destruct (BankingRepository.sortsBefore
                    (BankingRepository.transaction_date r)
                    (BankingRepository.transaction_date a)) eqn:Eb.
        -- pose proof (Hacc r eq_refl) as Hr. split.
           ++ intros a' Ha'. injection Ha' as <-.
              apply (sortsBefore_older _ _ _ Eb Hr).
           ++ intros r' [<-|Hin] Hs; [exact Hr | apply Hdb; assumption].
        -- pose proof (Hacc a eq_refl) as Ha. split.
           ++ intros a' Ha'. injection Ha' as <-. exact Ha.
           ++ intros r' [<-|Hin] Hs; [|apply Hdb; assumption].
              apply (sortsBefore_not_newer _ _ _ Eb Ha).
      * pose proof (Hacc r eq_refl) as Hr. split; [discriminate|].
        intros r' [<-|Hin] Hs; [exact Hr | apply Hdb; assumption].
    + split; [exact Hacc|].
      intros r' [<-|Hin] Hs; [|apply Hdb; assumption].
      apply String.eqb_neq in Es. contradiction.
Qed.

Lemma findLatest_fold_None (shipId : string) (db : BankingRepository.table)
    (acc : option BankingRepository.BankingRecordModel) :
  fold_left
    (fun best row =>
       if (BankingRepository.ship_id row =? shipId)%string then
         match best with
         | None => Some row
         | Some b0 =>
             if BankingRepository.sortsBefore
                  (BankingRepository.transaction_date row)
                  (BankingRepository.transaction_date b0)
             then Some row else Some b0
         end
       else best)
    db acc = None <->
  acc = None /\
  forall r, In r db -> BankingRepository.ship_id r <> shipId.
Proof.
  revert acc. induction db as [|r db IH]; intro acc; simpl.
  - split; [intro H; split; [exact H | intros r []] | tauto].
  - rewrite IH.
    destruct (BankingRepository.ship_id r =? shipId)%string eqn:Es.
    + apply String.eqb_eq in Es. split.
      * intros [H _]. destruct acc as [a|]; [|discriminate].
        destruct (BankingRepository.sortsBefore _ _); discriminate.
      * intros [_ H]. exfalso. apply (H r (or_introl eq_refl) Es).
    + apply String.eqb_neq in Es. split.
      * intros [H1 H2]. split; [exact H1|].
        intros r' [<-|Hin]; [exact Es | apply H2, Hin].
      * intros [H1 H2]. split; [exact H1|].
        intros r' Hin. apply H2. right. exact Hin.
Qed.

(** X10: the current balance of a ship is 0 while the table has no row of
    that ship, and rows of other ships never change it.  When a row of the
    ship is appended, the balance becomes that row's remaining balance if
    the row is dated later than every row the ship already has, and stays
    what it was if some row of the ship is dated later than the new one: the
    balance is read from the latest date, not from the last write. *)
Theorem current_balance_is_read_from_the_latest_date :
  forall (shipId : string) (db : BankingRepository.table)
         (row : BankingRepository.BankingRecordModel),
    ((forall r, In r db -> BankingRepository.ship_id r <> shipId) ->
     BankingRepository.getCurrentBalance shipId db = 0) /\
    (BankingRepository.ship_id row <> shipId ->
     BankingRepository.getCurrentBalance shipId (db ++ [row])
     = BankingRepository.getCurrentBalance shipId db) /\
    (forall d,
       BankingRepository.ship_id row = shipId ->
       BankingRepository.transaction_date row = Some d ->
       (forall r, In r db -> BankingRepository.ship_id r = shipId ->
          exists d', BankingRepository.transaction_date r = Some d'
                     /\ (d' < d)%Z) ->
       BankingRepository.getCurrentBalance shipId (db ++ [row])
       = BankingRepository.remaining_balance row) /\
    (forall d,
       BankingRepository.ship_id row = shipId ->
       BankingRepository.transaction_date row = Some d ->
       (exists r d', In r db /\ BankingRepository.ship_id r = shipId /\
                     BankingRepository.transaction_date r = Some d' /\
                     (d < d')%Z) ->
       BankingRepository.getCurrentBalance shipId (db ++ [row])
       = BankingRepository.getCurrentBalance shipId db).
Proof.
  intros shipId db row.
  split; [|split; [|split]].
  - intro Hnone. unfold BankingRepository.getCurrentBalance.
    assert (E : BankingRepository.findLatest shipId db = None)
      by (apply findLatest_fold_None; split; [reflexivity | exact Hnone]).
    rewrite E. reflexivity.
  - intro Hother. unfold BankingRepository.getCurrentBalance,
      BankingRepository.findLatest.
    rewrite fold_left_app. simpl.
    apply String.eqb_neq in Hother. rewrite Hother. reflexivity.
  - intros d Hs Hd Hnew. unfold BankingRepository.getCurrentBalance.
    rewrite (findLatest_newest_row shipId db row Hs); [reflexivity|].
    intros r Hin Hr. destruct (Hnew r Hin Hr) as [d' [Hd' Hlt]].
    rewrite Hd, Hd'. simpl. apply Z.ltb_lt. exact Hlt.
  - intros d Hs Hd (r & d' & Hin & Hr & Hd' & Hlt).
    unfold BankingRepository.getCurrentBalance, BankingRepository.findLatest.
    rewrite fold_left_app. simpl.
    apply String.eqb_eq in Hs. rewrite Hs.
    match goal with
    | |- context [match ?best with Some _ => _ | None => Some row end] =>
        destruct best as [b|] eqn:E
    end.
    + destruct (findLatest_fold_newest shipId db None b E) as [_ Hmax].
      assert (Hrb := Hmax r Hin Hr).
      assert (Hrow : BankingRepository.sortsBefore
                       (BankingRepository.transaction_date r)
                       (BankingRepository.transaction_date row) = true)
        by (rewrite Hd, Hd'; simpl; apply Z.ltb_lt; exact Hlt).
      rewrite (sortsBefore_older _ _ _ Hrow Hrb). reflexivity.
    + apply findLatest_fold_None in E. destruct E as [_ E].
      exfalso. apply (E r Hin Hr).
Qed.

Lemma current_balance_witness :
  BankingRepository.getCurrentBalance "SHIP002" ledger_after_bank = 0 /\
  BankingRepository.getCurrentBalance "SHIP001"
    (ledger_after_bank ++ [row_dated "SHIP001" 5])
  = 7 /\
  BankingRepository.getCurrentBalance "SHIP001"
    (ledger_after_bank ++ [row_dated "SHIP001" 0])
  = BankingRepository.getCurrentBalance "SHIP001" ledger_after_bank.
Proof.
  split; [|split].
  - destruct (current_balance_is_read_from_the_latest_date
                "SHIP002" ledger_after_bank (row_dated "SHIP002" 0))
      as [H _].
    apply H. intros r [<-|[]]. discriminate.
  - destruct (current_balance_is_read_from_the_latest_date
                "SHIP001" ledger_after_bank (row_dated "SHIP001" 5))
      as [_ [_ [H _]]].
    apply (H 5%Z eq_refl eq_refl).
    intros r [<-|[]] _. exists 1%Z. split; [reflexivity | lia].
  - destruct (current_balance_is_read_from_the_latest_date
                "SHIP001" ledger_after_bank (row_dated "SHIP001" 0))
      as [_ [_ [_ H]]].
    apply (H 0%Z eq_refl eq_refl).
    eexists. exists 1%Z. split; [left; reflexivity|].
    split; [reflexivity|]. split; [reflexivity | lia].
Defined.

(** ** Saving a banking record *)

(** X11: saving a record the constructor has built appends one row that
    carries the record's ship, kind, year, amount, source year, remaining
    balance, date and description, and returns the same record with the
    store's identifier filled in: nothing is re-stamped or recomputed on the
    way to the store and back. *)
Theorem save_returns_the_record_it_was_given :
  forall (now : Z) (props : BankingRecord.IBankingRecordProps)
         (r : BankingRecord.t) (now' : Z) (uuid : string)
         (db : BankingRepository.table),
    BankingRecord.new now props = Ok r ->
    exists row,
      BankingRepository.save now' uuid r db
      = (db ++ [row],
         Ok {| BankingRecord.this_id := Some uuid;
               BankingRecord.this_shipId := BankingRecord.this_shipId r;
               BankingRecord.this_transactionType :=
                 BankingRecord.this_transactionType r;
               BankingRecord.this_year := BankingRecord.this_year r;
               BankingRecord.this_amount := BankingRecord.this_amount r;
               BankingRecord.this_sourceYear := BankingRecord.this_sourceYear r;
               BankingRecord.this_remainingBalance :=
                 BankingRecord.this_remainingBalance r;
               BankingRecord.this_transactionDate :=
                 BankingRecord.this_transactionDate r;
               BankingRecord.this_description :=
                 BankingRecord.this_description r |}) /\
      BankingRepository.id row = Some uuid /\
      BankingRepository.ship_id row = BankingRecord.this_shipId r /\
      BankingRepository.transaction_type row
      = BankingRecord.this_transactionType r /\
      BankingRepository.year row = BankingRecord.this_year r /\
      BankingRepository.amount row = BankingRecord.this_amount r /\
      BankingRepository.source_year row = BankingRecord.this_sourceYear r /\
      BankingRepository.remaining_balance row
      = BankingRecord.this_remainingBalance r /\
      BankingRepository.transaction_date row
      = Some (BankingRecord.this_transactionDate r).
Proof.
  intros now props r now' uuid db H.
  destruct (BankingRecord_new_Ok now props r H)
    as (Hs & Hy & Ha & Hr & Hb & Es & Et & Ey & Ea & Esy & Er).
  unfold BankingRepository.save, BankingRepository.toDomain, BankingRecord.new.
  rewrite BankingRecord_validate_passes; simpl.
  - eexists. split; [reflexivity|]. simpl. repeat split.
  - rewrite Es. exact Hs.
  - rewrite Ey. exact Hy.
  - rewrite Ea. exact Ha.
  - rewrite Er. exact Hr.
  - rewrite Et, Esy.
    destruct (BankingRecord.transactionType props); [reflexivity|].
    simpl. apply Hb. reflexivity.
Qed.

Lemma save_returns_the_record_witness :
  exists r row r',
    BankingRecord.createBankTransaction 1 "SHIP001" 2025 5 0 None = Ok r /\
    BankingRepository.save 9 "id-1" r [] = ([] ++ [row], Ok r') /\
    BankingRecord.this_transactionDate r' = 1%Z /\
    BankingRecord.this_id r' = Some "id-1"%string.
Proof.
  eexists.
  match goal with
  | |- exists row r', ?c = Ok ?r /\ _ =>
      assert (E : c = Ok r) by reflexivity
  end.
  unfold BankingRecord.createBankTransaction in E.
  destruct (save_returns_the_record_it_was_given _ _ _ 9 "id-1" [] E)
    as (row & Hsave & _).
  exists row. eexists. split; [reflexivity|]. split; [exact Hsave|].
  split; reflexivity.
Defined.

(** ** Comparing routes against the baseline *)





(** ** Reading pools *)

Lemma members_by_sign (ms : list Pool.PoolMember) :
  (List.length (filter (fun m => Js.gtb (Pool.complianceBalance m) 0) ms)
   + List.length (filter (fun m => Js.ltb (Pool.complianceBalance m) 0) ms)
   + List.length (filter (fun m => Js.eqb (Pool.complianceBalance m) 0) ms)
   = List.length ms)%nat /\
  (List.length (filter (fun m => Js.geb (Pool.complianceBalance m) 0) ms)
   = List.length (filter (fun m => Js.gtb (Pool.complianceBalance m) 0) ms)
     + List.length (filter (fun m => Js.eqb (Pool.complianceBalance m) 0) ms))%nat.
Proof.
  induction ms as [|m ms [IH1 IH2]]; simpl; [split; reflexivity|].
  destruct (Js.gtb (Pool.complianceBalance m) 0) eqn:Eg;
    destruct (Js.ltb (Pool.complianceBalance m) 0) eqn:El;
    destruct (Js.eqb (Pool.complianceBalance m) 0) eqn:Ee;
    destruct (Js.geb (Pool.complianceBalance m) 0) eqn:Ege;
    simpl; try (split; lia); exfalso;
    try apply gtb_true_iff in Eg; try apply gtb_false_iff in Eg;
    try apply ltb_true_iff in El; try apply ltb_false_iff in El;
    try (apply Qeq_bool_eq in Ee); try (apply Qeq_bool_neq in Ee);
    try apply geb_true_iff in Ege;
    try (assert (Hlt : Pool.complianceBalance m < 0)
           by (apply Qnot_le_lt; intro Hle; apply geb_true_iff in Hle;
               congruence));
    try lra.
Qed.

Lemma labels_by_sign (ms : list Pool.PoolMember) :
  List.length
    (filter (fun m => sameLabel (GetPoolDetails.contribution m)
                        GetPoolDetails.surplus)
       (map GetPoolDetails.memberDTO ms))
  = List.length (filter (fun m => Js.geb (Pool.complianceBalance m) 0) ms) /\
  (List.length
     (filter (fun m => sameLabel (GetPoolDetails.contribution m)
                         GetPoolDetails.deficit)
        (map GetPoolDetails.memberDTO ms))
   + List.length (filter (fun m => Js.geb (Pool.complianceBalance m) 0) ms)
   = List.length ms)%nat.
Proof.
  induction ms as [|m ms [IH1 IH2]]; [split; reflexivity|].
  cbn [map filter].
  assert (Hc : GetPoolDetails.contribution (GetPoolDetails.memberDTO m)
               = if Js.geb (Pool.complianceBalance m) 0
                 then GetPoolDetails.surplus else GetPoolDetails.deficit)
    by reflexivity.
  rewrite !Hc.
  destruct (Js.geb (Pool.complianceBalance m) 0); cbn [sameLabel List.length];
    split; lia.
Qed.

(** X13: the pool details are rejected with 'Either poolId or poolName must
    be provided' when both are absent or empty; a pool id, when given,
    decides the lookup alone and the name is ignored; an unknown pool is
    rejected with 'Pool not found'.  In the answer the counts
    [surplusMembers] and [deficitMembers] leave out the members whose balance
    is exactly 0, while the per-member label calls those members 'surplus':
    the labels 'surplus' outnumber [surplusMembers] by the number of
    zero-balance members. *)
Theorem GetPoolDetails_outcome :
  forall (input : GetPoolDetails.GetPoolDetailsInput)
         (repo : IPoolRepository.t),
    (truthyString (GetPoolDetails.poolId input) = false ->
     truthyString (GetPoolDetails.poolName input) = false ->
     GetPoolDetails.execute input repo = Rejected EitherPoolIdOrName) /\
    (forall pid,
        GetPoolDetails.poolId input = Some pid -> pid <> ""%string ->
        GetPoolDetails.execute input repo
        = match IPoolRepository.findById repo pid with
          | Some pool => Resolved (GetPoolDetails.format pool)
          | None => Rejected PoolNotFound
          end) /\
    (forall name,
        truthyString (GetPoolDetails.poolId input) = false ->
        GetPoolDetails.poolName input = Some name -> name <> ""%string ->
        GetPoolDetails.execute input repo
        = match IPoolRepository.findByName repo name with
          | Some pool => Resolved (GetPoolDetails.format pool)
          | None => Rejected PoolNotFound
          end) /\
    (forall pool,
        let out := GetPoolDetails.format pool in
        (GetPoolDetails.surplusMembers out + GetPoolDetails.deficitMembers out
         + List.length (balancedMembers pool)
         = GetPoolDetails.memberCount out)%nat /\
        (labelled GetPoolDetails.surplus out
         = GetPoolDetails.surplusMembers out
           + List.length (balancedMembers pool))%nat /\
        labelled GetPoolDetails.deficit out
        = GetPoolDetails.deficitMembers out).
Proof.
  intros input repo. split; [|split; [|split]].
  - intros H1 H2. unfold GetPoolDetails.execute. rewrite H1, H2. reflexivity.
  - intros pid Hp Hne. unfold GetPoolDetails.execute. rewrite Hp. simpl.
    apply String.eqb_neq in Hne. rewrite Hne. simpl.
    destruct (IPoolRepository.findById repo pid); reflexivity.
  - intros name Hid Hn Hne. unfold GetPoolDetails.execute.
    rewrite Hid, Hn. simpl.
    apply String.eqb_neq in Hne. rewrite Hne. simpl.
    destruct (IPoolRepository.findByName repo name); reflexivity.
  - intros pool out.
    destruct (members_by_sign (Pool.this_members pool)) as [H1 H2].
    destruct (labels_by_sign (Pool.this_members pool)) as [L1 L2].
    unfold labelled, out, GetPoolDetails.format.
    cbn [GetPoolDetails.surplusMembers GetPoolDetails.deficitMembers
         GetPoolDetails.memberCount GetPoolDetails.members].
    unfold Pool.getSurplusMembers, Pool.getDeficitMembers, Pool.getMemberCount,
      balancedMembers.
    split; [exact H1|]. split; [rewrite L1; exact H2 | lia].
Qed.

Lemma GetPoolDetails_outcome_witness :
  GetPoolDetails.execute
    {| GetPoolDetails.poolId := Some "p1"%string;
       GetPoolDetails.poolName := Some "other"%string |}
    {| IPoolRepository.findById := fun _ => Some pool_AB;
       IPoolRepository.findByName := fun _ => None;
       IPoolRepository.findByYear := fun _ => [];
       IPoolRepository.findByShipId := fun _ => [];
       IPoolRepository.findAll := [] |}
  = Resolved (GetPoolDetails.format pool_AB).
Proof.
  destruct (GetPoolDetails_outcome
              {| GetPoolDetails.poolId := Some "p1"%string;
                 GetPoolDetails.poolName := Some "other"%string |}
              {| IPoolRepository.findById := fun _ => Some pool_AB;
                 IPoolRepository.findByName := fun _ => None;
                 IPoolRepository.findByYear := fun _ => [];
                 IPoolRepository.findByShipId := fun _ => [];
                 IPoolRepository.findAll := [] |}) as [_ [H _]].
  apply (H "p1"%string eq_refl). discriminate.
Defined.

Lemma summaries_by_flag (pools : list Pool.t) :
  List.length (filter GetAllPools.isCompliant (map GetAllPools.summary pools))
  = List.length (filter Pool.this_isCompliant pools) /\
  (List.length (filter (fun s => negb (GetAllPools.isCompliant s))
                  (map GetAllPools.summary pools))
   + List.length (filter Pool.this_isCompliant pools)
   = List.length pools)%nat.
Proof.
  induction pools as [|p l [IH1 IH2]]; [split; reflexivity|].
  cbn [map filter].
  change (GetAllPools.isCompliant (GetAllPools.summary p))
    with (Pool.this_isCompliant p).
  destruct (Pool.this_isCompliant p); cbn [negb List.length]; split; lia.
Qed.

(** X14: the pool list takes its pools from the year filter whenever a
    year other than 0 is given, and then ignores the ship filter; a year of 0
    counts as no year.  Its three counters agree with the list it returns:
    [totalPools] is the number of summaries, [compliantPools] the number of
    compliant ones, [nonCompliantPools] the number of the others, and the two
    add up to the total. *)
Theorem GetAllPools_outcome :
  forall (input : GetAllPools.GetAllPoolsInput) (repo : IPoolRepository.t),
    let out := GetAllPools.execute input repo in
    (forall y, GetAllPools.year input = Some y -> y <> 0%Z ->
       GetAllPools.pools out
       = map GetAllPools.summary (IPoolRepository.findByYear repo y)) /\
    (GetAllPools.year input = Some 0%Z \/ GetAllPools.year input = None ->
     forall s, GetAllPools.shipId input = Some s -> s <> ""%string ->
       GetAllPools.pools out
       = map GetAllPools.summary (IPoolRepository.findByShipId repo s)) /\
    GetAllPools.totalPools out = List.length (GetAllPools.pools out) /\
    GetAllPools.compliantPools out
    = List.length (filter GetAllPools.isCompliant (GetAllPools.pools out)) /\
    GetAllPools.nonCompliantPools out
    = List.length
        (filter (fun s => negb (GetAllPools.isCompliant s))
           (GetAllPools.pools out)) /\
    (GetAllPools.compliantPools out + GetAllPools.nonCompliantPools out
     = GetAllPools.totalPools out)%nat.
Proof.
  intros input repo out. unfold out, GetAllPools.execute.
  cbn [GetAllPools.pools GetAllPools.totalPools GetAllPools.compliantPools
       GetAllPools.nonCompliantPools].
  set (pools := GetAllPools.select input repo).
  destruct (summaries_by_flag pools) as [Hc Hn].
  split; [|split; [|split; [|split; [|split]]]].
  - intros y Hy Hne. unfold pools, GetAllPools.select. rewrite Hy. simpl.
    unfold Js.truthyZ. apply Z.eqb_neq in Hne. rewrite Hne. reflexivity.
  - intros Hy s Hs Hne. unfold pools, GetAllPools.select. rewrite Hs.
    apply String.eqb_neq in Hne.
    destruct Hy as [Hy|Hy]; rewrite Hy; simpl; rewrite Hne; reflexivity.
  - rewrite length_map. reflexivity.
  - symmetry. exact Hc.
  - lia.
  - lia.
Qed.

Lemma GetAllPools_outcome_witness :
  let repo :=
    {| IPoolRepository.findById := fun _ => None;
       IPoolRepository.findByName := fun _ => None;
       IPoolRepository.findByYear := fun _ => [pool_AB];
       IPoolRepository.findByShipId := fun _ => [];
       IPoolRepository.findAll := [] |} in
  GetAllPools.pools
    (GetAllPools.execute
       {| GetAllPools.year := Some 2025%Z;
          GetAllPools.shipId := Some "A"%string |} repo)
  = [GetAllPools.summary pool_AB].
Proof.
  intro repo.
  destruct (GetAllPools_outcome
              {| GetAllPools.year := Some 2025%Z;
                 GetAllPools.shipId := Some "A"%string |} repo) as [H _].
  apply (H 2025%Z eq_refl). discriminate.
Defined.

(** ** Setting the baseline route *)

Lemma setBaseline_row (routeId : string) (m : RouteRepository.RouteModel) :
  let m2 :=
    (fun m1 => if (RouteRepository.route_id m1 =? routeId)%string
               then RouteRepository.set_is_baseline true m1 else m1)
      (if RouteRepository.is_baseline m
       then RouteRepository.set_is_baseline false m else m) in
  RouteRepository.route_id m2 = RouteRepository.route_id m /\
  RouteRepository.is_baseline m2
  = (RouteRepository.route_id m =? routeId)%string /\
  RouteRepository.set_is_baseline false m2
  = RouteRepository.set_is_baseline false m.
Proof.
  destruct m as [i rid v f y g c d b]. simpl.
  destruct b; simpl; destruct (rid =? routeId)%string; simpl; auto.
Qed.

Lemma one_row_per_key {A : Type} (key : A -> string) (k : string)
    (l : list A) :
  NoDup (map key l) -> In k (map key l) ->
  List.length (filter (fun m => (key m =? k)%string) l) = 1%nat.
Proof.
  induction l as [|a l IH]; simpl; intros Hnd Hin; [contradiction|].
  inversion Hnd as [|x xs Hna Hnd']; subst.
  destruct (key a =? k)%string eqn:E.
  - apply String.eqb_eq in E. subst k. simpl. f_equal.
    apply length_zero_iff_nil.
    destruct (filter _ l) as [|b t] eqn:F; [reflexivity|].
    exfalso. assert (Hb : In b (filter (fun m => (key m =? key a)%string) l))
      by (rewrite F; left; reflexivity).
    apply filter_In in Hb. destruct Hb as [Hb Eb]. apply String.eqb_eq in Eb.
    apply Hna. rewrite <- Eb. apply in_map. exact Hb.
  - apply IH; [exact Hnd'|]. destruct Hin as [Hin|Hin]; [|exact Hin].
    apply String.eqb_neq in E. contradiction.
Qed.

Lemma setBaseline_table (routeId : string) (db : RouteRepository.table) :
  let db2 :=
    RouteRepository.update
      (fun m => (RouteRepository.route_id m =? routeId)%string) true
      (RouteRepository.update RouteRepository.is_baseline false db) in
  map (RouteRepository.set_is_baseline false) db2
  = map (RouteRepository.set_is_baseline false) db /\
  map RouteRepository.route_id db2 = map RouteRepository.route_id db /\
  (forall m, In m db2 ->
     (RouteRepository.is_baseline m = true
      <-> RouteRepository.route_id m = routeId)) /\
  List.length (filter RouteRepository.is_baseline db2)
  = List.length
      (filter (fun m => (RouteRepository.route_id m =? routeId)%string) db).
Proof.
  unfold RouteRepository.update. rewrite map_map.
  induction db as [|m db (IH1 & IH2 & IH3 & IH4)]; simpl.
  - repeat split; auto; contradiction.
  - destruct (setBaseline_row routeId m) as (R1 & R2 & R3).
    cbv zeta in R1, R2, R3. cbv beta in R1, R2, R3.
    split; [rewrite R3, IH1; reflexivity|].
    split; [rewrite R1, IH2; reflexivity|]. split.
    + intros m' [<-|Hin]; [|apply IH3, Hin].
      rewrite R2, R1. apply String.eqb_eq.
    + rewrite R2. destruct (RouteRepository.route_id m =? routeId)%string;
        simpl; rewrite IH4; reflexivity.
Qed.

(** X15: setting the baseline is refused before anything is written when
    the route id is blank ('Route ID is required') or names no stored route
    (`Route ... not found`).  When it resolves, no column but [is_baseline]
    has changed in any row, and a row is flagged exactly when its route id is
    the requested one; so with route ids unique, as the table's column is,
    exactly one row is the baseline afterwards, whatever was flagged
    before. *)
Theorem SetBaseline_leaves_one_baseline :
  forall (newRoute : RouteRepository.RouteConstructor) (routeId : string)
         (db : RouteRepository.table),
    (Js.blank routeId = true ->
     SetBaseline.execute newRoute routeId db = (db, Rejected RouteIdRequired)) /\
    (Js.blank routeId = false ->
     ~ In routeId (map RouteRepository.route_id db) ->
     SetBaseline.execute newRoute routeId db
     = (db, Rejected (Known (RouteNotFound routeId)))) /\
    (forall db' r,
        SetBaseline.execute newRoute routeId db = (db', Resolved r) ->
        map (RouteRepository.set_is_baseline false) db'
        = map (RouteRepository.set_is_baseline false) db /\
        (forall m, In m db' ->
           (RouteRepository.is_baseline m = true
            <-> RouteRepository.route_id m = routeId)) /\
        (NoDup (map RouteRepository.route_id db) ->
         List.length (filter RouteRepository.is_baseline db') = 1%nat)).
Proof.
  intros newRoute routeId db. split; [|split].
  - intro Hb. unfold SetBaseline.execute. rewrite Hb. reflexivity.
  - intros Hb Hnin. unfold SetBaseline.execute. rewrite Hb.
    unfold RouteRepository.findByRouteId.
    assert (E : find (fun m => (RouteRepository.route_id m =? routeId)%string)
                  db = None).
    { apply find_None_iff. intros x Hx. apply String.eqb_neq. intro Ex.
      apply Hnin. rewrite <- Ex. apply in_map. exact Hx. }
    rewrite E. reflexivity.
  - intros db' r H. unfold SetBaseline.execute in H.
    destruct (Js.blank routeId); [discriminate|].
    destruct (RouteRepository.findByRouteId newRoute routeId db)
      as [[found|]|e] eqn:F; try discriminate.
    assert (Hin : In routeId (map RouteRepository.route_id db)).
    { unfold RouteRepository.findByRouteId in F.
      destruct (find _ db) as [m|] eqn:Ef; [|discriminate].
      apply find_some in Ef. destruct Ef as [Hm Em].
      apply String.eqb_eq in Em. rewrite <- Em. apply in_map. exact Hm. }
    unfold RouteRepository.setBaseline in H.
    destruct (setBaseline_table routeId db) as (T1 & T2 & T3 & T4).
    cbv zeta in T1, T2, T3, T4.
    destruct (RouteRepository.findByRouteId newRoute routeId
                (RouteRepository.update _ true _)) as [[u|]|e];
      simpl in H; injection H as <- _;
      (split; [exact T1|]; split; [exact T3|]; intro Hnd;
       rewrite T4; apply one_row_per_key; assumption).
Qed.

Lemma SetBaseline_leaves_one_baseline_witness :
  let row rid flag :=
    {| RouteRepository.id := rid;
       RouteRepository.route_id := rid;
       RouteRepository.vessel_type := "Container";
       RouteRepository.fuel_type := "HFO";
       RouteRepository.year := 2025;
       RouteRepository.ghg_intensity := 91;
       RouteRepository.fuel_consumption := 5000;
       RouteRepository.distance := 12000;
       RouteRepository.is_baseline := flag |} in
  exists db' r,
    SetBaseline.execute (fun _ => Ok route_5000t) "R002"
      [row "R001"%string true; row "R002"%string false; row "R003"%string true]
    = (db', Resolved r) /\
    List.length (filter RouteRepository.is_baseline db') = 1%nat.
Proof.
  intro row.
  destruct (SetBaseline_leaves_one_baseline (fun _ => Ok route_5000t) "R002"
              [row "R001"%string true; row "R002"%string false;
               row "R003"%string true]) as [_ [_ H]].
  eexists. eexists. split; [reflexivity|].
  refine (proj2 (proj2 (H _ _ eq_refl)) _).
  simpl. repeat constructor; simpl; intuition discriminate.
Defined.

(** ** Saving a pool *)




(** ** Blank identifiers *)







(** ** The HTTP handlers of the ledger *)

(** X18: the two POST handlers of the ledger.  An amount in tonnes, when
    given and not 0, is used and converted at 1,000,000 g per tonne, and the
    amount in grams is then ignored; with no usable tonnes the grams are
    used; with neither the answer is 400.  Every 400 answer, whether from a
    missing field or from the use case's error, leaves the table as it was,
    and every 201 answer has appended exactly one row, for the amount the
    handler computed. *)
Theorem BankingController_outcome :
  forall (env : Env) (body : BankingController.Body)
         (db : BankingRepository.table),
    (forall t, BankingController.amountTonnes body = Some t -> ~ t == 0 ->
       BankingController.amountInGrams body = Some (t * 1000000)) /\
    (BankingController.truthyAmount (BankingController.amountTonnes body)
     = false ->
     forall a, BankingController.amount body = Some a -> ~ a == 0 ->
       BankingController.amountInGrams body = Some a) /\
    (forall db' error,
        BankingController.bankSurplus env body db
        = (db', BankingController.Bad error) -> db' = db) /\
    (forall db' error,
        BankingController.applyBanking env body db
        = (db', BankingController.Bad error) -> db' = db) /\
    (forall db' result,
        BankingController.bankSurplus env body db
        = (db', BankingController.Created result) ->
        exists row grams,
          db' = db ++ [row] /\
          BankingController.amountInGrams body = Some grams /\
          BankingRepository.amount row = grams /\
          BankingRepository.transaction_type row = BankingRecord.BANK) /\
    (forall db' result,
        BankingController.applyBanking env body db
        = (db', BankingController.Created result) ->
        exists row grams,
          db' = db ++ [row] /\
          BankingController.amountInGrams body = Some grams /\
          BankingRepository.amount row = grams /\
          BankingRepository.transaction_type row = BankingRecord.BORROW).
Proof.
  intros env body db.
  split; [|split; [|split; [|split; [|split]]]].
  - intros t Ht Hne. unfold BankingController.amountInGrams. rewrite Ht.
    simpl. unfold Js.truthy.
    destruct (Qeq_bool t 0) eqn:E; [|reflexivity].
    apply Qeq_bool_eq in E. contradiction.
  - intros Hno a Ha Hne. unfold BankingController.amountInGrams.
    rewrite Hno, Ha. simpl. unfold Js.truthy.
    destruct (Qeq_bool a 0) eqn:E; [|reflexivity].
    apply Qeq_bool_eq in E. contradiction.
  - intros db' error. unfold BankingController.bankSurplus.
    destruct (negb _); [intro H; injection H as <- _; reflexivity|].
    destruct (negb _); [intro H; injection H as <- _; reflexivity|].
    destruct (BankingController.amountInGrams body) as [grams|];
      [|intro H; injection H as <- _; reflexivity].
    match goal with
    | |- context [BankSurplus.execute env ?i db] =>
        destruct (BankSurplus_execute_cases env i db)
          as [[e E] | (row & out & E & _)]; rewrite E
    end; intro H; [injection H as <- _; reflexivity | discriminate].
  - intros db' error. unfold BankingController.applyBanking.
    destruct (_ || _); [intro H; injection H as <- _; reflexivity|].
    destruct (BankingController.amountInGrams body) as [grams|];
      [|intro H; injection H as <- _; reflexivity].
    match goal with
    | |- context [ApplyBanking.execute env ?i db] =>
        destruct (ApplyBanking_execute_cases env i db)
          as [[e E] | (row & out & E & _)]; rewrite E
    end; intro H; [injection H as <- _; reflexivity | discriminate].
  - intros db' result. unfold BankingController.bankSurplus.
    destruct (negb _); [discriminate|].
    destruct (negb _); [discriminate|].
    destruct (BankingController.amountInGrams body) as [grams|];
      [|discriminate].
    match goal with
    | |- context [BankSurplus.execute env ?i db] =>
        destruct (BankSurplus.validateInput i) as [[]|e] eqn:Hv;
        [destruct (Qlt_le_dec
                     (BankingRepository.getCurrentBalance
                        (BankSurplus.shipId i) db + BankSurplus.amount i) 0)
           as [Hneg|Hge];
         [rewrite (BankSurplus_execute_refuses env i db Hv Hneg); discriminate
         |destruct (BankSurplus_execute_appends env i db Hv Hge)
            as (row & out & E & _ & E2 & _ & E4 & _); rewrite E]
        |unfold BankSurplus.execute; rewrite Hv; discriminate]
    end.
    intro H. injection H as <- _. exists row, grams.
    split; [reflexivity|]. split; [reflexivity|]. split; assumption.
  - intros db' result. unfold BankingController.applyBanking.
    destruct (_ || _); [discriminate|].
    destruct (BankingController.amountInGrams body) as [grams|];
      [|discriminate].
    match goal with
    | |- context [ApplyBanking.execute env ?i db] =>
        destruct (ApplyBanking.validateInput i) as [[]|e] eqn:Hv;
        [destruct (Qlt_le_dec
                     (BankingRepository.getCurrentBalance
                        (ApplyBanking.shipId i) db) (ApplyBanking.amount i))
           as [Hlt|Hle];
         [unfold ApplyBanking.execute; rewrite Hv;
          apply ltb_true_iff in Hlt; rewrite Hlt; discriminate
         |destruct (ApplyBanking_execute_writes env i db Hv Hle)
            as (row & out & E & _ & E2 & _ & E4 & _); rewrite E]
        |unfold ApplyBanking.execute; rewrite Hv; discriminate]
    end.
    intro H. injection H as <- _. exists row, grams.
    split; [reflexivity|]. split; [reflexivity|]. split; assumption.
Qed.

Lemma BankingController_outcome_witness :
  let body :=
    {| BankingController.shipId := Some "SHIP001"%string;
       BankingController.year := Some 2025%Z;
       BankingController.amount := Some 5;
       BankingController.amountTonnes := Some 100;
       BankingController.sourceYear := None;
       BankingController.description := None |} in
  BankingController.amountInGrams body = Some (100 * 1000000) /\
  exists db' result,
    BankingController.bankSurplus {| now := 1; uuid := "r1" |} body []
    = (db', BankingController.Created result) /\
    exists row, db' = [] ++ [row].
Proof.
  intro body.
  destruct (BankingController_outcome {| now := 1; uuid := "r1" |} body [])
    as (H1 & _ & _ & _ & H5 & _).
  split; [apply H1; [reflexivity | vm_compute; discriminate]|].
  destruct (BankingController.bankSurplus {| now := 1; uuid := "r1" |} body [])
    as [db' [result|error]] eqn:E; [|vm_compute in E; discriminate].
  exists db', result. split; [reflexivity|].
  destruct (H5 db' result eq_refl) as (row & grams & Hd & _).
  exists row. exact Hd.
Defined.

(** ** The banking history *)

Lemma dateLeb_total (a b : option Z) :
  GetBankingHistory.dateLeb a b = false -> GetBankingHistory.dateLeb b a = true.
Proof.
  destruct a as [a|], b as [b|]; simpl; try discriminate; try reflexivity.
  rewrite Z.leb_gt, Z.leb_le. lia.
Qed.

Lemma dateLeb_trans (a b c : option Z) :
  GetBankingHistory.dateLeb a b = true ->
  GetBankingHistory.dateLeb b c = true ->
  GetBankingHistory.dateLeb a c = true.
Proof.
  destruct a as [a|], b as [b|], c as [c|]; simpl; try discriminate;
    try reflexivity.
  rewrite !Z.leb_le. lia.
Qed.

Lemma dateLeb_refl (a : option Z) : GetBankingHistory.dateLeb a a = true.
Proof. destruct a; simpl; [apply Z.leb_refl | reflexivity]. Qed.

Lemma insertByDate_In (r x : BankingRepository.BankingRecordModel)
    (l : list BankingRepository.BankingRecordModel) :
  In x (GetBankingHistory.insertByDate r l) <-> x = r \/ In x l.
Proof.
  induction l as [|a l IH]; simpl.
  - intuition.
  - destruct (GetBankingHistory.dateLeb _ _); simpl.
    + intuition.
    + rewrite IH. intuition.
Qed.

Lemma orderAsc_In (x : BankingRepository.BankingRecordModel)
    (l : list BankingRepository.BankingRecordModel) :
  In x (GetBankingHistory.orderAsc l) <-> In x l.
Proof.
  induction l as [|a l IH]; simpl; [tauto|].
  rewrite insertByDate_In, IH. intuition.
Qed.

Lemma insertByDate_length (r : BankingRepository.BankingRecordModel)
    (l : list BankingRepository.BankingRecordModel) :
  List.length (GetBankingHistory.insertByDate r l) = S (List.length l).
Proof.
  induction l as [|a l IH]; simpl; [reflexivity|].
  destruct (GetBankingHistory.dateLeb _ _); simpl; [reflexivity|].
  rewrite IH. reflexivity.
Qed.

Lemma orderAsc_length (l : list BankingRepository.BankingRecordModel) :
  List.length (GetBankingHistory.orderAsc l) = List.length l.
Proof.
  induction l as [|a l IH]; simpl; [reflexivity|].
  rewrite insertByDate_length, IH. reflexivity.
Qed.

Lemma orderAsc_sorted (l : list BankingRepository.BankingRecordModel) :
  StronglySorted
    (fun a b => GetBankingHistory.dateLeb (BankingRepository.transaction_date a)
                  (BankingRepository.transaction_date b) = true)
    (GetBankingHistory.orderAsc l).
Proof.
  induction l as [|r l IH]; simpl; [constructor|].
  induction IH as [|a s Hs IHs Ha]; simpl.
  - constructor; constructor.
  - destruct (GetBankingHistory.dateLeb
                (BankingRepository.transaction_date r)
                (BankingRepository.transaction_date a)) eqn:E.
    + constructor; [constructor; assumption|].
      constructor; [exact E|].
      rewrite Forall_forall in *. intros x Hx.
      apply (dateLeb_trans _ _ _ E (Ha x Hx)).
    + constructor; [exact IHs|].
      rewrite Forall_forall in *. intros x Hx.
      apply insertByDate_In in Hx. destruct Hx as [->|Hx]; [|apply Ha, Hx].
      apply dateLeb_total. exact E.
Qed.

Lemma sorted_last_is_latest
    (l : list BankingRepository.BankingRecordModel)
    (d : BankingRepository.BankingRecordModel) :
  StronglySorted
    (fun a b => GetBankingHistory.dateLeb (BankingRepository.transaction_date a)
                  (BankingRepository.transaction_date b) = true) l ->
  l <> [] ->
  In (last l d) l /\
  forall x, In x l ->
    GetBankingHistory.dateLeb (BankingRepository.transaction_date x)
      (BankingRepository.transaction_date (last l d)) = true.
Proof.
  induction 1 as [|a s Hs IH Ha]; intro Hne; [contradiction|].
  destruct s as [|b s].
  - simpl. split; [left; reflexivity|].
    intros x [<-|[]]. apply dateLeb_refl.
  - assert (Hne' : b :: s <> []) by discriminate.
    destruct (IH Hne') as [Hin Hmax].
    change (last (a :: b :: s) d) with (last (b :: s) d).
    split; [right; exact Hin|].
    intros x [<-|Hx]; [|apply Hmax, Hx].
    rewrite Forall_forall in Ha. apply Ha. exact Hin.
Qed.

Lemma toDomainAll_of_valid_rows (now : Z)
    (rows : list BankingRepository.BankingRecordModel) :
  Forall row_ok rows ->
  exists records,
    GetBankingHistory.toDomainAll now rows = Ok records /\
    map BankingRecord.this_remainingBalance records
    = map BankingRepository.remaining_balance rows /\
    map (fun r => Some (BankingRecord.this_transactionDate r)) records
    = map BankingRepository.transaction_date rows.
Proof.
  induction 1 as [|row rows Hok Hall (records & E & Er & Ed)]; simpl.
  - exists []. repeat split.
  - destruct Hok as (Hs & Hy & Ha & Hr & Hb & [d Hd]).
    unfold BankingRepository.toDomain, BankingRecord.new.
    rewrite BankingRecord_validate_passes; simpl; try assumption.
    + rewrite E. simpl. eexists. split; [reflexivity|]. simpl.
      rewrite Er, Ed, Hd. split; reflexivity.
    + destruct (BankingRepository.transaction_type row); [reflexivity|].
      destruct (Hb eq_refl) as [sy [Esy Hsy]]. rewrite Esy. simpl.
      unfold Js.truthyZ. rewrite negb_involutive. apply Z.eqb_neq. lia.
Qed.

Lemma same_key_same_row {A B : Type} (key : A -> B) (l : list A) (x y : A) :
  NoDup (map key l) -> In x l -> In y l -> key x = key y -> x = y.
Proof.
  induction l as [|a l IH]; simpl; intros Hnd Hx Hy E; [contradiction|].
  inversion Hnd as [|k ks Hna Hnd']; subst.
  destruct Hx as [<-|Hx], Hy as [<-|Hy]; try reflexivity.
  - exfalso. apply Hna. rewrite E. apply in_map. exact Hy.
  - exfalso. apply Hna. rewrite <- E. apply in_map. exact Hx.
  - apply IH; assumption.
Qed.

Lemma last_map {A B : Type} (f : A -> B) (l : list A) (d : A) (d' : B) :
  l <> [] -> last (map f l) d' = f (last l d).
Proof.
  induction l as [|a l IH]; intro Hne; [contradiction|].
  destruct l as [|b l]; [reflexivity|].
  change (last (map f (a :: b :: l)) d') with (last (map f (b :: l)) d').
  change (last (a :: b :: l) d) with (last (b :: l) d).
  apply IH. discriminate.
Qed.

Lemma history_last_is_current (shipId : string) (db : BankingRepository.table) :
  Forall row_ok db ->
  NoDup (map BankingRepository.transaction_date
           (filter (fun row => (BankingRepository.ship_id row =? shipId)%string)
              db)) ->
  last (map BankingRepository.remaining_balance
          (GetBankingHistory.orderAsc
             (filter (fun row =>
                        (BankingRepository.ship_id row =? shipId)%string) db)))
       0
  = BankingRepository.getCurrentBalance shipId db.
Proof.
  intros Hok Hnd.
  set (rows := filter (fun row => (BankingRepository.ship_id row =? shipId)%string)
                 db) in *.
  unfold BankingRepository.getCurrentBalance.
  destruct (BankingRepository.findLatest shipId db) as [b|] eqn:F.
  - destruct (findLatest_In shipId db b F) as [Hbin Hbs].
    destruct (findLatest_fold_newest shipId db None b F) as [_ Hmax].
    assert (Hb : In b rows)
      by (apply filter_In; split; [exact Hbin | apply String.eqb_eq, Hbs]).
    assert (Hne : GetBankingHistory.orderAsc rows <> []).
    { intro E. apply (orderAsc_In b) in Hb. rewrite E in Hb. contradiction. }
    destruct (sorted_last_is_latest _ b (orderAsc_sorted rows) Hne)
      as [Hlin Hlmax].
    set (m := last (GetBankingHistory.orderAsc rows) b) in *.
    rewrite (last_map _ _ b 0 Hne). fold m.
    assert (Hm : In m rows) by (apply orderAsc_In; exact Hlin).
    assert (Hmdb : In m db /\ BankingRepository.ship_id m = shipId).
    { apply filter_In in Hm. destruct Hm as [Hm Em].
      apply String.eqb_eq in Em. tauto. }
    assert (E1 := Hlmax b (proj2 (orderAsc_In b rows) Hb)).
    assert (E2 := Hmax m (proj1 Hmdb) (proj2 Hmdb)).
    rewrite Forall_forall in Hok.
    destruct (Hok b Hbin) as (_ & _ & _ & _ & _ & [db_ Hdb]).
    destruct (Hok m (proj1 Hmdb)) as (_ & _ & _ & _ & _ & [dm Hdm]).
    assert (Ed : BankingRepository.transaction_date m
                 = BankingRepository.transaction_date b).
    { rewrite Hdb, Hdm in *. simpl in E1, E2.
      apply Z.leb_le in E1. apply Z.ltb_ge in E2. f_equal. lia. }
    rewrite (same_key_same_row _ rows m b Hnd Hm Hb Ed). reflexivity.
  - apply findLatest_fold_None in F. destruct F as [_ F].
    assert (E : rows = []).
    { destruct rows as [|r t] eqn:R; [reflexivity|]. exfalso.
      assert (Hr : In r rows) by (rewrite R; left; reflexivity).
      apply filter_In in Hr. destruct Hr as [Hr Er].
      apply String.eqb_eq in Er. apply (F r Hr Er). }
    rewrite E. reflexivity.
Qed.

(** X19: the banking history is refused with 'Ship ID is required' for a
    blank ship id.  On a table whose rows are all as the use cases write them
    (every table built from the empty one by bank and borrow requests), it
    always answers: it lists one transaction per row of the ship (of the
    ship and year when a year other than 0 is given), in ascending order of
    date, and reports the store's current balance; and when no two rows of
    the ship carry the same date, the remaining balance of the last listed
    transaction is the current balance it reports (0 and no transaction for a
    ship without rows). *)
Theorem history_agrees_with_the_current_balance :
  forall (now : Z) (input : GetBankingHistory.GetBankingHistoryInput)
         (db : BankingRepository.table),
    (Js.blank (GetBankingHistory.shipId input) = true ->
     GetBankingHistory.execute now input db = Throw ShipIdRequired) /\
    (Js.blank (GetBankingHistory.shipId input) = false ->
     Forall row_ok db ->
     exists out,
       GetBankingHistory.execute now input db = Ok out /\
       GetBankingHistory.currentBalance out
       = BankingRepository.getCurrentBalance
           (GetBankingHistory.shipId input) db /\
       GetBankingHistory.totalTransactions out
       = List.length (GetBankingHistory.transactions out) /\
       StronglySorted Z.le
         (map GetBankingHistory.transactionDate
            (GetBankingHistory.transactions out)) /\
       (forall y, GetBankingHistory.year input = Some y -> y <> 0%Z ->
          GetBankingHistory.totalTransactions out
          = List.length
              (filter (fun row =>
                         (BankingRepository.ship_id row
                          =? GetBankingHistory.shipId input)%string
                         && (BankingRepository.year row =? y)%Z) db)) /\
       (truthyYear (GetBankingHistory.year input) = false ->
        GetBankingHistory.totalTransactions out
        = List.length
            (filter (fun row =>
                       (BankingRepository.ship_id row
                        =? GetBankingHistory.shipId input)%string) db) /\
        (NoDup (map BankingRepository.transaction_date
                  (filter (fun row =>
                             (BankingRepository.ship_id row
                              =? GetBankingHistory.shipId input)%string) db)) ->
         last (map GetBankingHistory.remainingBalance
                 (GetBankingHistory.transactions out)) 0
         = GetBankingHistory.currentBalance out))).
Proof.
  intros now input db. split.
  - intro Hb. unfold GetBankingHistory.execute. rewrite Hb. reflexivity.
  - intros Hb Hok. unfold GetBankingHistory.execute. rewrite Hb.
    cbn [throwIf bind].
    set (rows :=
           if truthyYear (GetBankingHistory.year input)
           then filter (fun row =>
                          (BankingRepository.ship_id row
                           =? GetBankingHistory.shipId input)%string
                          && (BankingRepository.year row
                              =? the 0%Z (GetBankingHistory.year input))%Z) db
           else filter (fun row =>
                          (BankingRepository.ship_id row
                           =? GetBankingHistory.shipId input)%string) db).
    assert (Hrows : Forall row_ok (GetBankingHistory.orderAsc rows)).
    { rewrite Forall_forall in *. intros x Hx.
      apply (proj1 (orderAsc_In x rows)) in Hx.
      apply Hok. unfold rows in Hx.
      destruct (truthyYear _); apply filter_In in Hx; tauto. }
    destruct (toDomainAll_of_valid_rows now _ Hrows) as (records & E & Er & Ed).
    assert (Efind :
      (if truthyYear (GetBankingHistory.year input)
       then GetBankingHistory.findByShipIdAndYear now
              (GetBankingHistory.shipId input)
              (the 0%Z (GetBankingHistory.year input)) db
       else GetBankingHistory.findByShipId now
              (GetBankingHistory.shipId input) db) = Ok records).
    { unfold GetBankingHistory.findByShipIdAndYear,
        GetBankingHistory.findByShipId. unfold rows in E.
      destruct (truthyYear _); exact E. }
    rewrite Efind. cbn [bind]. eexists. split; [reflexivity|].
    cbn [GetBankingHistory.currentBalance GetBankingHistory.totalTransactions
         GetBankingHistory.transactions].
    assert (Elen : List.length (map GetBankingHistory.transactionDTO records)
                   = List.length rows).
    { rewrite length_map, <- (orderAsc_length rows).
      rewrite <- (length_map BankingRepository.remaining_balance), <- Er.
      rewrite length_map. reflexivity. }
    assert (Edates :
      map GetBankingHistory.transactionDate
        (map GetBankingHistory.transactionDTO records)
      = map BankingRecord.this_transactionDate records).
    { rewrite map_map. reflexivity. }
    assert (Erem :
      map GetBankingHistory.remainingBalance
        (map GetBankingHistory.transactionDTO records)
      = map BankingRepository.remaining_balance
          (GetBankingHistory.orderAsc rows)).
    { rewrite map_map. exact Er. }
    split; [reflexivity|]. split; [reflexivity|]. split; [|split].
    + rewrite Edates.
      pose proof (orderAsc_sorted rows) as S.
      clear - S Ed. revert records Ed.
      induction S as [|a s Hs IH Ha]; intros records Ed.
      * destruct records; [constructor | discriminate].
      * destruct records as [|r records]; [discriminate|].
        simpl in Ed. injection Ed as Ea Es.
        simpl. constructor; [apply IH; exact Es|].
        rewrite Forall_forall in *. intros d Hd.
        apply in_map_iff in Hd. destruct Hd as [r' [<- Hr']].
        assert (Hin : In (Some (BankingRecord.this_transactionDate r'))
                        (map BankingRepository.transaction_date s)).
        { rewrite <- Es. apply in_map_iff. exists r'. tauto. }
        apply in_map_iff in Hin. destruct Hin as [x [Ex Hx]].
        specialize (Ha x Hx). rewrite <- Ea, Ex in Ha. simpl in Ha.
        apply Z.leb_le. exact Ha.
    + intros y Hy Hne. rewrite Elen. unfold rows. rewrite Hy. simpl.
      unfold Js.truthyZ. apply Z.eqb_neq in Hne. rewrite Hne. reflexivity.
    + intro Hno. rewrite Elen, Erem. unfold rows. rewrite Hno.
      split; [reflexivity|]. intro Hnd.
      apply history_last_is_current; assumption.
Qed.

Lemma history_agrees_witness :
  exists out,
    GetBankingHistory.execute 9
      {| GetBankingHistory.shipId := "SHIP001";
         GetBankingHistory.year := None |} ledger_after_bank = Ok out /\
    GetBankingHistory.totalTransactions out = 1%nat /\
    last (map GetBankingHistory.remainingBalance
            (GetBankingHistory.transactions out)) 0
    = GetBankingHistory.currentBalance out.
Proof.
  destruct (history_agrees_with_the_current_balance 9
              {| GetBankingHistory.shipId := "SHIP001";
                 GetBankingHistory.year := None |} ledger_after_bank)
    as [_ H].
  destruct H as (out & E & _ & _ & _ & _ & H); [reflexivity | |].
  - repeat constructor; simpl; try lia; try reflexivity;
      try (vm_compute; reflexivity); try discriminate.
    eexists. reflexivity.
  - destruct (H eq_refl) as [Hn Hl].
    exists out. split; [exact E|]. split; [exact Hn|].
    apply Hl. simpl. repeat constructor. simpl. tauto.
Defined.

(** ** When a removal succeeds *)

(** X20: [removeMember] returns exactly when the ship is a member and the
    pool has at least three members; the pool it returns has one member
    fewer, the others in their order. *)
Theorem removeMember_succeeds_iff :
  forall (s : string) (p : Pool.t),
    ((exists p', Pool.removeMember s p = Pool.Returned p') <->
     In s (map Pool.shipId (Pool.this_members p)) /\
     (3 <= List.length (Pool.this_members p))%nat) /\
    (forall p',
        Pool.removeMember s p = Pool.Returned p' ->
        exists before m after,
          Pool.this_members p = before ++ m :: after /\
          Pool.shipId m = s /\
          ~ In s (map Pool.shipId before) /\
          Pool.this_members p' = before ++ after).
Proof.
  intros s p.
  assert (Hsome : forall index,
             Js.findIndex (fun m => (Pool.shipId m =? s)%string)
               (Pool.this_members p) = Some index ->
             exists before m after,
               Pool.this_members p = before ++ m :: after /\
               Pool.shipId m = s /\
               ~ In s (map Pool.shipId before) /\
               Js.splice1 index (Pool.this_members p) = before ++ after).
  { intros index Hi.
    destruct (findIndex_Some _ _ _ Hi) as (l1 & x & l2 & El & _ & Hx & Hl1 & Es).
    exists l1, x, l2. split; [exact El|].
    split; [apply String.eqb_eq; exact Hx|]. split; [|exact Es].
    intro Hin. apply in_map_iff in Hin. destruct Hin as [y [Ey Hy]].
    specialize (Hl1 y Hy). apply String.eqb_neq in Hl1. contradiction. }
  split; [split|].
  - intros [p' H]. unfold Pool.removeMember in H.
    destruct (Js.findIndex _ _) as [index|] eqn:Hi; [|discriminate].
    destruct (Hsome index eq_refl) as (l1 & x & l2 & El & Ex & _ & Es).
    simpl in H. rewrite Es in H.
    destruct (_ <? 2)%nat eqn:L; [discriminate|].
    apply Nat.ltb_ge in L. rewrite El. split.
    + rewrite map_app. apply in_or_app. right. left. exact Ex.
    + rewrite length_app in *. simpl. lia.
  - intros [Hin Hlen]. unfold Pool.removeMember.
    destruct (Js.findIndex _ _) as [index|] eqn:Hi.
    + destruct (Hsome index eq_refl) as (l1 & x & l2 & El & _ & _ & Es).
      simpl. rewrite Es.
      assert (L : (List.length (l1 ++ l2) <? 2)%nat = false).
      { apply Nat.ltb_ge. rewrite El in Hlen.
        rewrite length_app in *. simpl in Hlen. lia. }
      rewrite L. eexists. reflexivity.
    + exfalso. apply in_map_iff in Hin. destruct Hin as [y [Ey Hy]].
      pose proof (proj1 (findIndex_None _ _) Hi y Hy) as N.
      apply String.eqb_neq in N. contradiction.
  - intros p' H. unfold Pool.removeMember in H.
    destruct (Js.findIndex _ _) as [index|] eqn:Hi; [|discriminate].
    destruct (Hsome index eq_refl) as (l1 & x & l2 & El & Ex & Hn & Es).
    destruct (_ <? 2)%nat; [discriminate|]. injection H as <-.
    exists l1, x, l2. simpl. tauto.
Qed.

Lemma removeMember_succeeds_witness :
  exists p1 p2,
    Pool.addMember (ship "C" 7) pool_AB = Pool.Returned p1 /\
    Pool.removeMember "A" p1 = Pool.Returned p2.
Proof.
  eexists.
  match goal with
  | |- exists p2, ?a = Pool.Returned ?p1 /\ _ =>
      assert (E : a = Pool.Returned p1) by reflexivity
  end.
  match type of E with
  | _ = Pool.Returned ?p1 =>
      destruct (removeMember_succeeds_iff "A" p1) as [[_ H] _]
  end.
  destruct H as [p2 H2].
  - split; [simpl; auto | simpl; lia].
  - exists p2. split; [reflexivity | exact H2].
Defined.
